(** * expo-slack-webhook: previous-event resolution, message rendering and
      webhook status codes

    A shallow embedding of the Go packages [expo], [config], [update],
    [build] and [submit].

    Conventions of the embedding.
    - A Go [string] is a byte sequence: [String.string]; [len] is
      [String.length] and [s[0:7]] is defined only when [7 <= len s].
    - A Go [(T, error)] result is [Result T]; the error carries its message.
    - A run-time panic is the constructor [Panicked] of [Exec].
    - Calls that leave the process (the GraphQL endpoint, Slack, the HTTP
      response writer) are recorded, in program order, as [Event]s.
      [log.Printf] output is not an event; the arguments of a log call are
      still evaluated where they can panic.
    - Functions of the Go standard library and the process environment
      ([strings.EqualFold], [time.Parse], HMAC-SHA1, [os.LookupEnv],
      [time.Since], [json.Unmarshal]) are inputs of the model: the class
      [Runtime] and per-package section variables. *)

From Stdlib Require Import ZArith List String Ascii Bool Lia.
From Stdlib Require Import DecimalString.
From Stdlib Require Import QArith Qround Qpower Lqa.
From Stdlib Require Import SpecFloat Morphisms.
Import ListNotations.
Local Open Scope string_scope.
Local Open Scope Z_scope.

(** ** Results, panics and effects *)

Inductive Result (A : Type) : Type :=
| OkR (a : A)
| ErrR (msg : string).
Arguments OkR {A} a.
Arguments ErrR {A} msg.

Inductive Exec (A : Type) : Type :=
| Normal (a : A)
| Panicked.
Arguments Normal {A} a.
Arguments Panicked {A}.

Definition Exec_bind {A B} (x : Exec A) (k : A -> Exec B) : Exec B :=
  match x with
  | Normal a => k a
  | Panicked => Panicked
  end.

(** An instant (nanoseconds on the time line) and a [time.Duration]
    (an int64 count of nanoseconds). *)
Definition Time := Z.
Definition Duration := Z.

(** [t.After(u)]: the instant [t] is strictly later than [u]. *)
Definition Time_After (t u : Time) : bool := u <? t.

Class Runtime : Type := {
  strings_EqualFold : string -> string -> bool;
  strings_ToUpper : string -> string;
  time_Parse_RFC3339 : string -> Result Time;
  hmac_sha1 : string -> string -> string;
  os_LookupEnv : string -> option string;
  time_Since : Time -> Duration
}.

(** [fmt.Sprintf("%d", n)] *)
Definition itoa (n : Z) : string := NilZero.string_of_int (Z.to_int n).

(** The Go slice expression [s[0:7]] on a string. *)
Definition slice_0_7 (s : string) : Exec string :=
  if (7 <=? length s)%nat then Normal (substring 0 7 s) else Panicked.

(** ** float64 arithmetic

    [Duration.Seconds], [Duration.Minutes] and [Duration.Hours] return
    float64 values and [formatDuration] divides them as float64 before
    converting to [int].  A finite float64 is modelled by the rational it
    denotes; every operation is the exact operation followed by [RN],
    rounding to nearest, ties to even, onto 53-bit significands.  The
    exponent range of binary64 is not modelled: the magnitudes that occur
    for an int64 duration lie between 2^-42 and 2^34. *)

Module float64.

Definition pow2 (e : Z) : Q := (2 ^ e)%Q.

(** [ilog2 x] is the [e] with [2^e <= x < 2^(e+1)], for [0 < x]. *)
Definition ilog2 (x : Q) : Z :=
  let l := Z.log2 (Qnum x) - Z.log2 (Z.pos (Qden x)) in
  if Qle_bool (pow2 l) x then l else l - 1.

Definition round_half_even (x : Q) : Z :=
  let f := Qfloor x in
  match (x - inject_Z f ?= 1 # 2)%Q with
  | Lt => f
  | Gt => f + 1
  | Eq => if Z.even f then f else f + 1
  end.

Definition ulp (x : Q) : Q := pow2 (ilog2 x - 52).

Definition RN_pos (x : Q) : Q :=
  (inject_Z (round_half_even (x / ulp x)) * ulp x)%Q.

Definition RN (x : Q) : Q :=
  match (x ?= 0)%Q with
  | Eq => 0%Q
  | Gt => RN_pos x
  | Lt => (- RN_pos (- x))%Q
  end.

(** [float64(n)] for an integer [n]. *)
Definition of_int (n : Z) : Q := RN (inject_Z n).

Definition add (x y : Q) : Q := RN (x + y).

Definition div (x y : Q) : Q := RN (x / y).

(** [int(x)]: the fraction is discarded (truncation toward zero). *)
Definition to_int (x : Q) : Z := Z.quot (Qnum x) (Z.pos (Qden x)).

End float64.

(** ** Package time: the duration constants and float accessors *)

Definition time_Nanosecond : Duration := 1.
Definition time_Microsecond : Duration := 1000 * time_Nanosecond.
Definition time_Millisecond : Duration := 1000 * time_Microsecond.
Definition time_Second : Duration := 1000 * time_Millisecond.
Definition time_Minute : Duration := 60 * time_Second.
Definition time_Hour : Duration := 60 * time_Minute.

(** Go's [/] and [%] on integers truncate toward zero: [Z.quot], [Z.rem]. *)
Definition Duration_Seconds (d : Duration) : Q :=
  let sec := Z.quot d time_Second in
  let nsec := Z.rem d time_Second in
  float64.add (float64.of_int sec)
    (float64.div (float64.of_int nsec) (inject_Z 1000000000)).

Definition Duration_Minutes (d : Duration) : Q :=
  let min := Z.quot d time_Minute in
  let nsec := Z.rem d time_Minute in
  float64.add (float64.of_int min)
    (float64.div (float64.of_int nsec) (inject_Z (60 * 1000000000))).

Definition Duration_Hours (d : Duration) : Q :=
  let hour := Z.quot d time_Hour in
  let nsec := Z.rem d time_Hour in
  float64.add (float64.of_int hour)
    (float64.div (float64.of_int nsec) (inject_Z (60 * 60 * 1000000000))).

(** ** Package slack: the message blocks the handlers build *)

Module slack.

Inductive MessageBlockType : Type := MBTSection.
Inductive TextType : Type := MarkdownType.

Record TextBlockObject : Type := mkText { Type_ : TextType; Text : string }.

Inductive Block : Type :=
| HeaderBlock (kind : MessageBlockType) (text : TextBlockObject)
| SectionBlock (kind : MessageBlockType) (text : TextBlockObject).

End slack.

(** ** Effects *)

Inductive Event : Type :=
| EvWriteHeader (statusCode : Z)
| EvFetchBuilds (projectId channel : string) (platform : string)
    (limit offset : Z)
| EvFetchSubmission (id : string)
| EvFetchUpdateChannel (projectId channel : string)
| EvFetchUpdates (projectId branch : string) (limit offset : Z)
| EvPostMessage (channel : string) (blocks : list slack.Block).

(** A computation: the events performed so far and how it ended. *)
Definition M (A : Type) : Type := (list Event * Exec A)%type.

Definition ret {A} (a : A) : M A := ([], Normal a).

Definition bind {A B} (x : M A) (k : A -> M B) : M B :=
  match x with
  | (tr, Normal a) => let (tr', r) := k a in ((tr ++ tr')%list, r)
  | (tr, Panicked) => (tr, Panicked)
  end.

Definition emit (e : Event) : M unit := ([e], Normal tt).

Definition lift {A} (x : Exec A) : M A := ([], x).

Definition trace {A} (x : M A) : list Event := fst x.

Notation "x <- c1 ;; c2" := (bind c1 (fun x => c2))
  (at level 61, c1 at next level, right associativity).
Notation "c1 ;;; c2" := (bind c1 (fun _ => c2))
  (at level 61, right associativity).

(** ** Package expo *)

Module expo.

Definition Platform := string.
Definition PlatformAndroid : Platform := "android".
Definition PlatformIOS : Platform := "ios".

Definition Platform_Equal `{Runtime} (p other : Platform) : bool :=
  strings_EqualFold p other.

Definition Status := string.
Definition StatusFinished : Status := "finished".
Definition StatusCancelled : Status := "cancelled".
Definition StatusErrored : Status := "errored".

Definition Status_Equal `{Runtime} (p other : Status) : bool :=
  strings_EqualFold p other.

Module Error.
Record t : Type := mk { Message : string; ErrorCode : string }.
End Error.

Definition Error_Failed (e : Error.t) : bool :=
  negb (Error.ErrorCode e =? "")%string || negb (Error.Message e =? "")%string.

Definition Error_Error (e : Error.t) : string :=
  Error.ErrorCode e ++ ": " ++ Error.Message e.

Module BuildVersionMetadata.
Record t : Type := mk {
    Channel : string;
    AppVersion : string;
    AppBuildVersion : string;
    GitCommitHash : string
  }.
End BuildVersionMetadata.

Module Build.
Record t : Type := mk {
    Id : string;
    Status : Status;
    Platform : Platform;
    Error : Error.t;
    CreatedAt : string;
    BuildVersionMetadata : BuildVersionMetadata.t
  }.
Definition GitCommitHash (b : t) : string :=
    BuildVersionMetadata.GitCommitHash (BuildVersionMetadata b).
End Build.

Module BranchFragment.
Record t : Type := mk { Id : string; Name : string }.
End BranchFragment.

Module Update.
Record t : Type := mk {
    Id : string;
    Group : string;
    Platform : Platform;
    GitCommitHash : string;
    Branch : BranchFragment.t;
    CreatedAt : string
  }.
End Update.

Module UpdateBranch.
Record t : Type := mk {
    Id : string;
    Name : string;
    UpdateGroups : list (list Update.t)
  }.
End UpdateBranch.

Module UpdateChannel.
Record t : Type := mk {
    Id : string;
    Name : string;
    UpdateBranches : list UpdateBranch.t
  }.
End UpdateChannel.

Module App.
Record t : Type := mk { Id : string; Name : string }.
End App.

Module Submission.
Record t : Type := mk {
    Id : string;
    App : App.t;
    SubmittedBuild : Build.t
  }.
End Submission.

Definition PlatformEmoji (platform : Platform) : string :=
  if (platform =? PlatformAndroid)%string then ":android:"
  else if (platform =? PlatformIOS)%string then ":apple_logo:"
  else ":grey_question:".

Definition PlatformDisplay (platform : Platform) : string :=
  if (platform =? PlatformAndroid)%string then "Android"
  else if (platform =? PlatformIOS)%string then "iOS"
  else "Unknown platform ".

Definition StatusEmoji (status : Status) : string :=
  if (status =? StatusFinished)%string then ":large_green_circle:"
  else if (status =? StatusCancelled)%string then ":large_yellow_circle:"
  else if (status =? StatusErrored)%string then ":red_circle:"
  else ":black_circle:".

Definition StatusDisplay (status : Status) : string :=
  if (status =? StatusFinished)%string then "succeeded"
  else if (status =? StatusCancelled)%string then "cancelled"
  else if (status =? StatusErrored)%string then "errored"
  else "in an unknown state".

Definition FormatTitle (emoji name : string) (platform : Platform)
    (status : Status) : string :=
  emoji ++ " " ++ PlatformEmoji platform ++ " " ++ StatusEmoji status
    ++ " | " ++ PlatformDisplay platform ++ " " ++ name ++ " "
    ++ StatusDisplay status ++ ".".

Definition FormatBuildVersion (build : BuildVersionMetadata.t) : Exec string :=
  Exec_bind (slice_0_7 (BuildVersionMetadata.GitCommitHash build)) (fun short =>
  Normal (BuildVersionMetadata.AppVersion build ++ " ("
    ++ BuildVersionMetadata.AppBuildVersion build
    ++ ") [<https://github.com/NWACus/avy/commit/"
    ++ BuildVersionMetadata.GitCommitHash build ++ "|" ++ short
    ++ ">] @<https://expo.dev/accounts/nwac/projects/avalanche-forecast/channels/"
    ++ BuildVersionMetadata.Channel build ++ "|"
    ++ BuildVersionMetadata.Channel build ++ ">")).

(** The GraphQL endpoint, as the four client methods see it: what a query
    with the given bearer token and variables yields once the HTTP status
    is checked and the body decoded. *)
Class Upstream : Type := {
  ViewBuildsOnApp :
    string -> string -> string -> string -> Z -> Z -> Result (list Build.t);
  SubmissionByIdQuery : string -> string -> Result Submission.t;
  ViewUpdateChannelOnApp :
    string -> string -> string -> Result UpdateChannel.t;
  ViewUpdateGroupsOnBranch :
    string -> string -> string -> Z -> Z -> Result (list (list Update.t))
}.

Module Client.
Record t : Type := mk { Token : string }.
End Client.

Section ClientMethods.
Context `{Runtime} `{Upstream}.

Definition Client_FetchBuilds (c : Client.t) (projectId channel : string)
    (platform : Platform) (limit offset : Z)
    : M (Result (list Build.t)) :=
  emit (EvFetchBuilds projectId channel (strings_ToUpper platform) limit offset) ;;;
  ret (ViewBuildsOnApp (Client.Token c) projectId channel
         (strings_ToUpper platform) limit offset).

Definition Client_FetchSubmission (c : Client.t) (id : string)
    : M (Result Submission.t) :=
  emit (EvFetchSubmission id) ;;;
  match SubmissionByIdQuery (Client.Token c) id with
  | ErrR err => ret (ErrR err)
  | OkR parsed =>
      (* the closing log line formats the submitted build's version *)
      lift (FormatBuildVersion
              (Build.BuildVersionMetadata
                 (Submission.SubmittedBuild parsed))) ;;;
      ret (OkR parsed)
  end.

Definition Client_FetchUpdateChannel (c : Client.t) (projectId channel : string)
    : M (Result UpdateChannel.t) :=
  emit (EvFetchUpdateChannel projectId channel) ;;;
  ret (ViewUpdateChannelOnApp (Client.Token c) projectId channel).

Definition Client_FetchUpdates (c : Client.t) (projectId branch : string)
    (limit offset : Z) : M (Result (list (list Update.t))) :=
  emit (EvFetchUpdates projectId branch limit offset) ;;;
  ret (ViewUpdateGroupsOnBranch (Client.Token c) projectId branch limit offset).

End ClientMethods.

End expo.

(** ** Package config *)

Module config.
Record Config : Type := mk {
  ExpoHMACSecret : string;
  ExpoClient : expo.Client.t;
  SlackClient : string;
  SlackChannel : string
}.
End config.

(** [strings.HasPrefix(s, prefix)] *)
Definition strings_HasPrefix (s prefix : string) : bool := String.prefix prefix s.

(** The pointer a fetch returns next to its error: nil on every error path. *)
Definition orNil {A} (r : Result (option A)) : option A :=
  match r with
  | OkR p => p
  | ErrR _ => None
  end.

Definition section (text : string) : slack.Block :=
  slack.SectionBlock slack.MBTSection (slack.mkText slack.MarkdownType text).

Definition header (text : string) : slack.Block :=
  slack.HeaderBlock slack.MBTSection (slack.mkText slack.MarkdownType text).

(** ** Packages net/http and encoding/hex, as far as the handlers use them *)

Module http.
(** An inbound request: the method, what [io.ReadAll(r.Body)] yields, and
    [r.Header.Get]. *)
Record Request : Type := mkRequest {
  Method : string;
  Body : Result string;
  Header_Get : string -> string
}.
Definition StatusOK : Z := 200.
Definition StatusBadRequest : Z := 400.
Definition StatusUnauthorized : Z := 401.
Definition StatusMethodNotAllowed : Z := 405.
Definition StatusInternalServerError : Z := 500.
End http.

Module hex.
Definition hextable : string := "0123456789abcdef".

Definition digit (n : nat) : string := substring n 1 hextable.

Fixpoint EncodeToString (src : string) : string :=
  match src with
  | EmptyString => EmptyString
  | String c rest =>
      digit (nat_of_ascii c / 16) ++ digit (nat_of_ascii c mod 16)
        ++ EncodeToString rest
  end.
End hex.

(** The signature a webhook must carry for [body] under [secret]. *)
Definition expectedSignature `{Runtime} (secret body : string) : string :=
  "sha1=" ++ hex.EncodeToString (hmac_sha1 secret body).

(** ** Package update *)

Module update.

Module Update.
Record t : Type := mk {
  Id : string;
  AppId : string;
  Group : string;
  CreatedAt : string;
  Branch : string;
  Platform : expo.Platform;
  GitCommitHash : string
}.
End Update.

Definition formatDuration (d : Duration) : string :=
  if d <? time_Minute then
    itoa (float64.to_int (Duration_Seconds d)) ++ " seconds"
  else if d <? time_Hour then
    itoa (float64.to_int (Duration_Minutes d)) ++ " minutes"
  else if d <? 24 * time_Hour then
    itoa (float64.to_int (Duration_Hours d)) ++ " hours"
  else if d <? 30 * 24 * time_Hour then
    itoa (float64.to_int (float64.div (Duration_Hours d) (inject_Z 24))) ++ " days"
  else if d <? 365 * 24 * time_Hour then
    itoa (float64.to_int (float64.div (Duration_Hours d) (inject_Z (30 * 24))))
      ++ " months"
  else
    itoa (float64.to_int (float64.div (Duration_Hours d) (inject_Z (365 * 24))))
      ++ " years".

Section Handlers.
Context `{Runtime} `{expo.Upstream}.
Variable json_Unmarshal : string -> Result (list Update.t).

(** The inner loop of [previousUpdateFor] over one group: [Some r] when the
    function returns [r] from inside the loop, [None] when the loop runs
    to its end. *)
Fixpoint previousUpdateFor_members (platform : expo.Platform) (createdAt : Time)
    (members : list expo.Update.t) : option (Result (option expo.Update.t)) :=
  match members with
  | [] => None
  | u :: rest =>
      if negb (expo.Platform_Equal (expo.Update.Platform u) platform) then
        previousUpdateFor_members platform createdAt rest
      else
        match time_Parse_RFC3339 (expo.Update.CreatedAt u) with
        | ErrR err =>
            Some (ErrR ("failed to parse createdAt for update "
                          ++ expo.Update.Id u ++ ": " ++ err))
        | OkR updateCreatedAt =>
            if Time_After updateCreatedAt createdAt then
              previousUpdateFor_members platform createdAt rest
            else Some (OkR (Some u))
        end
  end.

Fixpoint previousUpdateFor (platform : expo.Platform) (createdAt : Time)
    (updates : list (list expo.Update.t)) : Result (option expo.Update.t) :=
  match updates with
  | [] => OkR None
  | group :: rest =>
      match previousUpdateFor_members platform createdAt group with
      | Some r => r
      | None => previousUpdateFor platform createdAt rest
      end
  end.

Definition fetchPreviousUpdate (cfg : config.Config) (update : Update.t)
    : M (Result (option expo.Update.t)) :=
  match time_Parse_RFC3339 (Update.CreatedAt update) with
  | ErrR err => ret (ErrR ("failed to parse createdAt: " ++ err))
  | OkR createdAt =>
      r <- expo.Client_FetchUpdates (config.ExpoClient cfg)
             (Update.AppId update) (Update.Branch update) 10 0 ;;
      match r with
      | ErrR err => ret (ErrR ("failed to fetch updates: " ++ err))
      | OkR updates =>
          ret (previousUpdateFor (Update.Platform update) createdAt updates)
      end
  end.

Definition blocksFor (cfg : config.Config) (update : Update.t)
    (previous : option expo.Update.t) : Exec (Result (list slack.Block)) :=
  let blocks :=
    [header (":arrows_counterclockwise:" ++ expo.PlatformEmoji (Update.Platform update)
       ++ expo.StatusEmoji expo.StatusFinished ++ "| "
       ++ expo.PlatformDisplay (Update.Platform update) ++ " OTA update "
       ++ expo.StatusDisplay expo.StatusFinished ++ ".")] in
  let last :=
    section ("See update details <https://expo.dev/accounts/nwac/projects/avalanche-forecast/updates/"
       ++ Update.Id update ++ "|here>.") in
  match previous with
  | Some previous =>
      match time_Parse_RFC3339 (expo.Update.CreatedAt previous) with
      | ErrR err =>
          Normal (ErrR ("failed to parse createdAt for update "
                          ++ Update.Id update ++ ": " ++ err))
      | OkR createdAt =>
          Exec_bind (slice_0_7 (expo.Update.GitCommitHash previous)) (fun short =>
          Normal (OkR (blocks ++
            [section ("The <https://expo.dev/accounts/nwac/projects/avalanche-forecast/updates/"
               ++ Update.Id update ++ "|previous update>, for commit <https://github.com/NWACus/avy/commit/"
               ++ expo.Update.GitCommitHash previous ++ "|" ++ short
               ++ ">, was published " ++ formatDuration (time_Since createdAt)
               ++ " ago. See the changelog on <https://github.com/NWACus/avy/compare/"
               ++ expo.Update.GitCommitHash previous ++ "..."
               ++ Update.GitCommitHash update ++ "|GitHub>")] ++ [last])%list))
      end
  | None => Normal (OkR (blocks ++ [last])%list)
  end.

Definition allowPreviews : bool :=
  match os_LookupEnv "ALLOW_PREVIEW" with
  | Some _ => true
  | None => false
  end.

Fixpoint handlePayload (cfg : config.Config) (updates : list Update.t) : M unit :=
  match updates with
  | [] => ret tt
  | update :: rest =>
      if negb allowPreviews && strings_HasPrefix (Update.Branch update) "xxx" then
        handlePayload cfg rest
      else
        r <- fetchPreviousUpdate cfg update ;;
        b <- lift (blocksFor cfg update (orNil r)) ;;
        match b with
        | ErrR _ => ret tt
        | OkR blocks =>
            emit (EvPostMessage (config.SlackChannel cfg) blocks) ;;;
            handlePayload cfg rest
        end
  end.

(** Handle consumes the webhook and posts the data to Slack. *)
Definition Handle (cfg : config.Config) (r : http.Request) : M unit :=
  if negb (http.Method r =? "POST")%string then
    emit (EvWriteHeader http.StatusMethodNotAllowed)
  else
    match http.Body r with
    | ErrR _ => emit (EvWriteHeader http.StatusInternalServerError)
    | OkR body =>
        let receivedSignature := http.Header_Get r "signature" in
        if negb (expectedSignature (config.ExpoHMACSecret cfg) body
                   =? receivedSignature)%string then
          emit (EvWriteHeader http.StatusUnauthorized)
        else
          match json_Unmarshal body with
          | ErrR _ => emit (EvWriteHeader http.StatusBadRequest)
          | OkR payload =>
              emit (EvWriteHeader http.StatusOK) ;;;
              handlePayload cfg payload
          end
    end.

End Handlers.
End update.

(** ** Package build *)

Module build.

Module Metadata.
Record t : Type := mk {
  AppName : string;
  BuildVersionMetadata : expo.BuildVersionMetadata.t
}.
Definition Channel (m : t) : string :=
  expo.BuildVersionMetadata.Channel (BuildVersionMetadata m).
Definition GitCommitHash (m : t) : string :=
  expo.BuildVersionMetadata.GitCommitHash (BuildVersionMetadata m).
End Metadata.

Module WebhookPayload.
Record t : Type := mk {
  Id : string;
  AppId : string;
  Details : string;
  Platform : expo.Platform;
  Status : expo.Status;
  Metadata : Metadata.t;
  Error : expo.Error.t;
  CreatedAt : string
}.
End WebhookPayload.

Definition formatDuration (d : Duration) : string :=
  if d <? time_Minute then
    itoa (float64.to_int (Duration_Seconds d)) ++ " seconds"
  else if d <? time_Hour then
    itoa (float64.to_int (Duration_Minutes d)) ++ " minutes"
  else if d <? 24 * time_Hour then
    itoa (float64.to_int (Duration_Hours d)) ++ " hours"
  else if d <? 30 * 24 * time_Hour then
    itoa (float64.to_int (float64.div (Duration_Hours d) (inject_Z 24))) ++ " days"
  else if d <? 365 * 24 * time_Hour then
    itoa (float64.to_int (float64.div (Duration_Hours d) (inject_Z (30 * 24))))
      ++ " months"
  else
    itoa (float64.to_int (float64.div (Duration_Hours d) (inject_Z (365 * 24))))
      ++ " years".

Section Handlers.
Context `{Runtime} `{expo.Upstream}.
Variable json_Unmarshal : string -> Result WebhookPayload.t.

Fixpoint updateBranchFor_group (platform : expo.Platform)
    (group : list expo.Update.t) : option string :=
  match group with
  | [] => None
  | update :: rest =>
      if expo.Platform_Equal (expo.Update.Platform update) platform then
        Some (expo.BranchFragment.Name (expo.Update.Branch update))
      else updateBranchFor_group platform rest
  end.

Fixpoint updateBranchFor_groups (platform : expo.Platform)
    (groups : list (list expo.Update.t)) : option string :=
  match groups with
  | [] => None
  | group :: rest =>
      match updateBranchFor_group platform group with
      | Some name => Some name
      | None => updateBranchFor_groups platform rest
      end
  end.

Fixpoint updateBranchFor_branches (platform : expo.Platform)
    (branches : list expo.UpdateBranch.t) : string :=
  match branches with
  | [] => ""
  | branch :: rest =>
      match updateBranchFor_groups platform (expo.UpdateBranch.UpdateGroups branch) with
      | Some name => name
      | None => updateBranchFor_branches platform rest
      end
  end.

(** [channel] is a pointer in the source: [None] is nil. *)
Definition updateBranchFor (platform : expo.Platform)
    (channel : option expo.UpdateChannel.t) : string :=
  match channel with
  | None => ""
  | Some channel =>
      updateBranchFor_branches platform (expo.UpdateChannel.UpdateBranches channel)
  end.

Fixpoint previousUpdateFor_members (platform : expo.Platform) (createdAt : Time)
    (members : list expo.Update.t) : option (Result (option expo.Update.t)) :=
  match members with
  | [] => None
  | u :: rest =>
      if negb (expo.Platform_Equal (expo.Update.Platform u) platform) then
        previousUpdateFor_members platform createdAt rest
      else
        match time_Parse_RFC3339 (expo.Update.CreatedAt u) with
        | ErrR err =>
            Some (ErrR ("failed to parse createdAt for update "
                          ++ expo.Update.Id u ++ ": " ++ err))
        | OkR updateCreatedAt =>
            if Time_After updateCreatedAt createdAt then
              previousUpdateFor_members platform createdAt rest
            else Some (OkR (Some u))
        end
  end.

Fixpoint previousUpdateFor (platform : expo.Platform) (createdAt : Time)
    (updates : list (list expo.Update.t)) : Result (option expo.Update.t) :=
  match updates with
  | [] => OkR None
  | group :: rest =>
      match previousUpdateFor_members platform createdAt group with
      | Some r => r
      | None => previousUpdateFor platform createdAt rest
      end
  end.

Definition fetchPreviousUpdate (cfg : config.Config) (w : WebhookPayload.t)
    : M (Result (option expo.Update.t)) :=
  match time_Parse_RFC3339 (WebhookPayload.CreatedAt w) with
  | ErrR err => ret (ErrR ("failed to parse createdAt: " ++ err))
  | OkR createdAt =>
      c <- expo.Client_FetchUpdateChannel (config.ExpoClient cfg)
             (WebhookPayload.AppId w)
             (Metadata.Channel (WebhookPayload.Metadata w)) ;;
      match c with
      | ErrR err => ret (ErrR ("failed to fetch update channel: " ++ err))
      | OkR channel =>
          let updateBranch :=
            updateBranchFor (WebhookPayload.Platform w) (Some channel) in
          if (updateBranch =? "")%string then
            ret (ErrR ("failed to find update branch for platform "
                         ++ WebhookPayload.Platform w))
          else
            r <- expo.Client_FetchUpdates (config.ExpoClient cfg)
                   (WebhookPayload.AppId w) updateBranch 10 0 ;;
            match r with
            | ErrR err => ret (ErrR ("failed to fetch updates: " ++ err))
            | OkR updates =>
                ret (previousUpdateFor (WebhookPayload.Platform w) createdAt updates)
            end
      end
  end.

(** The loop of [fetchPreviousBuild] from index [i] on, [builds] being the
    elements at [i], [i+1], ...: [i < len(builds)-1] holds exactly when an
    element follows the current one. *)
Fixpoint fetchPreviousBuild_scan (id : string) (builds : list expo.Build.t)
    : option expo.Build.t :=
  match builds with
  | [] => None
  | b :: rest =>
      match rest with
      | next :: _ =>
          if (expo.Build.Id b =? id)%string then Some next
          else fetchPreviousBuild_scan id rest
      | [] => None
      end
  end.

Definition fetchPreviousBuild (cfg : config.Config) (w : WebhookPayload.t)
    : M (Result (option expo.Build.t)) :=
  r <- expo.Client_FetchBuilds (config.ExpoClient cfg) (WebhookPayload.AppId w)
         (Metadata.Channel (WebhookPayload.Metadata w))
         (WebhookPayload.Platform w) 10 0 ;;
  match r with
  | ErrR err => ret (ErrR ("failed to fetch build list: " ++ err))
  | OkR builds => ret (OkR (fetchPreviousBuild_scan (WebhookPayload.Id w) builds))
  end.

(** The trailing block: the error detail, when the event carries a failure,
    and the link to the details page. *)
Definition detailsText (w : WebhookPayload.t) : string :=
  let msg := "" in
  let msg :=
    if expo.Error_Failed (WebhookPayload.Error w) then
      msg ++ "Error " ++ expo.Error_Error (WebhookPayload.Error w) ++ String "010" ""
    else msg in
  msg ++ "See build details <" ++ WebhookPayload.Details w ++ "|here>.".

Definition blocksFor (cfg : config.Config) (w : WebhookPayload.t)
    (build : option expo.Build.t) (update : option expo.Update.t)
    : Exec (Result (list slack.Block)) :=
  Exec_bind (expo.FormatBuildVersion
               (Metadata.BuildVersionMetadata (WebhookPayload.Metadata w)))
  (fun version =>
  let blocks :=
    [header (":hammer_and_wrench:" ++ expo.PlatformEmoji (WebhookPayload.Platform w)
       ++ expo.StatusEmoji (WebhookPayload.Status w) ++ "| "
       ++ expo.PlatformDisplay (WebhookPayload.Platform w) ++ " build of "
       ++ Metadata.AppName (WebhookPayload.Metadata w) ++ " " ++ version ++ " "
       ++ expo.StatusDisplay (WebhookPayload.Status w) ++ ".")] in
  Exec_bind
    (match build with
     | Some build =>
         match time_Parse_RFC3339 (expo.Build.CreatedAt build) with
         | ErrR err =>
             Normal (ErrR ("failed to parse createdAt for build "
                             ++ expo.Build.Id build ++ ": " ++ err))
         | OkR createdAt =>
             Exec_bind (expo.FormatBuildVersion (expo.Build.BuildVersionMetadata build))
             (fun previous =>
             Normal (OkR (blocks ++
               [section ("The <https://expo.dev/accounts/nwac/projects/avalanche-forecast/builds/"
                  ++ expo.Build.Id build ++ "|previous build>, " ++ previous
                  ++ ", was published " ++ formatDuration (time_Since createdAt)
                  ++ " ago. See the changelog on <https://github.com/NWACus/avy/compare/"
                  ++ expo.Build.GitCommitHash build ++ "..."
                  ++ Metadata.GitCommitHash (WebhookPayload.Metadata w)
                  ++ "|GitHub>")])%list))
         end
     | None => Normal (OkR blocks)
     end)
  (fun afterBuild =>
  match afterBuild with
  | ErrR err => Normal (ErrR err)
  | OkR blocks =>
  Exec_bind
    (match update with
     | Some update =>
         match time_Parse_RFC3339 (expo.Update.CreatedAt update) with
         | ErrR err =>
             Normal (ErrR ("failed to parse createdAt for update "
                             ++ expo.Update.Id update ++ ": " ++ err))
         | OkR createdAt =>
             Exec_bind (slice_0_7 (expo.Update.GitCommitHash update)) (fun short =>
             Normal (OkR (blocks ++
               [section ("The <https://expo.dev/accounts/nwac/projects/avalanche-forecast/updates/"
                  ++ expo.Update.Id update
                  ++ "|previous update>, for commit <https://github.com/NWACus/avy/commit/"
                  ++ expo.Update.GitCommitHash update ++ "|" ++ short
                  ++ ">, was published " ++ formatDuration (time_Since createdAt)
                  ++ " ago. See the changelog on <https://github.com/NWACus/avy/compare/"
                  ++ expo.Update.GitCommitHash update ++ "..."
                  ++ Metadata.GitCommitHash (WebhookPayload.Metadata w)
                  ++ "|GitHub>")])%list))
         end
     | None => Normal (OkR blocks)
     end)
  (fun afterUpdate =>
  match afterUpdate with
  | ErrR err => Normal (ErrR err)
  | OkR blocks => Normal (OkR (blocks ++ [section (detailsText w)])%list)
  end)
  end)).

Definition handlePayload (cfg : config.Config) (w : WebhookPayload.t) : M unit :=
  previousBuild <- fetchPreviousBuild cfg w ;;
  previousUpdate <- fetchPreviousUpdate cfg w ;;
  b <- lift (blocksFor cfg w (orNil previousBuild) (orNil previousUpdate)) ;;
  match b with
  | ErrR _ => ret tt
  | OkR blocks => emit (EvPostMessage (config.SlackChannel cfg) blocks)
  end.

(** Handle consumes the webhook and posts the data to Slack. *)
Definition Handle (cfg : config.Config) (r : http.Request) : M unit :=
  if negb (http.Method r =? "POST")%string then
    emit (EvWriteHeader http.StatusMethodNotAllowed)
  else
    match http.Body r with
    | ErrR _ => emit (EvWriteHeader http.StatusInternalServerError)
    | OkR body =>
        let receivedSignature := http.Header_Get r "expo-signature" in
        if negb (expectedSignature (config.ExpoHMACSecret cfg) body
                   =? receivedSignature)%string then
          emit (EvWriteHeader http.StatusUnauthorized)
        else
          match json_Unmarshal body with
          | ErrR _ => emit (EvWriteHeader http.StatusBadRequest)
          | OkR payload =>
              emit (EvWriteHeader http.StatusOK) ;;;
              handlePayload cfg payload
          end
    end.

End Handlers.
End build.

(** ** Package submit *)

Module submit.

Module Info.
Record t : Type := mk { Error : expo.Error.t }.
End Info.

Module WebhookPayload.
Record t : Type := mk {
  Id : string;
  Details : string;
  Platform : expo.Platform;
  Status : expo.Status;
  Info : Info.t
}.
End WebhookPayload.

Section Handlers.
Context `{Runtime} `{expo.Upstream}.
Variable json_Unmarshal : string -> Result WebhookPayload.t.

Definition detailsText (w : WebhookPayload.t) : string :=
  let msg := "" in
  let msg :=
    if expo.Error_Failed (Info.Error (WebhookPayload.Info w)) then
      msg ++ "Error " ++ expo.Error_Error (Info.Error (WebhookPayload.Info w))
        ++ String "010" ""
    else msg in
  msg ++ "See details <" ++ WebhookPayload.Details w ++ "|here>.".

Definition blocksFor (cfg : config.Config) (w : WebhookPayload.t)
    (submission : option expo.Submission.t) : Exec (Result (list slack.Block)) :=
  let msg :=
    expo.FormatTitle ":arrow_up:" "submission" (WebhookPayload.Platform w)
      (WebhookPayload.Status w) in
  Exec_bind
    (match submission with
     | Some submission =>
         Exec_bind (expo.FormatBuildVersion
                      (expo.Build.BuildVersionMetadata
                         (expo.Submission.SubmittedBuild submission)))
         (fun version =>
         Normal (":arrow_up:" ++ expo.PlatformEmoji (WebhookPayload.Platform w)
           ++ expo.StatusEmoji (WebhookPayload.Status w) ++ "| "
           ++ expo.PlatformDisplay (WebhookPayload.Platform w) ++ " submission of "
           ++ expo.App.Name (expo.Submission.App submission) ++ " " ++ version ++ " "
           ++ expo.StatusDisplay (WebhookPayload.Status w) ++ "."))
     | None => Normal msg
     end)
  (fun msg => Normal (OkR [header msg; section (detailsText w)])).

Definition handlePayload (cfg : config.Config) (w : WebhookPayload.t) : M unit :=
  r <- expo.Client_FetchSubmission (config.ExpoClient cfg) (WebhookPayload.Id w) ;;
  let submission := match r with OkR s => Some s | ErrR _ => None end in
  b <- lift (blocksFor cfg w submission) ;;
  match b with
  | ErrR _ => ret tt
  | OkR blocks => emit (EvPostMessage (config.SlackChannel cfg) blocks)
  end.

(** Handle consumes the webhook and posts the data to Slack. *)
Definition Handle (cfg : config.Config) (r : http.Request) : M unit :=
  if negb (http.Method r =? "POST")%string then
    emit (EvWriteHeader http.StatusMethodNotAllowed)
  else
    match http.Body r with
    | ErrR _ => emit (EvWriteHeader http.StatusInternalServerError)
    | OkR body =>
        let receivedSignature := http.Header_Get r "expo-signature" in
        if negb (expectedSignature (config.ExpoHMACSecret cfg) body
                   =? receivedSignature)%string then
          emit (EvWriteHeader http.StatusUnauthorized)
        else
          match json_Unmarshal body with
          | ErrR _ => emit (EvWriteHeader http.StatusBadRequest)
          | OkR payload =>
              emit (EvWriteHeader http.StatusOK) ;;;
              handlePayload cfg payload
          end
    end.

End Handlers.
End submit.

(** ** A reference runtime for worked examples

    The theorems below hold for every [Runtime] and [Upstream].  To run the
    model on concrete requests this section supplies one instance:
    SHA-1 (RFC 3174) and HMAC (RFC 2104) over byte strings, ASCII case
    folding for [strings.EqualFold] and [strings.ToUpper], and RFC3339
    timestamps of the form [YYYY-MM-DDTHH:MM:SSZ]. *)

Module sha1.

Definition w32 (x : Z) : Z := x mod 2 ^ 32.

Definition rotl (n x : Z) : Z :=
  w32 (Z.lor (Z.shiftl x n) (Z.shiftr x (32 - n))).

Definition bytes_of_string (s : string) : list Z :=
  map (fun c => Z.of_nat (nat_of_ascii c)) (list_ascii_of_string s).

Definition string_of_bytes (l : list Z) : string :=
  string_of_list_ascii (map (fun b => ascii_of_nat (Z.to_nat b)) l).

(** The [n] low bytes of [x], most significant first. *)
Fixpoint be_bytes (n : nat) (x : Z) : list Z :=
  match n with
  | O => []
  | S n' => (be_bytes n' (x / 256) ++ [x mod 256])%list
  end.

Definition be_word (bs : list Z) : Z :=
  fold_left (fun acc b => acc * 256 + b) bs 0.

Definition pad (msg : list Z) : list Z :=
  let l := Z.of_nat (List.length msg) in
  (msg ++ [128] ++ repeat 0 (Z.to_nat ((55 - l) mod 64)) ++ be_bytes 8 (8 * l))%list.

Fixpoint chunks (fuel size : nat) (l : list Z) : list (list Z) :=
  match fuel, l with
  | O, _ => []
  | _, [] => []
  | S fuel', _ => firstn size l :: chunks fuel' size (skipn size l)
  end.

(** The message schedule, newest word first. *)
Fixpoint schedule (n : nat) (ws : list Z) : list Z :=
  match n with
  | O => ws
  | S n' =>
      schedule n'
        (rotl 1 (Z.lxor (Z.lxor (nth 2 ws 0) (nth 7 ws 0))
                        (Z.lxor (nth 13 ws 0) (nth 15 ws 0))) :: ws)
  end.

Definition f (t b c d : Z) : Z :=
  if t <? 20 then Z.lor (Z.land b c) (Z.land (w32 (Z.lnot b)) d)
  else if t <? 40 then Z.lxor (Z.lxor b c) d
  else if t <? 60 then Z.lor (Z.lor (Z.land b c) (Z.land b d)) (Z.land c d)
  else Z.lxor (Z.lxor b c) d.

Definition K (t : Z) : Z :=
  if t <? 20 then 1518500249
  else if t <? 40 then 1859775393
  else if t <? 60 then 2400959708
  else 3395469782.

Definition State : Type := (Z * Z * Z * Z * Z)%type.

Fixpoint rounds (t : Z) (ws : list Z) (s : State) : State :=
  match ws with
  | [] => s
  | w :: rest =>
      let '(a, b, c, d, e) := s in
      rounds (t + 1) rest
        (w32 (rotl 5 a + f t b c d + e + K t + w), a, rotl 30 b, c, d)
  end.

Definition block (s : State) (bytes : list Z) : State :=
  let ws := rev (schedule 64 (rev (map be_word (chunks 16 4 bytes)))) in
  let '(h0, h1, h2, h3, h4) := s in
  let '(a, b, c, d, e) := rounds 0 ws s in
  (w32 (h0 + a), w32 (h1 + b), w32 (h2 + c), w32 (h3 + d), w32 (h4 + e)).

Definition init : State :=
  (1732584193, 4023233417, 2562383102, 271733878, 3285377520).

Definition sum_bytes (msg : list Z) : list Z :=
  let p := pad msg in
  let '(h0, h1, h2, h3, h4) :=
    fold_left block (chunks (List.length p) 64 p) init in
  (be_bytes 4 h0 ++ be_bytes 4 h1 ++ be_bytes 4 h2 ++ be_bytes 4 h3
     ++ be_bytes 4 h4)%list.

Definition Sum (s : string) : string :=
  string_of_bytes (sum_bytes (bytes_of_string s)).

Definition hmac (key msg : string) : string :=
  let k := bytes_of_string key in
  let k := if (64 <? List.length k)%nat then sum_bytes k else k in
  let k := (k ++ repeat 0 (64 - List.length k))%list in
  let ipad := map (Z.lxor 54) k in
  let opad := map (Z.lxor 92) k in
  string_of_bytes
    (sum_bytes (opad ++ sum_bytes (ipad ++ bytes_of_string msg))%list).

End sha1.

Module reference.

Definition lower (c : ascii) : ascii :=
  let n := nat_of_ascii c in
  if ((65 <=? n) && (n <=? 90))%nat then ascii_of_nat (n + 32) else c.

Definition upper (c : ascii) : ascii :=
  let n := nat_of_ascii c in
  if ((97 <=? n) && (n <=? 122))%nat then ascii_of_nat (n - 32) else c.

Fixpoint map_string (g : ascii -> ascii) (s : string) : string :=
  match s with
  | EmptyString => EmptyString
  | String c rest => String (g c) (map_string g rest)
  end.

Definition EqualFold (s t : string) : bool :=
  (map_string lower s =? map_string lower t)%string.

Definition ToUpper (s : string) : string := map_string upper s.

Definition digit (c : ascii) : option Z :=
  let n := nat_of_ascii c in
  if ((48 <=? n) && (n <=? 57))%nat then Some (Z.of_nat (n - 48)) else None.

Fixpoint number (s : string) (acc : Z) : option Z :=
  match s with
  | EmptyString => Some acc
  | String c rest =>
      match digit c with
      | Some k => number rest (10 * acc + k)
      | None => None
      end
  end.

(** Days from 1970-01-01 to the given civil date (proleptic Gregorian). *)
Definition days_from_civil (y m d : Z) : Z :=
  let y := if m <=? 2 then y - 1 else y in
  let era := y / 400 in
  let yoe := y - era * 400 in
  let doy := (153 * (if 2 <? m then m - 3 else m + 9) + 2) / 5 + d - 1 in
  let doe := yoe * 365 + yoe / 4 - yoe / 100 + doy in
  era * 146097 + doe - 719468.

Definition days_in_month (y m : Z) : Z :=
  if m =? 2 then
    if ((y mod 4 =? 0) && negb (y mod 100 =? 0)) || (y mod 400 =? 0)
    then 29 else 28
  else if (m =? 4) || (m =? 6) || (m =? 9) || (m =? 11) then 30
  else 31.

Definition Parse_RFC3339 (s : string) : Result Time :=
  let bad := ErrR ("cannot parse " ++ s ++ " as RFC3339") in
  if negb ((length s =? 20)%nat
           && (substring 4 1 s =? "-")%string && (substring 7 1 s =? "-")%string
           && (substring 10 1 s =? "T")%string && (substring 13 1 s =? ":")%string
           && (substring 16 1 s =? ":")%string && (substring 19 1 s =? "Z")%string)
  then bad
  else
    match number (substring 0 4 s) 0, number (substring 5 2 s) 0,
          number (substring 8 2 s) 0, number (substring 11 2 s) 0,
          number (substring 14 2 s) 0, number (substring 17 2 s) 0 with
    | Some y, Some m, Some d, Some hh, Some mm, Some ss =>
        if (1 <=? m) && (m <=? 12) && (1 <=? d) && (d <=? days_in_month y m)
           && (hh <? 24) && (mm <? 60) && (ss <? 60)
        then OkR ((((days_from_civil y m d * 24 + hh) * 60 + mm) * 60 + ss)
                    * 1000000000)
        else bad
    | _, _, _, _, _, _ => bad
    end.

(** The wall clock of the examples: 2024-06-01T00:00:00Z. *)
Definition now : Time := 1717200000 * 1000000000.

#[local] Instance runtime : Runtime := {
  strings_EqualFold := EqualFold;
  strings_ToUpper := ToUpper;
  time_Parse_RFC3339 := Parse_RFC3339;
  hmac_sha1 := sha1.hmac;
  os_LookupEnv := fun _ => None;
  time_Since := fun t => now - t
}.

End reference.

(** ** Bounds for the analysis of formatDuration

    [accessor unit d] is what [Duration.Seconds], [Minutes] and [Hours]
    compute for the unit of each; the other definitions are the upper
    bounds and the finite checks the proofs about [formatDuration] use. *)

Module analysis.
Import float64.
Local Open Scope Q_scope.

Definition accessor (unit : Z) (d : Duration) : Q :=
  add (of_int (Z.quot d unit)) (div (of_int (Z.rem d unit)) (inject_Z unit)).

Definition fracMax (unit rmax : Z) : Q := RN (inject_Z rmax / inject_Z unit).

Definition accessorMax (unit rmax q : Z) : Q :=
  RN (inject_Z q + fracMax unit rmax).

Definition Qltb (x y : Q) : bool := negb (Qle_bool y x).

Definition range (lo n : Z) : list Z := map (fun i => lo + Z.of_nat i)%Z (seq 0 (Z.to_nat n)).

Definition countMax (unit rmax D q : Z) : Q :=
  RN (accessorMax unit rmax q / inject_Z D).

Definition directCheck (unit qmax : Z) : bool :=
  forallb (fun q => Qltb (accessorMax unit (unit - 1) q) (inject_Z (q + 1)))
    (range 0 (qmax + 1)).

Definition dividedCheck (unit rmax D off alo n : Z) : bool :=
  forallb (fun a => Qltb (countMax unit rmax D (D * a + off)) (inject_Z (a + 1)))
    (range alo n).

End analysis.

(** The binary64 operations of the Standard Library's specification of
    IEEE 754 ([SpecFloat]), to compare the rational model with. *)

Module binary64.
Definition of_Z (n : Z) : spec_float := binary_normalize 53 1024 n 0 false.
Definition add : spec_float -> spec_float -> spec_float := SFadd 53 1024.
Definition div : spec_float -> spec_float -> spec_float := SFdiv 53 1024.

Definition to_Q (f : spec_float) : option Q :=
  match f with
  | S754_zero _ => Some 0%Q
  | S754_finite s m e =>
      Some ((if s then - inject_Z (Z.pos m) else inject_Z (Z.pos m))
            * float64.pow2 e)%Q
  | _ => None
  end.

Definition Hours (d : Duration) : spec_float :=
  add (of_Z (Z.quot d time_Hour))
      (div (of_Z (Z.rem d time_Hour)) (of_Z (60 * 60 * 1000000000))).

(** [x], a value of the rational model, is the number the binary64 datum
    [f] denotes. *)
Definition agree (x : Q) (f : spec_float) : bool :=
  match to_Q f with
  | Some y => Qeq_bool x y
  | None => false
  end.
End binary64.

(** ** Vocabulary of the specification *)

Section ScanVocabulary.
Context `{Runtime}.
Variables (platform : expo.Platform) (createdAt : Time).

(** The member is passed over: its platform differs, or its timestamp
    parses and is strictly after the reference time. *)
Definition skipped (u : expo.Update.t) : bool :=
  negb (expo.Platform_Equal (expo.Update.Platform u) platform)
  || match time_Parse_RFC3339 (expo.Update.CreatedAt u) with
     | OkR t => createdAt <? t
     | ErrR _ => false
     end.

(** The member survives: same platform, timestamp not after the reference. *)
Definition surviving (u : expo.Update.t) : bool :=
  expo.Platform_Equal (expo.Update.Platform u) platform
  && match time_Parse_RFC3339 (expo.Update.CreatedAt u) with
     | OkR t => t <=? createdAt
     | ErrR _ => false
     end.

(** The member has the platform and a timestamp that is not RFC3339. *)
Definition unparseable (u : expo.Update.t) : bool :=
  expo.Platform_Equal (expo.Update.Platform u) platform
  && match time_Parse_RFC3339 (expo.Update.CreatedAt u) with
     | OkR _ => false
     | ErrR _ => true
     end.

End ScanVocabulary.


Definition isFetchUpdates (e : Event) : bool :=
  match e with
  | EvFetchUpdates _ _ _ _ => true
  | _ => false
  end.

Definition isFetchUpdateChannel (e : Event) : bool :=
  match e with
  | EvFetchUpdateChannel _ _ => true
  | _ => false
  end.

Definition isWriteHeader (e : Event) : bool :=
  match e with
  | EvWriteHeader _ => true
  | _ => false
  end.

(** A run that only writes the status [code] and returns. *)
Definition respondsOnly (code : Z) : M unit := ([EvWriteHeader code], Normal tt).

(** A run that writes status 200 and then does what [work] does. *)
Definition acknowledgesThen (work : M unit) : M unit :=
  (EvWriteHeader 200 :: trace work, snd work).

(** ** Sample data for the worked examples *)

Module sample.

Definition cfg : config.Config :=
  config.mk "s" (expo.Client.mk "token") "xoxb" "#releases".

Definition mkUpdate (id : string) (platform : expo.Platform)
    (hash branch createdAt : string) : expo.Update.t :=
  expo.Update.mk id "g" platform hash (expo.BranchFragment.mk "br" branch) createdAt.

Definition u3 : expo.Update.t :=
  mkUpdate "u3" "ios" "3333333aaaa" "production" "2024-01-03T00:00:00Z".
Definition a3 : expo.Update.t :=
  mkUpdate "a3" "android" "3333333aaaa" "production" "2024-01-03T00:00:00Z".
Definition u1 : expo.Update.t :=
  mkUpdate "u1" "IOS" "1111111aaaa" "production" "2024-01-01T00:00:00Z".
Definition ubad : expo.Update.t :=
  mkUpdate "ubad" "ios" "0000000aaaa" "production" "yesterday".
Definition unameless : expo.Update.t :=
  mkUpdate "u0" "ios" "0000000aaaa" "" "2024-01-01T00:00:00Z".
Definition ushort : expo.Update.t :=
  mkUpdate "us" "ios" "abc" "short" "2024-01-01T00:00:00Z".

Definition t_2024_01_01 : Time := 1704067200 * 1000000000.
Definition t_2024_01_02 : Time := 1704153600 * 1000000000.

Definition mkBuild (id hash createdAt : string) : expo.Build.t :=
  expo.Build.mk id "finished" "ios" (expo.Error.mk "" "") createdAt
    (expo.BuildVersionMetadata.mk "production" "1.2.0" "41" hash).

Definition B3 : expo.Build.t := mkBuild "b3" "cccccccc3" "2024-01-03T00:00:00Z".
Definition B2 : expo.Build.t := mkBuild "b2" "bbbbbbbb2" "2024-01-02T00:00:00Z".
Definition B1 : expo.Build.t := mkBuild "b1" "aaaaaaaa1" "2024-01-01T00:00:00Z".

Definition channelOf (name : string) (u : expo.Update.t) : expo.UpdateChannel.t :=
  expo.UpdateChannel.mk "ch" name
    [expo.UpdateBranch.mk "br0" "empty" [];
     expo.UpdateBranch.mk "br" name [[a3; u]]].

(** An upstream with one app: builds [b3, b2, b1] newest first, the
    channels [production], [nameless] (its updates carry no branch name)
    and [short] (a three-character commit hash). *)
#[local] Instance upstream : expo.Upstream := {
  expo.ViewBuildsOnApp := fun _ _ _ _ _ _ => OkR [B3; B2; B1];
  expo.SubmissionByIdQuery := fun _ id =>
    if (id =? "s1")%string
    then OkR (expo.Submission.mk "s1" (expo.App.mk "app" "Avy") B2)
    else ErrR "404";
  expo.ViewUpdateChannelOnApp := fun _ _ channel =>
    if (channel =? "production")%string then OkR (channelOf "production" u3)
    else if (channel =? "nameless")%string then OkR (channelOf "nameless" unameless)
    else if (channel =? "short")%string then OkR (channelOf "short" ushort)
    else ErrR "404";
  expo.ViewUpdateGroupsOnBranch := fun _ _ branch _ _ =>
    if (branch =? "production")%string then OkR [[u3; a3]; [u1]]
    else if (branch =? "short")%string then OkR [[ushort]]
    else ErrR "404"
}.

Definition payload (id channel hash createdAt : string) : build.WebhookPayload.t :=
  build.WebhookPayload.mk id "app" "https://expo.dev/b" "ios" "finished"
    (build.Metadata.mk "Avy"
       (expo.BuildVersionMetadata.mk channel "1.2.0" "42" hash))
    (expo.Error.mk "" "") createdAt.

Definition w2 : build.WebhookPayload.t :=
  payload "b2" "production" "bbbbbbbb2" "2024-01-02T00:00:00Z".

Definition update_xxx : update.Update.t :=
  update.Update.mk "n1" "app" "g" "2024-01-02T00:00:00Z" "xxx-preview" "ios" "2222222aaaa".
Definition update_prod : update.Update.t :=
  update.Update.mk "n2" "app" "g" "2024-01-02T00:00:00Z" "production" "ios" "2222222aaaa".

(** A decoder standing for [json.Unmarshal] on two bodies. *)
Definition unmarshalBuild (body : string) : Result build.WebhookPayload.t :=
  if (body =? "{}")%string then OkR w2 else ErrR "invalid character".

Definition unmarshalUpdates (body : string) : Result (list update.Update.t) :=
  if (body =? "[]")%string then OkR [update_xxx; update_prod]
  else ErrR "invalid character".

Definition unmarshalSubmit (body : string) : Result submit.WebhookPayload.t :=
  if (body =? "{}")%string
  then OkR (submit.WebhookPayload.mk "s1" "https://expo.dev/s" "ios" "finished"
              (submit.Info.mk (expo.Error.mk "" "")))
  else ErrR "invalid character".

Definition request (method body : string) (signature : string) : http.Request :=
  http.mkRequest method (OkR body)
    (fun name => if (name =? "signature")%string || (name =? "expo-signature")%string
                 then signature else "").

End sample.

(** ** Configuration loading and the entry points

    [config.LoadFromEnv], the serverless [Handler] of each package, the
    options of the server's [main] and the test client of [test/main.go]. *)

(** The four variables [LoadFromEnv] reads, each with the place its value
    is stored. *)
Inductive EnvTarget : Type :=
| IntoSlackToken
| IntoSlackChannel
| IntoExpoHMACSecret
| IntoExpoToken.

Definition envName (target : EnvTarget) : string :=
  match target with
  | IntoSlackToken => "SLACK_TOKEN"
  | IntoSlackChannel => "SLACK_CHANNEL"
  | IntoExpoHMACSecret => "EXPO_HMAC_SECRET"
  | IntoExpoToken => "EXPO_TOKEN"
  end.

Definition envTargets : list EnvTarget :=
  [IntoSlackToken; IntoSlackChannel; IntoExpoHMACSecret; IntoExpoToken].

(** The locals [slackToken], [expoToken] and the two fields of [config]
    the loop writes through its pointers. *)
Record EnvSlots : Type := mkSlots {
  slackToken : string;
  expoToken : string;
  slotChannel : string;
  slotSecret : string
}.

Definition store (target : EnvTarget) (value : string) (st : EnvSlots) : EnvSlots :=
  match target with
  | IntoSlackToken => mkSlots value (expoToken st) (slotChannel st) (slotSecret st)
  | IntoSlackChannel => mkSlots (slackToken st) (expoToken st) value (slotSecret st)
  | IntoExpoHMACSecret => mkSlots (slackToken st) (expoToken st) (slotChannel st) value
  | IntoExpoToken => mkSlots (slackToken st) value (slotChannel st) (slotSecret st)
  end.

Definition slot (target : EnvTarget) (st : EnvSlots) : string :=
  match target with
  | IntoSlackToken => slackToken st
  | IntoSlackChannel => slotChannel st
  | IntoExpoHMACSecret => slotSecret st
  | IntoExpoToken => expoToken st
  end.

Section LoadFromEnv.
Context `{Runtime}.

(** The [range] over the map literal.  Go leaves the iteration order of a
    map unspecified: [order] is the order this run visits the entries in. *)
Fixpoint LoadFromEnv_range (order : list EnvTarget) (st : EnvSlots)
    : Result EnvSlots :=
  match order with
  | [] => OkR st
  | into :: rest =>
      match os_LookupEnv (envName into) with
      | None => ErrR (envName into ++ " not set")
      | Some value =>
          if (value =? "")%string then ErrR (envName into ++ " not set")
          else LoadFromEnv_range rest (store into value st)
      end
  end.

Definition config_LoadFromEnv (order : list EnvTarget) : Result config.Config :=
  match LoadFromEnv_range order (mkSlots "" "" "" "") with
  | ErrR err => ErrR err
  | OkR st =>
      OkR (config.mk (slotSecret st) (expo.Client.mk (expoToken st))
             (slackToken st) (slotChannel st))
  end.

(** Handler is the entrypoint for Vercel serverless functions, one per
    package. *)
Definition Handler (Handle : config.Config -> http.Request -> M unit)
    (order : list EnvTarget) (r : http.Request) : M unit :=
  match config_LoadFromEnv order with
  | ErrR _ => emit (EvWriteHeader http.StatusInternalServerError)
  | OkR cfg => Handle cfg r
  end.

End LoadFromEnv.

Definition update_Handler `{Runtime} `{expo.Upstream}
    (json_Unmarshal : string -> Result (list update.Update.t)) :=
  Handler (update.Handle json_Unmarshal).

Definition build_Handler `{Runtime} `{expo.Upstream}
    (json_Unmarshal : string -> Result build.WebhookPayload.t) :=
  Handler (build.Handle json_Unmarshal).

Definition submit_Handler `{Runtime} `{expo.Upstream}
    (json_Unmarshal : string -> Result submit.WebhookPayload.t) :=
  Handler (submit.Handle json_Unmarshal).

(** The options of the server ([main.go]). *)
Module server.

Module Options.
Record t : Type := mk {
  ExpoHMACSecret : string;
  ExpoToken : string;
  SlackToken : string;
  SlackChannel : string;
  Port : Z
}.
End Options.

Definition DefaultOptions : Options.t := Options.mk "" "" "" "" 8080.

(** [None] is the nil error. *)
Definition Validate (o : Options.t) : option string :=
  if (Options.SlackToken o =? "")%string then Some "slack-token is required"
  else if (Options.SlackChannel o =? "")%string then Some "slack-channel is required"
  else if (Options.ExpoHMACSecret o =? "")%string then Some "hmac-secret is required"
  else if (Options.ExpoToken o =? "")%string then Some "expo-token is required"
  else None.

Definition Complete (o : Options.t) : Result config.Config :=
  OkR (config.mk (Options.ExpoHMACSecret o) (expo.Client.mk (Options.ExpoToken o))
         (Options.SlackToken o) (Options.SlackChannel o)).

End server.

(** [http.Header]: a map from canonical keys to value lists.  The
    canonical form of a key is computed by the library and is an input. *)
Module header.
Section Canonical.
Variable CanonicalMIMEHeaderKey : string -> string.

Definition t : Type := string -> list string.

Definition empty : t := fun _ => [].

Definition Set_ (h : t) (key value : string) : t :=
  fun k => if (k =? CanonicalMIMEHeaderKey key)%string then [value] else h k.

Definition Get (h : t) (key : string) : string :=
  match h (CanonicalMIMEHeaderKey key) with
  | [] => ""
  | v :: _ => v
  end.

End Canonical.
End header.

(** The test client ([test/main.go]). *)
Module testclient.

Module Options.
Record t : Type := mk {
  ExpoHMACSecret : string;
  PayloadPath : string;
  Endpoint : string
}.
End Options.

Definition DefaultOptions : Options.t := Options.mk "" "" "".

Definition Validate (o : Options.t) : option string :=
  if (Options.PayloadPath o =? "")%string then Some "payload is required"
  else if (Options.Endpoint o =? "")%string then Some "endpoint is required"
  else if (Options.ExpoHMACSecret o =? "")%string then Some "hmac-secret is required"
  else None.

Section Main.
Context `{Runtime}.
Variable CanonicalMIMEHeaderKey : string -> string.
(** [os.ReadFile], and the error of [http.NewRequest] for an endpoint. *)
Variable os_ReadFile : string -> Result string.
Variable http_NewRequest_error : string -> option string.

(** The request [main] posts, as the handler that receives it reads it:
    the transport delivers method, body and headers unchanged. *)
Definition request (opts : Options.t) (payload : string) : http.Request :=
  let encoded := hex.EncodeToString (hmac_sha1 (Options.ExpoHMACSecret opts) payload) in
  let h := header.empty in
  let h := header.Set_ CanonicalMIMEHeaderKey h "Content-Type" "application/json" in
  let h := header.Set_ CanonicalMIMEHeaderKey h "expo-signature" ("sha1=" ++ encoded) in
  let h := header.Set_ CanonicalMIMEHeaderKey h "signature" ("sha1=" ++ encoded) in
  http.mkRequest "POST" (OkR payload) (header.Get CanonicalMIMEHeaderKey h).

(** [main] up to the point the request is sent; [ErrR] is [log.Fatalf]. *)
Definition main (opts : Options.t) : Result http.Request :=
  match Validate opts with
  | Some err => ErrR ("failed to validate options: " ++ err)
  | None =>
      match os_ReadFile (Options.PayloadPath opts) with
      | ErrR err => ErrR ("failed to read payload file: " ++ err)
      | OkR payload =>
          match http_NewRequest_error (Options.Endpoint opts) with
          | Some err => ErrR ("failed to create request: " ++ err)
          | None => OkR (request opts payload)
          end
      end
  end.

End Main.
End testclient.

(** ** Vocabulary for the runs of the handlers *)

Definition isPostMessage (e : Event) : bool :=
  match e with
  | EvPostMessage _ _ => true
  | _ => false
  end.

Definition isFetch (e : Event) : bool :=
  match e with
  | EvFetchBuilds _ _ _ _ _ | EvFetchSubmission _
  | EvFetchUpdateChannel _ _ | EvFetchUpdates _ _ _ _ => true
  | _ => false
  end.

(** The update is passed over by [update.handlePayload] as a preview. *)
Definition isPreview `{Runtime} (u : update.Update.t) : bool :=
  negb update.allowPreviews && strings_HasPrefix (update.Update.Branch u) "xxx".


(** The members of the platform whose timestamps parse come newest
    first in [l]: none is stamped later than one that precedes it. *)
Definition notLaterThan `{Runtime} (platform : expo.Platform)
    (v w : expo.Update.t) : bool :=
  if expo.Platform_Equal (expo.Update.Platform v) platform
     && expo.Platform_Equal (expo.Update.Platform w) platform
  then
    match time_Parse_RFC3339 (expo.Update.CreatedAt v),
          time_Parse_RFC3339 (expo.Update.CreatedAt w) with
    | OkR tv, OkR tw => tw <=? tv
    | _, _ => true
    end
  else true.

Fixpoint newestFirst `{Runtime} (platform : expo.Platform)
    (l : list expo.Update.t) : bool :=
  match l with
  | [] => true
  | v :: rest =>
      forallb (notLaterThan platform v) rest && newestFirst platform rest
  end.

Definition count (p : Event -> bool) (tr : list Event) : nat :=
  List.length (filter p tr).

(** The statuses a handler writes. *)
Definition statusCodes : list Z := [200; 400; 401; 405; 500].

(** The run writes exactly one status, as its first event, and does
    nothing else unless that status is 200. *)
Definition oneStatus (run : M unit) : Prop :=
  exists code rest,
    trace run = EvWriteHeader code :: rest
    /\ In code statusCodes
    /\ forallb (fun e => negb (isWriteHeader e)) rest = true
    /\ (code = 200 \/ (rest = [] /\ snd run = Normal tt)).

(** What a lookup found: the pointer it returned, nil on every error. *)
Definition found {A} (run : M (Result (option A))) : option A :=
  match snd run with
  | Normal r => orNil r
  | Panicked => None
  end.

Definition some {A} (x : option A) : nat :=
  match x with
  | Some _ => 1%nat
  | None => 0%nat
  end.

(** [os.LookupEnv] finds the variable of the entry and its value is not
    empty; the value found. *)
Definition envSet `{Runtime} (target : EnvTarget) : bool :=
  match os_LookupEnv (envName target) with
  | Some value => negb (value =? "")%string
  | None => false
  end.

Definition envValue `{Runtime} (target : EnvTarget) : string :=
  match os_LookupEnv (envName target) with
  | Some value => value
  | None => ""
  end.

(** The configuration the environment describes. *)
Definition envConfig `{Runtime} : config.Config :=
  config.mk (envValue IntoExpoHMACSecret) (expo.Client.mk (envValue IntoExpoToken))
    (envValue IntoSlackToken) (envValue IntoSlackChannel).

(** ** Further sample data: environments and a malformed build page *)

Module fixtures.

Definition complete (name : string) : option string :=
  if (name =? "SLACK_TOKEN")%string then Some "xoxb"
  else if (name =? "SLACK_CHANNEL")%string then Some "#releases"
  else if (name =? "EXPO_HMAC_SECRET")%string then Some "s"
  else if (name =? "EXPO_TOKEN")%string then Some "token"
  else None.

(** SLACK_CHANNEL is set but empty, EXPO_TOKEN is not set. *)
Definition partial (name : string) : option string :=
  if (name =? "SLACK_TOKEN")%string then Some "xoxb"
  else if (name =? "SLACK_CHANNEL")%string then Some ""
  else if (name =? "EXPO_HMAC_SECRET")%string then Some "s"
  else None.

Definition runtime (environ : string -> option string) : Runtime := {|
  strings_EqualFold := reference.EqualFold;
  strings_ToUpper := reference.ToUpper;
  time_Parse_RFC3339 := reference.Parse_RFC3339;
  hmac_sha1 := sha1.hmac;
  os_LookupEnv := environ;
  time_Since := fun t => reference.now - t
|}.

Definition Bstale : expo.Build.t := sample.mkBuild "b0" "00000000b" "last week".

(** The upstream of [sample], its build page replaced by [b2, b0], the
    older one stamped with a time that does not parse. *)
Definition upstream : expo.Upstream := {|
  expo.ViewBuildsOnApp := fun _ _ _ _ _ _ => OkR [sample.B2; Bstale];
  expo.SubmissionByIdQuery := @expo.SubmissionByIdQuery sample.upstream;
  expo.ViewUpdateChannelOnApp := @expo.ViewUpdateChannelOnApp sample.upstream;
  expo.ViewUpdateGroupsOnBranch := @expo.ViewUpdateGroupsOnBranch sample.upstream
|}.

(** The canonical form of a header key, for the keys the examples use:
    the first letter and each letter after a hyphen in upper case. *)
Definition canonical (key : string) : string :=
  if (key =? "expo-signature")%string then "Expo-Signature"
  else if (key =? "signature")%string then "Signature"
  else key.

End fixtures.

(** ** Theorems *)

Example sha1_abc :
  hex.EncodeToString (sha1.Sum "abc") = "a9993e364706816aba3e25717850c26c9cd0d89d".
Proof. vm_compute. reflexivity. Qed.

Example hmac_sha1_fox :
  hex.EncodeToString
    (sha1.hmac "key" "The quick brown fox jumps over the lazy dog")
  = "de7c9b85b8b78aa6bc8a7a36f70a90701c9db4d9".
Proof. vm_compute. reflexivity. Qed.

(** The signature check of the specification: body [{}], secret [s]. *)
Example expectedSignature_reference :
  @expectedSignature reference.runtime "s" "{}"
  = "sha1=850413ce2dee4c4142838bab9e9086cb305da54d".
Proof. vm_compute. reflexivity. Qed.

Example Parse_RFC3339_2024_01_03 :
  reference.Parse_RFC3339 "2024-01-03T00:00:00Z" = OkR (1704240000 * 1000000000).
Proof. vm_compute. reflexivity. Qed.

Example itoa_examples : itoa 0 = "0" /\ itoa 45 = "45" /\ itoa (-3) = "-3".
Proof. vm_compute. repeat split. Qed.

(** ** The scan for the previous update *)

Section ScanFacts.
Context `{Runtime}.
Variables (platform : expo.Platform) (createdAt : Time).

Lemma verdict_cases (u : expo.Update.t) :
  skipped platform createdAt u = true
  \/ surviving platform createdAt u = true
  \/ unparseable platform u = true.
Proof.
  unfold skipped, surviving, unparseable.
  destruct (expo.Platform_Equal _ _); simpl; auto.
  destruct (time_Parse_RFC3339 _) as [t|]; auto.
  destruct (Z.ltb_spec createdAt t); auto.
  right; left. apply Z.leb_le. lia.
Qed.

Lemma members_skipped (pre rest : list expo.Update.t) :
  forallb (skipped platform createdAt) pre = true ->
  update.previousUpdateFor_members platform createdAt (pre ++ rest)
  = update.previousUpdateFor_members platform createdAt rest.
Proof.
  induction pre as [|u pre IH]; simpl; intros Hpre; [reflexivity|].
  apply andb_true_iff in Hpre as [Hu Hpre].
  unfold skipped in Hu.
  destruct (expo.Platform_Equal _ _); simpl in *; [|auto].
  destruct (time_Parse_RFC3339 _) as [t|]; [|discriminate].
  unfold Time_After. rewrite Hu. auto.
Qed.

Lemma members_surviving (u : expo.Update.t) (rest : list expo.Update.t) :
  surviving platform createdAt u = true ->
  update.previousUpdateFor_members platform createdAt (u :: rest)
  = Some (OkR (Some u)).
Proof.
  unfold surviving; simpl; intros Hu.
  destruct (expo.Platform_Equal _ _); simpl in *; [|discriminate].
  destruct (time_Parse_RFC3339 _) as [t|]; [|discriminate].
  unfold Time_After.
  apply Z.leb_le in Hu.
  destruct (Z.ltb_spec createdAt t); [lia|reflexivity].
Qed.

Lemma members_unparseable (u : expo.Update.t) (rest : list expo.Update.t) :
  unparseable platform u = true ->
  exists msg,
    update.previousUpdateFor_members platform createdAt (u :: rest)
    = Some (ErrR msg).
Proof.
  unfold unparseable; simpl; intros Hu.
  destruct (expo.Platform_Equal _ _); simpl in *; [|discriminate].
  destruct (time_Parse_RFC3339 _) as [t|err]; [discriminate|].
  eexists; reflexivity.
Qed.

(** The nested loops visit the members in the order of [concat]. *)
Lemma previousUpdateFor_concat (updates : list (list expo.Update.t)) :
  update.previousUpdateFor platform createdAt updates
  = match update.previousUpdateFor_members platform createdAt (List.concat updates) with
    | Some r => r
    | None => OkR None
    end.
Proof.
  induction updates as [|group rest IH]; simpl; [reflexivity|].
  rewrite IH. clear IH.
  induction group as [|u group IHg]; simpl; [reflexivity|].
  destruct (negb _); [exact IHg|].
  destruct (time_Parse_RFC3339 _) as [t|]; [|reflexivity].
  destruct (Time_After _ _); [exact IHg|reflexivity].
Qed.

(** Every input falls under one of the three outcomes. *)
Lemma scan_cases (l : list expo.Update.t) :
  forallb (skipped platform createdAt) l = true
  \/ exists pre u post,
       l = (pre ++ u :: post)%list
       /\ forallb (skipped platform createdAt) pre = true
       /\ (surviving platform createdAt u = true \/ unparseable platform u = true).
Proof.
  induction l as [|u l IH]; [left; reflexivity|].
  destruct (verdict_cases u) as [Hu|Hu].
  - destruct IH as [IH|(pre & v & post & -> & Hpre & Hv)].
    + left. simpl. now rewrite Hu, IH.
    + right. exists (u :: pre), v, post. simpl. rewrite Hu, Hpre. auto.
  - right. exists [], u, l. auto.
Qed.

Lemma build_previousUpdateFor_members_eq (members : list expo.Update.t) :
  build.previousUpdateFor_members platform createdAt members
  = update.previousUpdateFor_members platform createdAt members.
Proof.
  induction members as [|u rest IH]; simpl; [reflexivity|].
  rewrite IH. reflexivity.
Qed.

Lemma build_previousUpdateFor_eq (updates : list (list expo.Update.t)) :
  build.previousUpdateFor platform createdAt updates
  = update.previousUpdateFor platform createdAt updates.
Proof.
  induction updates as [|group rest IH]; simpl; [reflexivity|].
  now rewrite IH, build_previousUpdateFor_members_eq.
Qed.

End ScanFacts.

(** C1. previousUpdateFor walks the groups in order and the members of each
    group in order (the order of [concat updates]); members of another
    platform and members stamped strictly after the reference time are
    passed over; the first member left is returned, a member stamped exactly
    at the reference time included; a member of the platform whose CreatedAt
    is not RFC3339 fails the whole call; when every member is passed over,
    in particular for no groups at all or no member of the platform, the
    result is nil without an error.  Every input falls under one of these
    cases.  The same holds for the copy in package build. *)
Theorem C1_previousUpdateFor_scan `{Runtime} (platform : expo.Platform)
    (createdAt : Time) (updates : list (list expo.Update.t)) :
  let scans := [update.previousUpdateFor platform createdAt updates;
                build.previousUpdateFor platform createdAt updates] in
  (forall pre u post,
      List.concat updates = (pre ++ u :: post)%list ->
      forallb (skipped platform createdAt) pre = true ->
      surviving platform createdAt u = true ->
      Forall (fun r => r = OkR (Some u)) scans)
  /\ (forall pre u post,
      List.concat updates = (pre ++ u :: post)%list ->
      forallb (skipped platform createdAt) pre = true ->
      unparseable platform u = true ->
      Forall (fun r => exists msg, r = ErrR msg) scans)
  /\ (forallb (skipped platform createdAt) (List.concat updates) = true ->
      Forall (fun r => r = OkR None) scans)
  /\ (updates = [] -> Forall (fun r => r = OkR None) scans)
  /\ (forallb (fun u => negb (expo.Platform_Equal (expo.Update.Platform u) platform))
        (List.concat updates) = true ->
      Forall (fun r => r = OkR None) scans)
  /\ (forall u t,
      time_Parse_RFC3339 (expo.Update.CreatedAt u) = OkR t ->
      expo.Platform_Equal (expo.Update.Platform u) platform = true ->
      (surviving platform createdAt u = true <-> t <= createdAt)
      /\ (skipped platform createdAt u = true <-> createdAt < t))
  /\ (forallb (skipped platform createdAt) (List.concat updates) = true
      \/ exists pre u post,
           List.concat updates = (pre ++ u :: post)%list
           /\ forallb (skipped platform createdAt) pre = true
           /\ (surviving platform createdAt u = true
               \/ unparseable platform u = true)).
Proof.
  cbv zeta.
  assert (Hboth : forall P : Result (option expo.Update.t) -> Prop,
             P (update.previousUpdateFor platform createdAt updates) ->
             Forall P [update.previousUpdateFor platform createdAt updates;
                       build.previousUpdateFor platform createdAt updates]).
  { intros P HP. constructor; [exact HP|].
    constructor; [|constructor]. now rewrite build_previousUpdateFor_eq. }
  assert (Hnone : forallb (skipped platform createdAt) (List.concat updates) = true ->
                  update.previousUpdateFor platform createdAt updates = OkR None).
  { intros Hall. rewrite previousUpdateFor_concat.
    rewrite <- (app_nil_r (List.concat updates)).
    rewrite members_skipped by exact Hall. reflexivity. }
  split; [|split; [|split; [|split; [|split; [|split]]]]];
    [| | | | | |apply scan_cases].
  - intros pre u post Hcat Hpre Hu. apply Hboth.
    rewrite previousUpdateFor_concat, Hcat, members_skipped by exact Hpre.
    now rewrite members_surviving.
  - intros pre u post Hcat Hpre Hu. apply Hboth.
    rewrite previousUpdateFor_concat, Hcat, members_skipped by exact Hpre.
    destruct (members_unparseable platform createdAt u post Hu) as [msg ->].
    now exists msg.
  - intros Hall. apply Hboth. auto.
  - intros ->. repeat constructor.
  - intros Hall. apply Hboth, Hnone.
    rewrite forallb_forall in *. intros u Hu. unfold skipped.
    now rewrite (Hall u Hu).
  - intros u t Hparse Heq. unfold surviving, skipped.
    rewrite Hparse, Heq. simpl. split; [apply Z.leb_le|apply Z.ltb_lt].
Qed.

(** The example of the specification: the entry stamped 2024-01-03 is after
    the reference 2024-01-02 and is passed over; the entry of 2024-01-01 is
    returned (its platform is spelled [IOS]: the match is by [EqualFold]). *)
Example previousUpdateFor_spec_example :
  @update.previousUpdateFor reference.runtime "ios" sample.t_2024_01_02
    [[sample.u3]; [sample.u1]] = OkR (Some sample.u1).
Proof. vm_compute. reflexivity. Qed.

Lemma C1_previousUpdateFor_scan_witness :
  Forall (fun r => r = OkR (Some sample.u1))
    [@update.previousUpdateFor reference.runtime "ios" sample.t_2024_01_01
       [[sample.u3; sample.a3]; [sample.u1]];
     @build.previousUpdateFor reference.runtime "ios" sample.t_2024_01_01
       [[sample.u3; sample.a3]; [sample.u1]]]
  /\ Forall (fun r => exists msg, r = ErrR msg)
    [@update.previousUpdateFor reference.runtime "ios" sample.t_2024_01_01
       [[sample.a3]; [sample.ubad; sample.u1]];
     @build.previousUpdateFor reference.runtime "ios" sample.t_2024_01_01
       [[sample.a3]; [sample.ubad; sample.u1]]]
  /\ Forall (fun r => r = OkR None)
    [@update.previousUpdateFor reference.runtime "ios" sample.t_2024_01_01
       [[sample.u3; sample.a3]];
     @build.previousUpdateFor reference.runtime "ios" sample.t_2024_01_01
       [[sample.u3; sample.a3]]].
Proof.
  split; [|split].
  - apply (proj1 (@C1_previousUpdateFor_scan reference.runtime "ios"
                    sample.t_2024_01_01 [[sample.u3; sample.a3]; [sample.u1]])
             [sample.u3; sample.a3] sample.u1 []); reflexivity.
  - apply (proj1 (proj2 (@C1_previousUpdateFor_scan reference.runtime "ios"
                    sample.t_2024_01_01 [[sample.a3]; [sample.ubad; sample.u1]]))
             [sample.a3] sample.ubad [sample.u1]); reflexivity.
  - apply (proj1 (proj2 (proj2 (@C1_previousUpdateFor_scan reference.runtime "ios"
                    sample.t_2024_01_01 [[sample.u3; sample.a3]]))));
      reflexivity.
Defined.

(** C8. The scan of package update and the scan of package build return the
    same result on every platform, reference time and sequence of groups. *)
Theorem C8_previousUpdateFor_same `{Runtime} (platform : expo.Platform)
    (createdAt : Time) (updates : list (list expo.Update.t)) :
  update.previousUpdateFor platform createdAt updates
  = build.previousUpdateFor platform createdAt updates.
Proof. symmetry. apply build_previousUpdateFor_eq. Qed.

(** ** The previous build *)

Lemma fetchPreviousBuild_scan_skip (id : string) (pre rest : list expo.Build.t) :
  (forall x, In x pre -> expo.Build.Id x <> id) ->
  rest <> [] ->
  build.fetchPreviousBuild_scan id (pre ++ rest)
  = build.fetchPreviousBuild_scan id rest.
Proof.
  intros Hpre Hrest.
  induction pre as [|x pre IH]; [reflexivity|].
  change ((x :: pre) ++ rest)%list with (x :: (pre ++ rest))%list.
  unfold build.fetchPreviousBuild_scan; fold build.fetchPreviousBuild_scan.
  destruct (pre ++ rest)%list as [|y tl] eqn:E.
  - apply app_eq_nil in E as [_ E]. contradiction.
  - destruct (String.eqb_spec (expo.Build.Id x) id) as [Heq|_].
    + exfalso. apply (Hpre x); [now left|exact Heq].
    + apply IH. intros z Hz. apply Hpre. now right.
Qed.

Lemma fetchPreviousBuild_scan_absent (id : string) (builds : list expo.Build.t) :
  (forall x, In x builds -> expo.Build.Id x <> id) ->
  build.fetchPreviousBuild_scan id builds = None.
Proof.
  induction builds as [|x builds IH]; intros Hall; [reflexivity|].
  unfold build.fetchPreviousBuild_scan; fold build.fetchPreviousBuild_scan.
  destruct builds as [|y tl]; [reflexivity|].
  destruct (String.eqb_spec (expo.Build.Id x) id) as [Heq|_].
  - exfalso. apply (Hall x); [now left|exact Heq].
  - apply IH. intros z Hz. apply Hall. now right.
Qed.

(** C2. For a fetched page [builds] and the id of the new build,
    fetchPreviousBuild returns the element after the first element with
    that id when one follows it; it returns nil without an error when that
    element is the last of the page, and when no element has the id. *)
Theorem C2_fetchPreviousBuild `{Runtime} `{expo.Upstream}
    (cfg : config.Config) (w : build.WebhookPayload.t)
    (builds : list expo.Build.t) :
  expo.ViewBuildsOnApp (expo.Client.Token (config.ExpoClient cfg))
    (build.WebhookPayload.AppId w)
    (build.Metadata.Channel (build.WebhookPayload.Metadata w))
    (strings_ToUpper (build.WebhookPayload.Platform w)) 10 0 = OkR builds ->
  let result := snd (build.fetchPreviousBuild cfg w) in
  (forall pre b next post,
      builds = (pre ++ b :: next :: post)%list ->
      (forall x, In x pre -> expo.Build.Id x <> build.WebhookPayload.Id w) ->
      expo.Build.Id b = build.WebhookPayload.Id w ->
      result = Normal (OkR (Some next)))
  /\ (forall pre b,
      builds = (pre ++ [b])%list ->
      (forall x, In x pre -> expo.Build.Id x <> build.WebhookPayload.Id w) ->
      expo.Build.Id b = build.WebhookPayload.Id w ->
      result = Normal (OkR None))
  /\ ((forall x, In x builds -> expo.Build.Id x <> build.WebhookPayload.Id w) ->
      result = Normal (OkR None)).
Proof.
  intros Hfetch result.
  assert (Hres : result
                 = Normal (OkR (build.fetchPreviousBuild_scan
                                  (build.WebhookPayload.Id w) builds))).
  { unfold result, build.fetchPreviousBuild, expo.Client_FetchBuilds.
    simpl. rewrite Hfetch. reflexivity. }
  rewrite Hres. split; [|split].
  - intros pre b next post -> Hpre Hb.
    rewrite fetchPreviousBuild_scan_skip by (assumption || discriminate).
    simpl. rewrite Hb, String.eqb_refl. reflexivity.
  - intros pre b -> Hpre Hb.
    rewrite fetchPreviousBuild_scan_skip by (assumption || discriminate).
    reflexivity.
  - intros Hall. now rewrite fetchPreviousBuild_scan_absent.
Qed.

Lemma C2_fetchPreviousBuild_witness :
  snd (@build.fetchPreviousBuild reference.runtime sample.upstream sample.cfg
         sample.w2) = Normal (OkR (Some sample.B1))
  /\ snd (@build.fetchPreviousBuild reference.runtime sample.upstream sample.cfg
            (sample.payload "b1" "production" "aaaaaaaa1" "2024-01-01T00:00:00Z"))
     = Normal (OkR None)
  /\ snd (@build.fetchPreviousBuild reference.runtime sample.upstream sample.cfg
            (sample.payload "b9" "production" "aaaaaaaa1" "2024-01-01T00:00:00Z"))
     = Normal (OkR None).
Proof.
  split; [|split].
  - apply (proj1 (@C2_fetchPreviousBuild reference.runtime sample.upstream
                    sample.cfg sample.w2 [sample.B3; sample.B2; sample.B1] eq_refl)
             [sample.B3] sample.B2 sample.B1 []); try reflexivity.
    intros x [<-|[]]. discriminate.
  - apply (proj1 (proj2 (@C2_fetchPreviousBuild reference.runtime sample.upstream
                    sample.cfg
                    (sample.payload "b1" "production" "aaaaaaaa1" "2024-01-01T00:00:00Z")
                    [sample.B3; sample.B2; sample.B1] eq_refl))
             [sample.B3; sample.B2] sample.B1); try reflexivity.
    intros x [<-|[<-|[]]]; discriminate.
  - apply (proj2 (proj2 (@C2_fetchPreviousBuild reference.runtime sample.upstream
                    sample.cfg
                    (sample.payload "b9" "production" "aaaaaaaa1" "2024-01-01T00:00:00Z")
                    [sample.B3; sample.B2; sample.B1] eq_refl))).
    intros x [<-|[<-|[<-|[]]]]; discriminate.
Defined.

(** ** The previous update of a build *)


Section BranchFacts.
Context `{Runtime}.
Variable platform : expo.Platform.

Let name (u : expo.Update.t) : string :=
  expo.BranchFragment.Name (expo.Update.Branch u).




End BranchFacts.




(** ** Display tables *)

(** C7, as the code has it.  On the supported values the four functions
    return their fixed strings.  On every other string PlatformEmoji
    returns the grey-question emoji, PlatformDisplay the text
    [Unknown platform ] (capital U, trailing space), StatusDisplay
    [in an unknown state], and StatusEmoji the black-circle emoji.  The
    functions are total: each returns a string on every input. *)
Theorem C7_display_tables (platform : expo.Platform) (status : expo.Status) :
  (expo.PlatformEmoji "android" = ":android:"
   /\ expo.PlatformEmoji "ios" = ":apple_logo:"
   /\ expo.PlatformDisplay "android" = "Android"
   /\ expo.PlatformDisplay "ios" = "iOS"
   /\ expo.StatusEmoji "finished" = ":large_green_circle:"
   /\ expo.StatusEmoji "cancelled" = ":large_yellow_circle:"
   /\ expo.StatusEmoji "errored" = ":red_circle:"
   /\ expo.StatusDisplay "finished" = "succeeded"
   /\ expo.StatusDisplay "cancelled" = "cancelled"
   /\ expo.StatusDisplay "errored" = "errored")
  /\ (platform <> "android" -> platform <> "ios" ->
      expo.PlatformEmoji platform = ":grey_question:"
      /\ expo.PlatformDisplay platform = "Unknown platform ")
  /\ (status <> "finished" -> status <> "cancelled" -> status <> "errored" ->
      expo.StatusEmoji status = ":black_circle:"
      /\ expo.StatusDisplay status = "in an unknown state").
Proof.
  split; [repeat split|]. split.
  - intros Ha Hi. unfold expo.PlatformEmoji, expo.PlatformDisplay.
    destruct (String.eqb_spec platform expo.PlatformAndroid); [contradiction|].
    destruct (String.eqb_spec platform expo.PlatformIOS); [contradiction|].
    split; reflexivity.
  - intros Hf Hc He. unfold expo.StatusEmoji, expo.StatusDisplay.
    destruct (String.eqb_spec status expo.StatusFinished); [contradiction|].
    destruct (String.eqb_spec status expo.StatusCancelled); [contradiction|].
    destruct (String.eqb_spec status expo.StatusErrored); [contradiction|].
    split; reflexivity.
Qed.

Lemma C7_display_tables_witness :
  (expo.PlatformEmoji "ANDROID" = ":grey_question:"
   /\ expo.PlatformDisplay "ANDROID" = "Unknown platform ")
  /\ (expo.StatusEmoji "in-progress" = ":black_circle:"
      /\ expo.StatusDisplay "in-progress" = "in an unknown state").
Proof.
  split.
  - apply (proj1 (proj2 (C7_display_tables "ANDROID" "in-progress")));
      discriminate.
  - apply (proj2 (proj2 (C7_display_tables "ANDROID" "in-progress")));
      discriminate.
Defined.

(** C7 as stated names three fallbacks for four functions, the grey-question
    emoji being the only emoji among them; StatusEmoji returns none of the
    three on an unknown status. *)
Lemma C7_counterexample :
  ~ In (expo.StatusEmoji "in-progress")
      [":grey_question:"; "unknown platform"; "Unknown platform ";
       "in an unknown state"].
Proof.
  vm_compute. intros [H|[H|[H|[H|[]]]]]; discriminate H.
Qed.

(** ** Shortening a commit hash *)

Lemma slice_0_7_panics (s : string) :
  slice_0_7 s = Panicked <-> (length s < 7)%nat.
Proof.
  unfold slice_0_7. destruct (Nat.leb_spec 7 (length s)); split;
    intros; try discriminate; try lia; reflexivity.
Qed.

Lemma FormatBuildVersion_panics (meta : expo.BuildVersionMetadata.t) :
  expo.FormatBuildVersion meta = Panicked
  <-> (length (expo.BuildVersionMetadata.GitCommitHash meta) < 7)%nat.
Proof.
  rewrite <- slice_0_7_panics. unfold expo.FormatBuildVersion.
  destruct (slice_0_7 _); simpl; split; intros; try discriminate; reflexivity.
Qed.

Lemma slice_0_7_length (s short : string) :
  slice_0_7 s = Normal short -> length short = 7%nat.
Proof.
  unfold slice_0_7. destruct (Nat.leb_spec 7 (length s)) as [Hlen|]; [|discriminate].
  intros [= <-].
  do 7 (destruct s as [|? s]; [simpl in Hlen; lia|]).
  destruct s; reflexivity.
Qed.

Ltac break_match :=
  match goal with
  | |- context [match ?x with _ => _ end] =>
      lazymatch x with
      | context [match _ with _ => _ end] => fail
      | _ => destruct x eqn:?
      end
  end.

Ltac panic_facts :=
  repeat match goal with
  | E : expo.FormatBuildVersion _ = Panicked |- _ =>
      apply FormatBuildVersion_panics in E
  | E : slice_0_7 _ = Panicked |- _ => apply slice_0_7_panics in E
  end.

(** C5. Shortening a commit hash to its first seven bytes panics exactly
    when the hash is shorter than seven.  FormatBuildVersion panics if and
    only if the hash of its argument is short.  The blocksFor of package
    update, given a previous update, yields no blocks when the previous
    hash is short (it panics once the previous timestamp has parsed) and
    does not panic when the hash has seven bytes or more.  The blocksFor of
    package build yields no blocks when the hash of the payload, of the
    previous build or of the previous update is short, panics outright on a
    short payload hash, and does not panic when every hash it shortens has
    seven bytes or more. *)
Theorem C5_commit_hash_slicing `{Runtime} (cfg : config.Config)
    (meta : expo.BuildVersionMetadata.t)
    (update : update.Update.t) (previous : expo.Update.t)
    (w : build.WebhookPayload.t) (previousBuild : option expo.Build.t)
    (previousUpdate : option expo.Update.t) :
  let short (s : string) : Prop := (length s < 7)%nat in
  (expo.FormatBuildVersion meta = Panicked
   <-> short (expo.BuildVersionMetadata.GitCommitHash meta))
  /\ (short (expo.Update.GitCommitHash previous) ->
      (forall blocks,
          update.blocksFor cfg update (Some previous) <> Normal (OkR blocks))
      /\ (forall t,
          time_Parse_RFC3339 (expo.Update.CreatedAt previous) = OkR t ->
          update.blocksFor cfg update (Some previous) = Panicked))
  /\ (~ short (expo.Update.GitCommitHash previous) ->
      update.blocksFor cfg update (Some previous) <> Panicked)
  /\ (short (build.Metadata.GitCommitHash (build.WebhookPayload.Metadata w)) ->
      build.blocksFor cfg w previousBuild previousUpdate = Panicked)
  /\ ((exists b, previousBuild = Some b /\ short (expo.Build.GitCommitHash b))
      \/ (exists u, previousUpdate = Some u /\ short (expo.Update.GitCommitHash u)) ->
      forall blocks,
        build.blocksFor cfg w previousBuild previousUpdate <> Normal (OkR blocks))
  /\ (~ short (build.Metadata.GitCommitHash (build.WebhookPayload.Metadata w)) ->
      (forall b, previousBuild = Some b -> ~ short (expo.Build.GitCommitHash b)) ->
      (forall u, previousUpdate = Some u -> ~ short (expo.Update.GitCommitHash u)) ->
      build.blocksFor cfg w previousBuild previousUpdate <> Panicked).
Proof.
  cbv zeta.
  split; [apply FormatBuildVersion_panics|].
  split; [|split; [|split; [|split]]].
  - intros Hshort. apply slice_0_7_panics in Hshort.
    unfold update.blocksFor. rewrite Hshort. split.
    + intros blocks. destruct (time_Parse_RFC3339 _); discriminate.
    + intros t ->. reflexivity.
  - intros Hlong. unfold update.blocksFor, Exec_bind.
    repeat break_match; try discriminate.
    intros _. panic_facts. contradiction.
  - intros Hshort. apply FormatBuildVersion_panics in Hshort.
    unfold build.blocksFor, build.Metadata.GitCommitHash in *.
    rewrite Hshort. reflexivity.
  - intros Hshort blocks. unfold build.blocksFor, Exec_bind.
    destruct Hshort as [(b & -> & Hb)|(u & -> & Hu)].
    + apply FormatBuildVersion_panics in Hb. rewrite Hb.
      repeat break_match; discriminate.
    + apply slice_0_7_panics in Hu. rewrite Hu.
      repeat break_match; discriminate.
  - intros Hw Hb Hu. unfold build.blocksFor, Exec_bind.
    repeat break_match; try discriminate; intros _; panic_facts;
      solve [ contradiction
            | eapply Hu; [reflexivity|eassumption]
            | eapply Hb; [reflexivity|eassumption] ].
Qed.

Lemma C5_commit_hash_slicing_witness :
  expo.FormatBuildVersion (expo.BuildVersionMetadata.mk "production" "1.2.0" "42" "abc")
  = Panicked
  /\ @update.blocksFor reference.runtime sample.cfg sample.update_prod
       (Some sample.ushort) = Panicked
  /\ @update.blocksFor reference.runtime sample.cfg sample.update_prod
       (Some sample.u1) <> Panicked
  /\ @build.blocksFor reference.runtime sample.cfg
       (sample.payload "b2" "production" "abc" "2024-01-02T00:00:00Z") None None
     = Panicked
  /\ @build.blocksFor reference.runtime sample.cfg sample.w2
       (Some sample.B1) (Some sample.u1) <> Panicked.
Proof.
  pose proof (@C5_commit_hash_slicing reference.runtime sample.cfg
                (expo.BuildVersionMetadata.mk "production" "1.2.0" "42" "abc")
                sample.update_prod sample.ushort
                (sample.payload "b2" "production" "abc" "2024-01-02T00:00:00Z")
                None None) as (Hfmt & Hshort & _ & Hpayload & _).
  pose proof (@C5_commit_hash_slicing reference.runtime sample.cfg
                (expo.BuildVersionMetadata.mk "production" "1.2.0" "42" "abc")
                sample.update_prod sample.u1 sample.w2
                (Some sample.B1) (Some sample.u1)) as (_ & _ & Hlong & _ & _ & Hall).
  split; [|split; [|split; [|split]]].
  - apply Hfmt. simpl. lia.
  - apply (proj2 (Hshort ltac:(simpl; lia)) sample.t_2024_01_01). reflexivity.
  - apply Hlong. simpl. lia.
  - apply Hpayload. simpl. lia.
  - apply Hall.
    + simpl. lia.
    + intros b [= <-]. simpl. lia.
    + intros u [= <-]. simpl. lia.
Defined.

(** ** Status codes *)

Section HandlerFacts.
Context `{Runtime} `{expo.Upstream}.
Variable cfg : config.Config.

Lemma update_fetchPreviousUpdate_no_status (u : update.Update.t) :
  forallb (fun e => negb (isWriteHeader e)) (trace (update.fetchPreviousUpdate cfg u))
  = true.
Proof.
  unfold update.fetchPreviousUpdate, expo.Client_FetchUpdates.
  destruct (time_Parse_RFC3339 _); [|reflexivity].
  cbn [bind emit ret].
  destruct (expo.ViewUpdateGroupsOnBranch _ _ _ _ _); reflexivity.
Qed.

Lemma update_handlePayload_no_status (updates : list update.Update.t) :
  forallb (fun e => negb (isWriteHeader e)) (trace (update.handlePayload cfg updates))
  = true.
Proof.
  induction updates as [|u rest IH]; [reflexivity|].
  cbn [update.handlePayload].
  destruct (negb update.allowPreviews && _); [exact IH|].
  pose proof (update_fetchPreviousUpdate_no_status u) as Hfetch.
  destruct (update.fetchPreviousUpdate cfg u) as [tr [r|]]; cbn [bind lift trace fst] in *;
    [|exact Hfetch].
  destruct (update.blocksFor cfg u (orNil r)) as [[blocks|err]|];
    cbn [bind emit ret trace fst]; rewrite ?app_nil_r; try exact Hfetch.
  destruct (update.handlePayload cfg rest) as [tr' r'].
  cbn [trace fst] in *. rewrite forallb_app, Hfetch. exact IH.
Qed.

Lemma build_handlePayload_no_status (w : build.WebhookPayload.t) :
  forallb (fun e => negb (isWriteHeader e)) (trace (build.handlePayload cfg w))
  = true.
Proof.
  unfold build.handlePayload, build.fetchPreviousBuild, build.fetchPreviousUpdate,
    expo.Client_FetchBuilds, expo.Client_FetchUpdateChannel, expo.Client_FetchUpdates.
  cbn [bind emit ret lift].
  repeat (break_match; cbn [bind emit ret lift app trace fst]); reflexivity.
Qed.

Lemma submit_handlePayload_no_status (w : submit.WebhookPayload.t) :
  forallb (fun e => negb (isWriteHeader e)) (trace (submit.handlePayload cfg w))
  = true.
Proof.
  unfold submit.handlePayload, expo.Client_FetchSubmission.
  cbn [bind emit ret lift].
  repeat (break_match; cbn [bind emit ret lift app trace fst]); reflexivity.
Qed.

End HandlerFacts.

Lemma acknowledged_run (work : M unit) :
  (emit (EvWriteHeader http.StatusOK) ;;; work) = acknowledgesThen work.
Proof. destruct work as [tr [[]|]]; reflexivity. Qed.

(** C4. Each of the three handlers writes 405 when the method is not POST;
    otherwise 500 when the body cannot be read; otherwise 401 when its
    signature header ([signature] for update, [expo-signature] for build
    and submit) differs from [sha1=] followed by the lowercase hex
    HMAC-SHA1 of the body under the shared secret; otherwise 400 when the
    body does not decode; otherwise 200, and only then runs the enrichment,
    which writes no status of its own. *)
Theorem C4_status_codes `{Runtime} `{expo.Upstream}
    (decodeUpdate : string -> Result (list update.Update.t))
    (decodeBuild : string -> Result build.WebhookPayload.t)
    (decodeSubmit : string -> Result submit.WebhookPayload.t)
    (cfg : config.Config) (r : http.Request) :
  let expected := expectedSignature (config.ExpoHMACSecret cfg) in
  let quiet (work : M unit) :=
    forallb (fun e => negb (isWriteHeader e)) (trace work) = true in
  (http.Method r <> "POST" ->
      update.Handle decodeUpdate cfg r = respondsOnly 405
      /\ build.Handle decodeBuild cfg r = respondsOnly 405
      /\ submit.Handle decodeSubmit cfg r = respondsOnly 405)
  /\ (http.Method r = "POST" ->
      forall err, http.Body r = ErrR err ->
      update.Handle decodeUpdate cfg r = respondsOnly 500
      /\ build.Handle decodeBuild cfg r = respondsOnly 500
      /\ submit.Handle decodeSubmit cfg r = respondsOnly 500)
  /\ (http.Method r = "POST" ->
      forall body, http.Body r = OkR body ->
      (http.Header_Get r "signature" <> expected body ->
          update.Handle decodeUpdate cfg r = respondsOnly 401)
      /\ (http.Header_Get r "expo-signature" <> expected body ->
          build.Handle decodeBuild cfg r = respondsOnly 401
          /\ submit.Handle decodeSubmit cfg r = respondsOnly 401)
      /\ (http.Header_Get r "signature" = expected body ->
          (forall err, decodeUpdate body = ErrR err ->
              update.Handle decodeUpdate cfg r = respondsOnly 400)
          /\ (forall payload, decodeUpdate body = OkR payload ->
              update.Handle decodeUpdate cfg r
              = acknowledgesThen (update.handlePayload cfg payload)
              /\ quiet (update.handlePayload cfg payload)))
      /\ (http.Header_Get r "expo-signature" = expected body ->
          (forall err, decodeBuild body = ErrR err ->
              build.Handle decodeBuild cfg r = respondsOnly 400)
          /\ (forall payload, decodeBuild body = OkR payload ->
              build.Handle decodeBuild cfg r
              = acknowledgesThen (build.handlePayload cfg payload)
              /\ quiet (build.handlePayload cfg payload))
          /\ (forall err, decodeSubmit body = ErrR err ->
              submit.Handle decodeSubmit cfg r = respondsOnly 400)
          /\ (forall payload, decodeSubmit body = OkR payload ->
              submit.Handle decodeSubmit cfg r
              = acknowledgesThen (submit.handlePayload cfg payload)
              /\ quiet (submit.handlePayload cfg payload)))).
Proof.
  cbv zeta. unfold update.Handle, build.Handle, submit.Handle.
  split; [|split].
  - intros Hmethod.
    destruct (String.eqb_spec (http.Method r) "POST"); [contradiction|].
    repeat split.
  - intros -> err ->. repeat split.
  - intros -> body ->. cbn [String.eqb Ascii.eqb Bool.eqb negb].
    split; [|split; [|split]].
    + intros Hsig.
      destruct (String.eqb_spec (expectedSignature (config.ExpoHMACSecret cfg) body)
                  (http.Header_Get r "signature")) as [Heq|_];
        [now rewrite Heq in Hsig|reflexivity].
    + intros Hsig.
      destruct (String.eqb_spec (expectedSignature (config.ExpoHMACSecret cfg) body)
                  (http.Header_Get r "expo-signature")) as [Heq|_];
        [now rewrite Heq in Hsig|split; reflexivity].
    + intros ->. rewrite String.eqb_refl. cbn [negb]. split.
      * intros err ->. reflexivity.
      * intros payload ->. split;
          [apply acknowledged_run|apply update_handlePayload_no_status].
    + intros ->. rewrite String.eqb_refl. cbn [negb].
      split; [|split; [|split]].
      * intros err ->. reflexivity.
      * intros payload ->. split;
          [apply acknowledged_run|apply build_handlePayload_no_status].
      * intros err ->. reflexivity.
      * intros payload ->. split;
          [apply acknowledged_run|apply submit_handlePayload_no_status].
Qed.

Lemma C4_status_codes_witness :
  let signed body := sample.request "POST" body
                       (@expectedSignature reference.runtime "s" body) in
  @build.Handle reference.runtime sample.upstream sample.unmarshalBuild sample.cfg
    (sample.request "GET" "{}" "") = respondsOnly 405
  /\ @update.Handle reference.runtime sample.upstream sample.unmarshalUpdates
       sample.cfg (http.mkRequest "POST" (ErrR "unexpected EOF") (fun _ => ""))
     = respondsOnly 500
  /\ @submit.Handle reference.runtime sample.upstream sample.unmarshalSubmit
       sample.cfg (sample.request "POST" "{}" "sha1=00") = respondsOnly 401
  /\ @build.Handle reference.runtime sample.upstream sample.unmarshalBuild
       sample.cfg (signed "{") = respondsOnly 400
  /\ @build.Handle reference.runtime sample.upstream sample.unmarshalBuild
       sample.cfg (signed "{}")
     = acknowledgesThen
         (@build.handlePayload reference.runtime sample.upstream sample.cfg sample.w2).
Proof.
  cbv zeta.
  pose (check := @C4_status_codes reference.runtime sample.upstream
                   sample.unmarshalUpdates sample.unmarshalBuild
                   sample.unmarshalSubmit sample.cfg).
  split; [|split; [|split; [|split]]].
  - destruct (check (sample.request "GET" "{}" "")) as (H405 & _).
    apply H405. discriminate.
  - destruct (check (http.mkRequest "POST" (ErrR "unexpected EOF") (fun _ => "")))
      as (_ & H500 & _).
    apply (H500 eq_refl "unexpected EOF" eq_refl).
  - destruct (check (sample.request "POST" "{}" "sha1=00")) as (_ & _ & Hpost).
    destruct (Hpost eq_refl "{}" eq_refl) as (_ & H401 & _).
    apply H401. vm_compute. discriminate.
  - destruct (check (sample.request "POST" "{"
                       (@expectedSignature reference.runtime "s" "{")))
      as (_ & _ & Hpost).
    destruct (Hpost eq_refl "{" eq_refl) as (_ & _ & _ & Hsigned).
    destruct (Hsigned eq_refl) as (H400 & _).
    apply (H400 "invalid character" eq_refl).
  - destruct (check (sample.request "POST" "{}"
                       (@expectedSignature reference.runtime "s" "{}")))
      as (_ & _ & Hpost).
    destruct (Hpost eq_refl "{}" eq_refl) as (_ & _ & _ & Hsigned).
    destruct (Hsigned eq_refl) as (_ & H200 & _).
    apply (H200 sample.w2 eq_refl).
Defined.

(** ** Preview branches *)

(** The skipped update leaves the two others to be looked up and posted. *)
Example handlePayload_preview_example :
  map (fun e => match e with
                | EvFetchUpdates _ branch _ _ => "lookup " ++ branch
                | EvPostMessage channel _ => "post " ++ channel
                | _ => "other"
                end)
    (trace (@update.handlePayload reference.runtime sample.upstream sample.cfg
              [sample.update_prod; sample.update_xxx; sample.update_prod]))
  = ["lookup production"; "post #releases"; "lookup production"; "post #releases"].
Proof. vm_compute. reflexivity. Qed.

(** ** Where the enrichment runs *)

(** C9 on the code.  No handler starts a goroutine: [Handle] calls
    [handlePayload] as an ordinary function call after [WriteHeader(200)].
    On a signed, well-formed request the upstream fetches and the Slack
    post are therefore events of the run of [Handle] itself, which returns
    only after the last of them. *)
Lemma C9_enrichment_inside_Handle :
  let signed body := sample.request "POST" body
                       (@expectedSignature reference.runtime "s" body) in
  exists blocksB blocksU blocksS,
    @build.Handle reference.runtime sample.upstream sample.unmarshalBuild
      sample.cfg (signed "{}")
    = ([EvWriteHeader 200;
        EvFetchBuilds "app" "production" "IOS" 10 0;
        EvFetchUpdateChannel "app" "production";
        EvFetchUpdates "app" "production" 10 0;
        EvPostMessage "#releases" blocksB], Normal tt)
    /\ @update.Handle reference.runtime sample.upstream sample.unmarshalUpdates
         sample.cfg (signed "[]")
       = ([EvWriteHeader 200;
           EvFetchUpdates "app" "production" 10 0;
           EvPostMessage "#releases" blocksU], Normal tt)
    /\ @submit.Handle reference.runtime sample.upstream sample.unmarshalSubmit
         sample.cfg (signed "{}")
       = ([EvWriteHeader 200;
           EvFetchSubmission "s1";
           EvPostMessage "#releases" blocksS], Normal tt).
Proof.
  cbv zeta. do 3 eexists. split; [|split]; vm_compute; reflexivity.
Qed.

(** ** float64 rounding

    [RN] is monotone, exact on dyadic numbers with a significand below
    2^53 and odd; truncation is monotone.  From these, bounds on the
    accessors and on the counts [formatDuration] prints. *)

Module float64_facts.
Import float64 analysis.
Local Open Scope Q_scope.

Lemma pow2_pos e : 0 < pow2 e.
Proof. apply Qpower_0_lt. reflexivity. Qed.

Lemma pow2_le a b : (a <= b)%Z -> pow2 a <= pow2 b.
Proof. intros. apply Qpower_le_compat_l; [assumption|discriminate]. Qed.

Lemma pow2_lt a b : (a < b)%Z -> pow2 a < pow2 b.
Proof. intros. apply Qpower_lt_compat_l; [assumption|reflexivity]. Qed.

Lemma pow2_plus a b : pow2 (a + b) == pow2 a * pow2 b.
Proof. apply Qpower_plus. discriminate. Qed.

Lemma pow2_Z k : (0 <= k)%Z -> pow2 k == inject_Z (2 ^ k).
Proof. intros. symmetry. apply (Zpower_Qpower 2 k H). Qed.

Lemma pow2_succ a : pow2 (a + 1) == 2 * pow2 a.
Proof. rewrite pow2_plus. change (pow2 1) with 2. ring. Qed.

(* n, d > 0: bounds via log2 *)
Lemma ilog2_spec x : 0 < x -> pow2 (ilog2 x) <= x /\ x < pow2 (ilog2 x + 1).
Proof.
  intros Hx. destruct x as [n d]. 
  assert (Hn : (0 < n)%Z). { unfold Qlt in Hx. simpl in Hx. lia. }
  unfold ilog2. cbn [Qnum Qden].
  set (ln := Z.log2 n). set (ld := Z.log2 (Z.pos d)).
  destruct (Z.log2_spec n Hn) as [Hn1 Hn2]. fold ln in Hn1, Hn2.
  destruct (Z.log2_spec (Z.pos d) eq_refl) as [Hd1 Hd2]. fold ld in Hd1, Hd2.
  assert (Hln : (0 <= ln)%Z) by apply Z.log2_nonneg.
  assert (Hld : (0 <= ld)%Z) by apply Z.log2_nonneg.
  (* x < pow2 (ln - ld + 1) and pow2 (ln - ld - 1) < x *)
  assert (Hup : n # d < pow2 (ln - ld + 1)).
  { replace (ln - ld + 1)%Z with ((ln + 1) - ld)%Z by ring.
    unfold pow2. rewrite Qpower_minus by discriminate.
    fold (pow2 (ln+1)) (pow2 ld). rewrite !pow2_Z by lia.
    apply Qlt_shift_div_l. { change 0 with (inject_Z 0). rewrite <- Zlt_Qlt. lia. }
    unfold Qlt, Qmult, inject_Z; simpl. nia. }
  assert (Hlow : pow2 (ln - ld - 1) < n # d).
  { replace (ln - ld - 1)%Z with (ln - (ld + 1))%Z by ring.
    unfold pow2. rewrite Qpower_minus by discriminate.
    fold (pow2 ln) (pow2 (ld + 1)). rewrite !pow2_Z by lia.
    apply Qlt_shift_div_r. { change 0 with (inject_Z 0). rewrite <- Zlt_Qlt. lia. }
    unfold Qlt, Qmult, inject_Z; simpl. nia. }
  destruct (Qle_bool (pow2 (ln - ld)) (n # d)) eqn:E.
  - apply Qle_bool_iff in E. split; assumption.
  - assert (Hlt : n # d < pow2 (ln - ld)).
    { apply Qnot_le_lt. intro Hc. apply Qle_bool_iff in Hc. congruence. }
    replace (ln - ld - 1 + 1)%Z with (ln - ld)%Z by ring.
    split; [apply Qlt_le_weak|]; assumption.
Qed.

Lemma binade_unique x e e' :
  pow2 e <= x -> x < pow2 (e + 1) -> pow2 e' <= x -> x < pow2 (e' + 1) -> e = e'.
Proof.
  intros H1 H2 H3 H4.
  destruct (Z.lt_trichotomy e e') as [Hlt|[Heq|Hgt]]; [|assumption|]; exfalso.
  - assert (pow2 (e + 1) <= pow2 e') by (apply pow2_le; lia). lra.
  - assert (pow2 (e' + 1) <= pow2 e) by (apply pow2_le; lia). lra.
Qed.

Lemma ilog2_mono x y : 0 < x -> x <= y -> (ilog2 x <= ilog2 y)%Z.
Proof.
  intros Hx Hxy.
  destruct (ilog2_spec x Hx) as [Hx1 Hx2].
  destruct (ilog2_spec y) as [Hy1 Hy2]; [lra|].
  destruct (Z.le_gt_cases (ilog2 x) (ilog2 y)) as [|Hgt]; [assumption|exfalso].
  assert (pow2 (ilog2 y + 1) <= pow2 (ilog2 x)) by (apply pow2_le; lia). lra.
Qed.

Lemma round_half_even_cases x :
  let f := Qfloor x in
  (round_half_even x = f /\ x - inject_Z f <= 1 # 2)
  \/ (round_half_even x = (f + 1)%Z /\ 1 # 2 <= x - inject_Z f).
Proof.
  cbv zeta. unfold round_half_even.
  destruct (Qcompare_spec (x - inject_Z (Qfloor x)) (1 # 2)) as [E|E|E].
  - destruct (Z.even (Qfloor x)); [left|right]; split; auto; rewrite E; apply Qle_refl.
  - left. split; [reflexivity|apply Qlt_le_weak; assumption].
  - right. split; [reflexivity|apply Qlt_le_weak; assumption].
Qed.

Lemma round_half_even_mono x y : x <= y -> (round_half_even x <= round_half_even y)%Z.
Proof.
  intros Hxy.
  pose proof (Qfloor_resp_le x y Hxy) as Hf.
  destruct (Z.eq_dec (Qfloor x) (Qfloor y)) as [Heq|Hne].
  - unfold round_half_even. rewrite <- Heq.
    destruct (Qcompare_spec (x - inject_Z (Qfloor x)) (1 # 2)) as [E|E|E];
    destruct (Qcompare_spec (y - inject_Z (Qfloor x)) (1 # 2)) as [E'|E'|E'];
      try lia; try (destruct (Z.even (Qfloor x)); lia); exfalso; lra.
  - destruct (round_half_even_cases x) as [[-> _]|[-> _]];
    destruct (round_half_even_cases y) as [[-> _]|[-> _]]; lia.
Qed.

Lemma round_half_even_Z n : round_half_even (inject_Z n) = n.
Proof.
  unfold round_half_even. rewrite Qfloor_Z.
  destruct (Qcompare_spec (inject_Z n - inject_Z n) (1 # 2)) as [E|E|E];
    [exfalso; lra|reflexivity|exfalso; lra].
Qed.

Lemma round_half_even_eq x n : x == inject_Z n -> round_half_even x = n.
Proof.
  intros E. apply Z.le_antisymm.
  - rewrite <- (round_half_even_Z n). apply round_half_even_mono. lra.
  - rewrite <- (round_half_even_Z n) at 1. apply round_half_even_mono. lra.
Qed.

Lemma ulp_pos x : 0 < ulp x.
Proof. apply pow2_pos. Qed.

(* the scaled significand lies in [2^52, 2^53) *)
Lemma scaled_range x : 0 < x ->
  inject_Z (2 ^ 52) <= x / ulp x /\ x / ulp x < inject_Z (2 ^ 53).
Proof.
  intros Hx. destruct (ilog2_spec x Hx) as [H1 H2].
  unfold ulp. set (e := ilog2 x) in *.
  assert (Hp := pow2_pos (e - 52)).
  assert (E1 : pow2 e == inject_Z (2 ^ 52) * pow2 (e - 52)).
  { rewrite <- pow2_Z by lia. rewrite <- pow2_plus. now replace (52 + (e - 52))%Z with e by ring. }
  assert (E2 : pow2 (e + 1) == inject_Z (2 ^ 53) * pow2 (e - 52)).
  { rewrite <- pow2_Z by lia. rewrite <- pow2_plus. now replace (53 + (e - 52))%Z with (e + 1)%Z by ring. }
  split.
  - apply Qle_shift_div_l; [assumption|]. rewrite <- E1. assumption.
  - apply Qlt_shift_div_r; [assumption|]. rewrite <- E2. assumption.
Qed.

Lemma RN_pos_range x : 0 < x ->
  pow2 (ilog2 x) <= RN_pos x /\ RN_pos x <= pow2 (ilog2 x + 1).
Proof.
  intros Hx. destruct (scaled_range x Hx) as [H1 H2].
  unfold RN_pos.
  assert (Hp := ulp_pos x).
  assert (L : (2 ^ 52 <= round_half_even (x / ulp x))%Z).
  { apply Z.le_trans with (round_half_even (inject_Z (2 ^ 52)));
      [rewrite round_half_even_Z; apply Z.le_refl|now apply round_half_even_mono]. }
  assert (U : (round_half_even (x / ulp x) <= 2 ^ 53)%Z).
  { apply Z.le_trans with (round_half_even (inject_Z (2 ^ 53)));
      [apply round_half_even_mono; lra|rewrite round_half_even_Z; apply Z.le_refl]. }
  unfold ulp in *. set (e := ilog2 x) in *.
  assert (E1 : pow2 e == inject_Z (2 ^ 52) * pow2 (e - 52)).
  { rewrite <- pow2_Z by lia. rewrite <- pow2_plus. now replace (52 + (e - 52))%Z with e by ring. }
  assert (E2 : pow2 (e + 1) == inject_Z (2 ^ 53) * pow2 (e - 52)).
  { rewrite <- pow2_Z by lia. rewrite <- pow2_plus. now replace (53 + (e - 52))%Z with (e + 1)%Z by ring. }
  rewrite E1, E2. split; apply Qmult_le_compat_r; try lra; rewrite <- Zle_Qle; assumption.
Qed.

Lemma RN_pos_mono x y : 0 < x -> x <= y -> RN_pos x <= RN_pos y.
Proof.
  intros Hx Hxy. assert (Hy : 0 < y) by lra.
  pose proof (ilog2_mono x y Hx Hxy) as He.
  destruct (Z.eq_dec (ilog2 x) (ilog2 y)) as [Heq|Hne].
  - unfold RN_pos, ulp. rewrite Heq.
    assert (Hp := pow2_pos (ilog2 y - 52)).
    apply Qmult_le_compat_r; [|lra].
    rewrite <- Zle_Qle. apply round_half_even_mono.
    apply Qmult_le_compat_r; [assumption|]. apply Qlt_le_weak, Qinv_lt_0_compat, Hp.
  - destruct (RN_pos_range x Hx) as [_ Hu]. destruct (RN_pos_range y Hy) as [Hl _].
    assert (pow2 (ilog2 x + 1) <= pow2 (ilog2 y)) by (apply pow2_le; lia). lra.
Qed.

Lemma RN_pos_pos x : 0 < x -> 0 < RN_pos x.
Proof.
  intros Hx. destruct (RN_pos_range x Hx) as [Hl _].
  pose proof (pow2_pos (ilog2 x)). lra.
Qed.

Lemma RN_mono x y : x <= y -> RN x <= RN y.
Proof.
  intros Hxy. unfold RN.
  destruct (Qcompare_spec x 0) as [Ex|Ex|Ex]; destruct (Qcompare_spec y 0) as [Ey|Ey|Ey];
    try (exfalso; lra); try apply Qle_refl.
  - apply Qlt_le_weak, RN_pos_pos; assumption.
  - assert (0 < RN_pos (- x)) by (apply RN_pos_pos; lra). lra.
  - apply Qopp_le_compat. apply RN_pos_mono; lra.
  - assert (0 < RN_pos (- x)) by (apply RN_pos_pos; lra).
    assert (0 < RN_pos y) by (apply RN_pos_pos; lra). lra.
  - apply RN_pos_mono; assumption.
Qed.

Lemma RN_eq x y : x == y -> RN x == RN y.
Proof. intros E. apply Qle_antisym; apply RN_mono; lra. Qed.

Lemma RN_0 : RN 0 == 0.
Proof. reflexivity. Qed.

Lemma RN_opp x : RN (- x) == - RN x.
Proof.
  unfold RN.
  destruct (Qcompare_spec x 0) as [E|E|E]; destruct (Qcompare_spec (- x) 0) as [E'|E'|E'];
    try (exfalso; lra); try reflexivity.
  - symmetry. apply Qopp_involutive.
  - apply Qopp_comp. apply Qle_antisym; apply RN_pos_mono; lra.
Qed.

(** A positive dyadic number with a significand below 2^53 is a float. *)
Lemma RN_pos_dyadic m k :
  (0 < m < 2 ^ 53)%Z -> (0 <= k)%Z ->
  RN_pos (inject_Z m / pow2 k) == inject_Z m / pow2 k.
Proof.
  intros Hm Hk. set (x := inject_Z m / pow2 k).
  assert (Hpk := pow2_pos k).
  assert (Hx : 0 < x).
  { unfold x. apply Qlt_shift_div_l; [assumption|]. rewrite Qmult_0_l.
    change 0 with (inject_Z 0). rewrite <- Zlt_Qlt. lia. }
  destruct (ilog2_spec x Hx) as [H1 H2]. set (e := ilog2 x) in *.
  (* 2^(e+k) <= m, hence e + k <= 52 *)
  assert (Hek : (e + k <= 52)%Z).
  { destruct (Z.le_gt_cases (e + k) 52) as [|Hgt]; [assumption|exfalso].
    assert (pow2 53 <= pow2 (e + k)) by (apply pow2_le; lia).
    assert (pow2 (e + k) <= inject_Z m).
    { rewrite pow2_plus. unfold x in H1.
      assert (Em : inject_Z m / pow2 k * pow2 k == inject_Z m) by (field; lra).
      rewrite <- Em. apply Qmult_le_compat_r; lra. }
    assert (inject_Z m < pow2 53).
    { rewrite pow2_Z by lia. rewrite <- Zlt_Qlt. lia. }
    lra. }
  unfold RN_pos, ulp. fold e.
  assert (Hpe := pow2_pos (e - 52)).
  assert (Hscaled : x / pow2 (e - 52) == inject_Z (m * 2 ^ (52 - e - k))).
  { rewrite inject_Z_mult, <- pow2_Z by lia.
    unfold x.
    assert (E : pow2 (52 - e - k) * pow2 k * pow2 (e - 52) == 1).
    { rewrite <- !pow2_plus. now replace (52 - e - k + k + (e - 52))%Z with 0%Z by ring. }
    assert (Hp3 := pow2_pos (52 - e - k)).
    transitivity (inject_Z m / pow2 k / pow2 (e - 52)
                  * (pow2 (52 - e - k) * pow2 k * pow2 (e - 52))).
    - rewrite E. ring.
    - field. split; lra. }
  rewrite (round_half_even_eq _ _ Hscaled).
  rewrite <- Hscaled. field. lra.
Qed.

Lemma RN_dyadic m k :
  (- 2 ^ 53 < m < 2 ^ 53)%Z -> (0 <= k)%Z ->
  RN (inject_Z m / pow2 k) == inject_Z m / pow2 k.
Proof.
  intros Hm Hk.
  assert (Hpk := pow2_pos k).
  destruct (Z.lt_trichotomy m 0) as [Hneg|[->|Hpos]].
  - assert (E : inject_Z m / pow2 k == - (inject_Z (- m) / pow2 k)).
    { rewrite inject_Z_opp. field. lra. }
    rewrite (RN_eq _ _ E), RN_opp, E. apply Qopp_comp.
    unfold RN.
    assert (Hx : 0 < inject_Z (- m) / pow2 k).
    { apply Qlt_shift_div_l; [assumption|]. rewrite Qmult_0_l.
      change 0 with (inject_Z 0). rewrite <- Zlt_Qlt. lia. }
    destruct (Qcompare_spec (inject_Z (- m) / pow2 k) 0); try (exfalso; lra).
    apply RN_pos_dyadic; lia.
  - assert (E : inject_Z 0 / pow2 k == 0) by (field; lra).
    rewrite (RN_eq _ _ E), E. reflexivity.
  - unfold RN.
    assert (Hx : 0 < inject_Z m / pow2 k).
    { apply Qlt_shift_div_l; [assumption|]. rewrite Qmult_0_l.
      change 0 with (inject_Z 0). rewrite <- Zlt_Qlt. lia. }
    destruct (Qcompare_spec (inject_Z m / pow2 k) 0); try (exfalso; lra).
    apply RN_pos_dyadic; lia.
Qed.

Lemma RN_Z n : (- 2 ^ 53 < n < 2 ^ 53)%Z -> RN (inject_Z n) == inject_Z n.
Proof.
  intros Hn.
  assert (E : inject_Z n == inject_Z n / pow2 0) by (change (pow2 0) with 1; field).
  transitivity (RN (inject_Z n / pow2 0)); [apply RN_eq, E|].
  transitivity (inject_Z n / pow2 0); [apply RN_dyadic; lia|symmetry; exact E].
Qed.

Lemma of_int_exact n : (- 2 ^ 53 < n < 2 ^ 53)%Z -> of_int n == inject_Z n.
Proof. apply RN_Z. Qed.

(** Truncation. *)
Lemma to_int_nonneg x k :
  (0 <= k)%Z -> inject_Z k <= x -> x < inject_Z (k + 1) -> to_int x = k.
Proof.
  intros Hk H1 H2. unfold to_int.
  assert (Hnum : (0 <= Qnum x)%Z).
  { assert (0 <= x). { apply Qle_trans with (inject_Z k); [|assumption].
      change 0 with (inject_Z 0). rewrite <- Zle_Qle. assumption. }
    unfold Qle in H. simpl in H. lia. }
  rewrite Z.quot_div_nonneg by lia.
  replace (Qnum x / Z.pos (Qden x))%Z with (Qfloor x) by (destruct x; reflexivity).
  pose proof (Qfloor_le x). pose proof (Qlt_floor x).
  assert (inject_Z (Qfloor x) < inject_Z (k + 1)) by lra.
  assert (inject_Z k < inject_Z (Qfloor x + 1)) by lra.
  rewrite <- Zlt_Qlt in *. lia.
Qed.

Lemma to_int_opp x : to_int (- x) = (- to_int x)%Z.
Proof. unfold to_int. destruct x as [n d]. simpl. apply Z.quot_opp_l. discriminate. Qed.

Lemma to_int_eq x y : x == y -> to_int x = to_int y.
Proof.
  intros E.
  assert (Hnn : forall a b, 0 <= a -> a == b -> to_int a = to_int b).
  { intros a b Ha Hab.
    set (k := Qfloor a).
    assert (0 <= k)%Z.
    { unfold k. change 0%Z with (Qfloor 0). apply Qfloor_resp_le. assumption. }
    pose proof (Qfloor_le a). pose proof (Qlt_floor a). fold k in H0, H1.
    rewrite (to_int_nonneg a k), (to_int_nonneg b k); auto; lra. }
  destruct (Qlt_le_dec x 0) as [Hneg|Hpos].
  - assert (to_int (- x) = to_int (- y)) by (apply Hnn; lra).
    rewrite !to_int_opp in H. lia.
  - now apply Hnn.
Qed.

Lemma to_int_nonpos x k :
  (k <= 0)%Z -> inject_Z (k - 1) < x -> x <= inject_Z k -> to_int x = k.
Proof.
  intros Hk H1 H2.
  assert (E : to_int (- x) = (- k)%Z).
  { apply to_int_nonneg; [lia| |].
    - rewrite inject_Z_opp. lra.
    - replace (- k + 1)%Z with (- (k - 1))%Z by ring. rewrite inject_Z_opp. lra. }
  rewrite to_int_opp in E. lia.
Qed.

Lemma Qltb_lt x y : Qltb x y = true -> x < y.
Proof.
  unfold Qltb. intros H. apply negb_true_iff in H.
  apply Qnot_le_lt. intros Hc. apply Qle_bool_iff in Hc. congruence.
Qed.

Lemma range_In lo n i : (lo <= i < lo + n)%Z -> In i (range lo n).
Proof.
  intros H. unfold range. apply in_map_iff.
  exists (Z.to_nat (i - lo)). split; [lia|]. apply in_seq. lia.
Qed.

Lemma accessor_Seconds d : Duration_Seconds d = accessor time_Second d.
Proof. reflexivity. Qed.
Lemma accessor_Minutes d : Duration_Minutes d = accessor time_Minute d.
Proof. reflexivity. Qed.
Lemma accessor_Hours d : Duration_Hours d = accessor time_Hour d.
Proof. reflexivity. Qed.

Lemma inject_Z_pos n : (0 < n)%Z -> 0 < inject_Z n.
Proof. intros. change 0 with (inject_Z 0). now rewrite <- Zlt_Qlt. Qed.

Lemma inject_Z_nonneg n : (0 <= n)%Z -> 0 <= inject_Z n.
Proof. intros. change 0 with (inject_Z 0). now rewrite <- Zle_Qle. Qed.

Lemma Qdiv_le_mono a b c : 0 < c -> a <= b -> a / c <= b / c.
Proof.
  intros Hc Hab. unfold Qdiv. apply Qmult_le_compat_r; [assumption|].
  apply Qlt_le_weak, Qinv_lt_0_compat, Hc.
Qed.

Lemma accessor_bounds unit rmax d :
  (0 < unit < 2 ^ 53)%Z -> (0 <= d)%Z -> (d / unit < 2 ^ 53)%Z ->
  (d mod unit <= rmax)%Z ->
  inject_Z (d / unit) <= accessor unit d
  /\ accessor unit d <= accessorMax unit rmax (d / unit).
Proof.
  intros Hunit Hd Hq Hr.
  unfold accessor, accessorMax, fracMax, add, div.
  rewrite Z.quot_div_nonneg, Z.rem_mod_nonneg by lia.
  assert (Hq0 : (0 <= d / unit)%Z) by (apply Z.div_pos; lia).
  pose proof (Z.mod_pos_bound d unit ltac:(lia)) as Hr0.
  pose proof (of_int_exact (d / unit) ltac:(lia)) as Eq.
  pose proof (of_int_exact (d mod unit) ltac:(lia)) as Er.
  pose proof (inject_Z_pos unit ltac:(lia)) as Hu.
  assert (Hlo : 0 <= RN (of_int (d mod unit) / inject_Z unit)).
  { apply Qle_trans with (RN 0); [apply Qle_refl|]. apply RN_mono.
    rewrite Er. apply Qle_shift_div_l; [assumption|]. rewrite Qmult_0_l.
    apply inject_Z_nonneg. lia. }
  assert (Hhi : RN (of_int (d mod unit) / inject_Z unit)
                <= RN (inject_Z rmax / inject_Z unit)).
  { apply RN_mono. rewrite Er. apply Qdiv_le_mono; [assumption|].
    rewrite <- Zle_Qle. assumption. }
  split.
  - apply Qle_trans with (RN (inject_Z (d / unit))).
    + rewrite RN_Z by lia. apply Qle_refl.
    + apply RN_mono. rewrite Eq. lra.
  - apply RN_mono. rewrite Eq. lra.
Qed.

Lemma accessorMax_mono unit rmax q q' :
  (q <= q')%Z -> accessorMax unit rmax q <= accessorMax unit rmax q'.
Proof.
  intros H. unfold accessorMax. apply RN_mono.
  rewrite Zle_Qle in H. lra.
Qed.

#[local] Instance RN_Proper : Proper (Qeq ==> Qeq) RN.
Proof. intros x y E. now apply RN_eq. Qed.

#[local] Instance to_int_Proper : Proper (Qeq ==> eq) to_int.
Proof. intros x y E. now apply to_int_eq. Qed.

Lemma to_int_between x lo hi :
  (0 <= lo)%Z -> inject_Z lo <= x -> x <= inject_Z hi ->
  (lo <= to_int x <= hi)%Z.
Proof.
  intros Hlo H1 H2.
  set (k := Qfloor x).
  assert (Hk : (lo <= k <= hi)%Z).
  { unfold k. rewrite <- (Qfloor_Z lo), <- (Qfloor_Z hi).
    split; apply Qfloor_resp_le; assumption. }
  pose proof (Qfloor_le x). pose proof (Qlt_floor x). fold k in H, H0.
  rewrite (to_int_nonneg x k); auto; lia.
Qed.

Lemma direct_exact unit qmax d :
  (0 < unit < 2 ^ 53)%Z -> (qmax < 2 ^ 53)%Z ->
  directCheck unit qmax = true ->
  (0 <= d)%Z -> (d / unit <= qmax)%Z ->
  to_int (accessor unit d) = (d / unit)%Z.
Proof.
  intros Hunit Hqmax Hcheck Hd Hq.
  assert (Hq0 : (0 <= d / unit)%Z) by (apply Z.div_pos; lia).
  pose proof (Z.mod_pos_bound d unit ltac:(lia)) as Hr0.
  destruct (accessor_bounds unit (unit - 1) d) as [Hlo Hhi]; try lia.
  unfold directCheck in Hcheck. rewrite forallb_forall in Hcheck.
  pose proof (Qltb_lt _ _ (Hcheck (d / unit)%Z ltac:(apply range_In; lia))) as Hlt.
  apply to_int_nonneg; [assumption|assumption|lra].
Qed.

Section Divided.
Variable D : Z.
Hypothesis HD : (0 < D < 2 ^ 20)%Z.
Variable d : Z.
Hypothesis Hd : (0 <= d < 2 ^ 63)%Z.

Let q : Z := (d / time_Hour)%Z.
Let a : Z := (d / (D * time_Hour))%Z.
Let count : Z := to_int (div (accessor time_Hour d) (inject_Z D)).

Lemma divided_facts :
  (0 <= q < 2 ^ 22)%Z /\ (q / D = a)%Z /\ (0 <= a <= q)%Z
  /\ (d mod (D * time_Hour) = time_Hour * (q mod D) + d mod time_Hour)%Z.
Proof.
  assert (Hq : (0 <= q < 2 ^ 22)%Z).
  { unfold q. change time_Hour with 3600000000000%Z.
    split; [apply Z.div_pos; lia|apply Z.div_lt_upper_bound; lia]. }
  assert (Ha : (q / D = a)%Z).
  { unfold q, a. rewrite Z.div_div; [|discriminate|lia].
    f_equal. apply Z.mul_comm. }
  split; [exact Hq|]. split; [exact Ha|]. split.
  - rewrite <- Ha. split; [apply Z.div_pos; lia|].
    apply Z.div_le_upper_bound; [lia|nia].
  - unfold q. rewrite (Z.mul_comm D), Z.rem_mul_r; [lia|discriminate|lia].
Qed.

Lemma divided_lower : inject_Z a <= div (accessor time_Hour d) (inject_Z D).
Proof.
  destruct divided_facts as (Hq & Ha & Ha0 & _).
  pose proof (Z.mod_pos_bound d time_Hour eq_refl) as Hr.
  assert (Hlo : inject_Z q <= accessor time_Hour d).
  { apply (accessor_bounds time_Hour (time_Hour - 1) d); fold q;
      [split; [reflexivity|reflexivity]|lia|lia|lia]. }
  unfold div.
  pose proof (inject_Z_pos D ltac:(lia)) as HDq.
  apply Qle_trans with (RN (inject_Z a)).
  - rewrite RN_Z; [apply Qle_refl|]. lia.
  - apply RN_mono. apply Qle_shift_div_l; [assumption|].
    apply Qle_trans with (inject_Z q); [|assumption].
    rewrite <- inject_Z_mult, <- Zle_Qle, <- Ha.
    pose proof (Z.mul_div_le q D ltac:(lia)). lia.
Qed.

Lemma divided_upper rmax q' :
  (d mod time_Hour <= rmax)%Z -> (q <= q')%Z ->
  div (accessor time_Hour d) (inject_Z D) <= countMax time_Hour rmax D q'.
Proof.
  intros Hr Hq'.
  destruct divided_facts as (Hq & _).
  assert (Hhi : accessor time_Hour d <= accessorMax time_Hour rmax q).
  { apply (accessor_bounds time_Hour rmax d); fold q;
      [split; [reflexivity|reflexivity]|lia|lia|lia]. }
  unfold div, countMax.
  apply RN_mono, Qdiv_le_mono; [apply inject_Z_pos; lia|].
  apply Qle_trans with (accessorMax time_Hour rmax q); [assumption|].
  now apply accessorMax_mono.
Qed.

Lemma divided_within_one : (a <= count <= a + 1)%Z.
Proof.
  destruct divided_facts as (Hq & Ha & Ha0 & _).
  apply to_int_between; [lia|apply divided_lower|].
  pose proof (Z.mod_pos_bound d time_Hour eq_refl) as Hr.
  apply Qle_trans with (countMax time_Hour (time_Hour - 1) D q);
    [apply divided_upper; lia|].
  unfold countMax, accessorMax, fracMax.
  pose proof (inject_Z_pos D ltac:(lia)) as HDq.
  assert (Hc : RN (inject_Z (time_Hour - 1) / inject_Z time_Hour) <= 1).
  { pose proof (RN_Z 1 ltac:(lia)) as E1. change (inject_Z 1) with 1 in E1.
    rewrite <- E1. apply RN_mono. vm_compute. discriminate. }
  assert (Hh : RN (inject_Z q
                   + RN (inject_Z (time_Hour - 1) / inject_Z time_Hour))
               <= inject_Z (q + 1)).
  { rewrite <- (RN_Z (q + 1)) by lia. apply RN_mono.
    rewrite inject_Z_plus. change (inject_Z 1) with 1. lra. }
  rewrite <- (RN_Z (a + 1)) by lia. apply RN_mono.
  apply Qle_shift_div_r; [assumption|].
  apply Qle_trans with (inject_Z (q + 1)); [assumption|].
  rewrite <- inject_Z_mult, <- Zle_Qle, <- Ha.
  pose proof (Z.mul_succ_div_gt q D ltac:(lia)). lia.
Qed.

Lemma divided_exact_if off rmax alo n :
  dividedCheck time_Hour rmax D off alo n = true ->
  (alo <= a < alo + n)%Z ->
  (q mod D <= off)%Z -> (d mod time_Hour <= rmax)%Z ->
  count = a.
Proof.
  intros Hcheck Hrange Hoff Hr.
  destruct divided_facts as (Hq & Ha & Ha0 & _).
  unfold dividedCheck in Hcheck. rewrite forallb_forall in Hcheck.
  pose proof (Qltb_lt _ _ (Hcheck a ltac:(apply range_In; lia))) as Hlt.
  apply to_int_nonneg; [lia|apply divided_lower|].
  apply Qle_lt_trans with (countMax time_Hour rmax D (D * a + off)); [|assumption].
  apply divided_upper; [assumption|].
  pose proof (Z.div_mod q D ltac:(lia)). lia.
Qed.

(** Exact count unless within a millisecond below a whole multiple. *)
Lemma divided_exact_ms alo n :
  dividedCheck time_Hour (time_Hour - 1) D (D - 2) alo n = true ->
  dividedCheck time_Hour (time_Hour - time_Millisecond) D (D - 1) alo n = true ->
  (alo <= a < alo + n)%Z ->
  (d mod (D * time_Hour) <= D * time_Hour - time_Millisecond)%Z ->
  count = a.
Proof.
  intros Hc1 Hc2 Hrange Hms.
  destruct divided_facts as (Hq & Ha & Ha0 & Hmod).
  pose proof (Z.mod_pos_bound d time_Hour eq_refl) as Hr.
  pose proof (Z.mod_pos_bound q D ltac:(lia)) as HqD.
  destruct (Z.le_gt_cases (q mod D) (D - 2)) as [Hsmall|Hlast].
  - apply (divided_exact_if (D - 2) (time_Hour - 1) alo n); auto; lia.
  - apply (divided_exact_if (D - 1) (time_Hour - time_Millisecond) alo n); auto; try lia.
    assert (q mod D = D - 1)%Z by lia.
    rewrite Hmod, H in Hms. lia.
Qed.

End Divided.

Lemma accessor_opp unit (d : Z) :
  unit <> 0%Z -> accessor unit (- d)%Z == - accessor unit d.
Proof.
  intros Hu. unfold accessor, add, div, of_int.
  rewrite Z.quot_opp_l, Z.rem_opp_l by assumption.
  rewrite !inject_Z_opp, !RN_opp.
  assert (E : - RN (inject_Z (Z.rem d unit)) / inject_Z unit
              == - (RN (inject_Z (Z.rem d unit)) / inject_Z unit)).
  { unfold Qdiv. ring. }
  rewrite E, RN_opp.
  transitivity (RN (- (RN (inject_Z (Z.quot d unit))
                       + RN (RN (inject_Z (Z.rem d unit)) / inject_Z unit)))).
  - apply RN_eq. ring.
  - apply RN_opp.
Qed.

Lemma seconds_within_one (d : Z) :
  (0 <= d <= 2 ^ 63)%Z ->
  (d / time_Second <= to_int (accessor time_Second d) <= d / time_Second + 1)%Z.
Proof.
  intros Hd.
  assert (Hq : (0 <= d / time_Second < 2 ^ 34)%Z).
  { change time_Second with 1000000000%Z.
    split; [apply Z.div_pos; lia|apply Z.div_lt_upper_bound; lia]. }
  pose proof (Z.mod_pos_bound d time_Second eq_refl) as Hr.
  destruct (accessor_bounds time_Second (time_Second - 1) d) as [Hlo Hhi];
    [split; reflexivity|lia|lia|lia|].
  apply to_int_between; [lia|assumption|].
  apply Qle_trans with (accessorMax time_Second (time_Second - 1) (d / time_Second));
    [assumption|].
  unfold accessorMax, fracMax.
  rewrite <- (RN_Z (d / time_Second + 1)) by lia. apply RN_mono.
  assert (Hc : RN (inject_Z (time_Second - 1) / inject_Z time_Second) <= 1).
  { pose proof (RN_Z 1 ltac:(lia)) as E1. change (inject_Z 1) with 1 in E1.
    rewrite <- E1. apply RN_mono. vm_compute. discriminate. }
  rewrite inject_Z_plus. change (inject_Z 1) with 1. lra.
Qed.

Lemma seconds_exact_ms (d : Z) :
  (0 <= d <= 2 ^ 63)%Z ->
  (d mod time_Second <= time_Second - time_Millisecond)%Z ->
  to_int (accessor time_Second d) = (d / time_Second)%Z.
Proof.
  intros Hd Hms.
  assert (Hq : (0 <= d / time_Second < 2 ^ 34)%Z).
  { change time_Second with 1000000000%Z.
    split; [apply Z.div_pos; lia|apply Z.div_lt_upper_bound; lia]. }
  destruct (accessor_bounds time_Second (time_Second - time_Millisecond) d)
    as [Hlo Hhi]; [split; reflexivity|lia|lia|lia|].
  apply to_int_nonneg; [lia|assumption|].
  apply Qle_lt_trans
    with (accessorMax time_Second (time_Second - time_Millisecond) (d / time_Second));
    [assumption|].
  set (q := (d / time_Second)%Z) in *.
  unfold accessorMax.
  assert (Hc : fracMax time_Second (time_Second - time_Millisecond) <= 1 - (1 # 1024)).
  { vm_compute. discriminate. }
  set (y := inject_Z ((q + 1) * 1024 - 1) / pow2 10).
  assert (Ey : y == inject_Z (q + 1) - (1 # 1024)).
  { unfold y. replace ((q + 1) * 1024 - 1)%Z with ((q + 1) * 1024 + -1)%Z by ring.
    rewrite inject_Z_plus, inject_Z_mult.
    change (pow2 10) with (inject_Z 1024). unfold Qdiv.
    change (/ inject_Z 1024) with (1 # 1024). change (inject_Z 1024) with (1024 # 1).
    change (inject_Z (-1)) with (-1 # 1). ring. }
  apply Qle_lt_trans with (RN y).
  - apply RN_mono. rewrite Ey, inject_Z_plus. change (inject_Z 1) with 1. lra.
  - unfold y. rewrite RN_dyadic by lia. fold y. rewrite Ey. lra.
Qed.

Lemma neg_seconds (d : Z) :
  (- 2 ^ 63 <= d < 0)%Z ->
  let n := to_int (accessor time_Second d) in
  let q := Z.quot d time_Second in
  (q - 1 <= n <= q)%Z
  /\ ((- (time_Second - time_Millisecond) <= Z.rem d time_Second)%Z -> n = q).
Proof.
  intros Hd. cbv zeta.
  assert (En : to_int (accessor time_Second d)
               = (- to_int (accessor time_Second (- d)%Z))%Z).
  { rewrite <- to_int_opp. apply to_int_eq.
    rewrite <- (Z.opp_involutive d) at 1.
    apply accessor_opp. discriminate. }
  assert (Eq : Z.quot d time_Second = (- (- d / time_Second))%Z).
  { rewrite <- (Z.opp_involutive d) at 1.
    rewrite Z.quot_opp_l by discriminate.
    now rewrite Z.quot_div_nonneg by (try reflexivity; lia). }
  assert (Er : Z.rem d time_Second = (- (- d mod time_Second))%Z).
  { rewrite <- (Z.opp_involutive d) at 1.
    rewrite Z.rem_opp_l by discriminate.
    now rewrite Z.rem_mod_nonneg by (try reflexivity; lia). }
  rewrite En, Eq, Er. split.
  - pose proof (seconds_within_one (- d)%Z ltac:(lia)). lia.
  - intros Hms. rewrite seconds_exact_ms by lia. reflexivity.
Qed.

Lemma check_seconds : directCheck time_Second 59 = true.
Proof. vm_compute. reflexivity. Qed.
Lemma check_minutes : directCheck time_Minute 59 = true.
Proof. vm_compute. reflexivity. Qed.
Lemma check_hours : directCheck time_Hour 23 = true.
Proof. vm_compute. reflexivity. Qed.
Lemma check_days : dividedCheck time_Hour (time_Hour - 1) 24 23 1 29 = true.
Proof. vm_compute. reflexivity. Qed.
Lemma check_months_inner :
  dividedCheck time_Hour (time_Hour - 1) (30 * 24) (30 * 24 - 2) 1 12 = true.
Proof. vm_compute. reflexivity. Qed.
Lemma check_months_last :
  dividedCheck time_Hour (time_Hour - time_Millisecond) (30 * 24) (30 * 24 - 1) 1 12
  = true.
Proof. vm_compute. reflexivity. Qed.
Lemma check_years_inner :
  dividedCheck time_Hour (time_Hour - 1) (365 * 24) (365 * 24 - 2) 1 292 = true.
Proof. vm_compute. reflexivity. Qed.
Lemma check_years_last :
  dividedCheck time_Hour (time_Hour - time_Millisecond) (365 * 24) (365 * 24 - 1) 1 292
  = true.
Proof. vm_compute. reflexivity. Qed.

End float64_facts.

(** ** Duration formatting *)

Lemma build_formatDuration_eq (d : Duration) :
  build.formatDuration d = update.formatDuration d.
Proof. reflexivity. Qed.

(** The rational model and the Standard Library's binary64 compute the same
    numbers for the hours and for the counts of months and years, here on
    durations next to a unit boundary, at both ends of the int64 range and
    in between. *)
Example float64_agrees_with_binary64 :
  forallb
    (fun d =>
       binary64.agree (Duration_Hours d) (binary64.Hours d)
       && binary64.agree (float64.div (Duration_Hours d) (inject_Z (30 * 24)))
            (binary64.div (binary64.Hours d) (binary64.of_Z (30 * 24)))
       && binary64.agree (float64.div (Duration_Hours d) (inject_Z (365 * 24)))
            (binary64.div (binary64.Hours d) (binary64.of_Z (365 * 24))))
    [15551999999999999; 15551999999000000; 63071999999999999; 2591999999999999;
     3599999999999; 1; 0; -5; 123456789012345678; 9223372036854775807;
     -9223372036854775808; -16777216999999999]
  = true.
Proof. vm_compute. reflexivity. Qed.

(** C6, as the code has it.  Both copies of formatDuration choose the unit
    by comparing the duration, an integer count of nanoseconds, with one
    minute, one hour, one day, 30 days and 365 days; a negative duration is
    under one minute and renders in seconds.  The count printed is the
    float64 value of the duration in that unit, converted to int by
    discarding the fraction.  For a duration from zero up to 30 days it is
    the truncated integer quotient.  For months, for years, and for the
    seconds of a negative duration, it is the truncated integer quotient or
    one more in magnitude, and it is the truncated quotient whenever the
    duration is not within a millisecond of the next whole multiple of the
    unit.  45 seconds renders as [45 seconds], 90 seconds as [1 minutes],
    25 hours as [1 days], 400 days as [1 years]. *)
Theorem C6_formatDuration (formatDuration : Duration -> string) (d : Duration) :
  In formatDuration [update.formatDuration; build.formatDuration] ->
  - 2 ^ 63 <= d < 2 ^ 63 ->
  let day := 24 * time_Hour in
  let month := 30 * day in
  let year := 365 * day in
  (d < 0 ->
      exists n, formatDuration d = itoa n ++ " seconds"
        /\ Z.quot d time_Second - 1 <= n <= Z.quot d time_Second
        /\ (- (time_Second - time_Millisecond) <= Z.rem d time_Second ->
            n = Z.quot d time_Second))
  /\ (0 <= d < time_Minute ->
      formatDuration d = itoa (d / time_Second) ++ " seconds")
  /\ (time_Minute <= d < time_Hour ->
      formatDuration d = itoa (d / time_Minute) ++ " minutes")
  /\ (time_Hour <= d < day ->
      formatDuration d = itoa (d / time_Hour) ++ " hours")
  /\ (day <= d < month ->
      formatDuration d = itoa (d / day) ++ " days")
  /\ (month <= d < year ->
      exists n, formatDuration d = itoa n ++ " months"
        /\ d / month <= n <= d / month + 1
        /\ (d mod month <= month - time_Millisecond -> n = d / month))
  /\ (year <= d ->
      exists n, formatDuration d = itoa n ++ " years"
        /\ d / year <= n <= d / year + 1
        /\ (d mod year <= year - time_Millisecond -> n = d / year))
  /\ (formatDuration (45 * time_Second) = "45 seconds"
      /\ formatDuration (90 * time_Second) = "1 minutes"
      /\ formatDuration (25 * time_Hour) = "1 days"
      /\ formatDuration (400 * day) = "1 years").
Proof.
  intros Hin Hd. cbv zeta.
  assert (E : forall x, formatDuration x = update.formatDuration x).
  { destruct Hin as [<-|[<-|[]]]; reflexivity. }
  rewrite !E. clear E Hin formatDuration.
  assert (Hsec : time_Second = 1000000000) by reflexivity.
  assert (Hmin : time_Minute = 60000000000) by reflexivity.
  assert (Hhour : time_Hour = 3600000000000) by reflexivity.
  split; [|split; [|split; [|split; [|split; [|split; [|split]]]]]];
    [| | | | | | |vm_compute; repeat split].
  all: unfold update.formatDuration;
    rewrite float64_facts.accessor_Seconds, float64_facts.accessor_Minutes,
      !float64_facts.accessor_Hours.
  - intros Hneg.
    destruct (Z.ltb_spec d time_Minute); [|lia].
    eexists. split; [reflexivity|]. apply float64_facts.neg_seconds. lia.
  - intros Hr.
    destruct (Z.ltb_spec d time_Minute); [|lia].
    rewrite (float64_facts.direct_exact time_Second 59 d);
      [reflexivity|lia|lia|exact float64_facts.check_seconds|lia|].
    apply Z.lt_succ_r, Z.div_lt_upper_bound; lia.
  - intros Hr.
    destruct (Z.ltb_spec d time_Minute); [lia|].
    destruct (Z.ltb_spec d time_Hour); [|lia].
    rewrite (float64_facts.direct_exact time_Minute 59 d);
      [reflexivity|lia|lia|exact float64_facts.check_minutes|lia|].
    apply Z.lt_succ_r, Z.div_lt_upper_bound; lia.
  - intros Hr.
    destruct (Z.ltb_spec d time_Minute); [lia|].
    destruct (Z.ltb_spec d time_Hour); [lia|].
    destruct (Z.ltb_spec d (24 * time_Hour)); [|lia].
    rewrite (float64_facts.direct_exact time_Hour 23 d);
      [reflexivity|lia|lia|exact float64_facts.check_hours|lia|].
    apply Z.lt_succ_r, Z.div_lt_upper_bound; lia.
  - intros Hr.
    destruct (Z.ltb_spec d time_Minute); [lia|].
    destruct (Z.ltb_spec d time_Hour); [lia|].
    destruct (Z.ltb_spec d (24 * time_Hour)); [lia|].
    destruct (Z.ltb_spec d (30 * 24 * time_Hour)); [|lia].
    rewrite (float64_facts.divided_exact_if 24 ltac:(lia) d ltac:(lia) 23 (time_Hour - 1) 1 29);
      [reflexivity|exact float64_facts.check_days| | |].
    + split; [apply Z.div_le_lower_bound; lia|apply Z.div_lt_upper_bound; lia].
    + pose proof (Z.mod_pos_bound (d / time_Hour) 24 eq_refl). lia.
    + pose proof (Z.mod_pos_bound d time_Hour eq_refl). lia.
  - intros Hr.
    destruct (Z.ltb_spec d time_Minute); [lia|].
    destruct (Z.ltb_spec d time_Hour); [lia|].
    destruct (Z.ltb_spec d (24 * time_Hour)); [lia|].
    destruct (Z.ltb_spec d (30 * 24 * time_Hour)); [lia|].
    destruct (Z.ltb_spec d (365 * 24 * time_Hour)); [|lia].
    eexists. split; [reflexivity|].
    change (30 * (24 * time_Hour)) with (30 * 24 * time_Hour).
    split.
    + apply (float64_facts.divided_within_one (30 * 24) ltac:(lia) d ltac:(lia)).
    + intros Hms.
      apply (float64_facts.divided_exact_ms (30 * 24) ltac:(lia) d ltac:(lia) 1 12);
        [exact float64_facts.check_months_inner|exact float64_facts.check_months_last| |exact Hms].
      split; [apply Z.div_le_lower_bound; lia|apply Z.div_lt_upper_bound; lia].
  - intros Hr.
    destruct (Z.ltb_spec d time_Minute); [lia|].
    destruct (Z.ltb_spec d time_Hour); [lia|].
    destruct (Z.ltb_spec d (24 * time_Hour)); [lia|].
    destruct (Z.ltb_spec d (30 * 24 * time_Hour)); [lia|].
    destruct (Z.ltb_spec d (365 * 24 * time_Hour)); [lia|].
    eexists. split; [reflexivity|].
    change (365 * (24 * time_Hour)) with (365 * 24 * time_Hour).
    split.
    + apply (float64_facts.divided_within_one (365 * 24) ltac:(lia) d ltac:(lia)).
    + intros Hms.
      apply (float64_facts.divided_exact_ms (365 * 24) ltac:(lia) d ltac:(lia) 1 292);
        [exact float64_facts.check_years_inner|exact float64_facts.check_years_last| |exact Hms].
      split; [apply Z.div_le_lower_bound; lia|apply Z.div_lt_upper_bound; lia].
Qed.

Lemma C6_formatDuration_witness :
  (exists n, update.formatDuration (- 1500000000) = itoa n ++ " seconds" /\ n = -1)
  /\ build.formatDuration 59999999999 = "59 seconds"
  /\ update.formatDuration (29 * (24 * time_Hour) + 23 * time_Hour) = "29 days"
  /\ (exists n,
         update.formatDuration (180 * (24 * time_Hour) - 1) = itoa n ++ " months"
         /\ 5 <= n <= 6)
  /\ (exists n,
         build.formatDuration (180 * (24 * time_Hour) - time_Millisecond)
         = itoa n ++ " months"
         /\ n = 5)
  /\ (exists n,
         build.formatDuration (400 * (24 * time_Hour)) = itoa n ++ " years"
         /\ n = 1).
Proof.
  split; [|split; [|split; [|split; [|split]]]].
  - destruct (C6_formatDuration update.formatDuration (- 1500000000))
      as (Hneg & _); [now left|lia|].
    destruct (Hneg ltac:(lia)) as (n & Hn & _ & Hexact).
    exists n. split; [exact Hn|]. apply Hexact. vm_compute. discriminate.
  - destruct (C6_formatDuration build.formatDuration 59999999999)
      as (_ & Hsec & _); [right; now left|lia|].
    apply Hsec. split; [lia|reflexivity].
  - destruct (C6_formatDuration update.formatDuration
                (29 * (24 * time_Hour) + 23 * time_Hour))
      as (_ & _ & _ & _ & Hday & _);
      [now left|split; [discriminate|reflexivity]|].
    apply Hday. split; [discriminate|reflexivity].
  - destruct (C6_formatDuration update.formatDuration (180 * (24 * time_Hour) - 1))
      as (_ & _ & _ & _ & _ & Hmonth & _);
      [now left|split; [discriminate|reflexivity]|].
    destruct (Hmonth ltac:(split; [discriminate|reflexivity])) as (n & Hn & Hb & _).
    exists n. split; [exact Hn|exact Hb].
  - destruct (C6_formatDuration build.formatDuration
                (180 * (24 * time_Hour) - time_Millisecond))
      as (_ & _ & _ & _ & _ & Hmonth & _);
      [right; now left|split; [discriminate|reflexivity]|].
    destruct (Hmonth ltac:(split; [discriminate|reflexivity])) as (n & Hn & _ & Hexact).
    exists n. split; [exact Hn|]. apply Hexact. discriminate.
  - destruct (C6_formatDuration build.formatDuration (400 * (24 * time_Hour)))
      as (_ & _ & _ & _ & _ & _ & Hyear & _);
      [right; now left|split; [discriminate|reflexivity]|].
    destruct (Hyear ltac:(discriminate)) as (n & Hn & _ & Hexact).
    exists n. split; [exact Hn|]. apply Hexact. discriminate.
Defined.

(** C6 as stated fails next to a unit boundary: 180 days less one nanosecond
    is under 365 days and holds five whole 30-day months, yet both copies
    print [6 months]; 730 days less one nanosecond holds one whole 365-day
    year and prints [2 years].  [Duration.Hours] rounds the float64 sum to
    4320 and to 17520.  Likewise a duration of -16777216.999999999 seconds
    prints [-16777217 seconds]. *)
Lemma C6_counterexample :
  let day := 24 * time_Hour in
  (0 <= 180 * day - 1 < 365 * day
   /\ (180 * day - 1) / (30 * day) = 5
   /\ update.formatDuration (180 * day - 1) = "6 months"
   /\ build.formatDuration (180 * day - 1) = "6 months")
  /\ (365 * day <= 730 * day - 1
      /\ (730 * day - 1) / (365 * day) = 1
      /\ update.formatDuration (730 * day - 1) = "2 years"
      /\ build.formatDuration (730 * day - 1) = "2 years")
  /\ (Z.quot (- 16777216999999999) time_Second = - 16777216
      /\ update.formatDuration (- 16777216999999999) = "-16777217 seconds"
      /\ build.formatDuration (- 16777216999999999) = "-16777217 seconds").
Proof.
  vm_compute. repeat split; discriminate.
Qed.

(** * Further properties of the code *)

(** ** What the scan returns *)

Section ScanSoundness.
Context `{Runtime}.
Variables (platform : expo.Platform) (createdAt : Time).

Lemma members_unparseable_message (u : expo.Update.t) (rest : list expo.Update.t) :
  unparseable platform u = true ->
  exists err,
    time_Parse_RFC3339 (expo.Update.CreatedAt u) = ErrR err
    /\ update.previousUpdateFor_members platform createdAt (u :: rest)
       = Some (ErrR ("failed to parse createdAt for update "
                       ++ expo.Update.Id u ++ ": " ++ err)).
Proof.
  unfold unparseable; simpl; intros Hu.
  destruct (expo.Platform_Equal _ _); simpl in *; [|discriminate].
  destruct (time_Parse_RFC3339 _) as [t|err]; [discriminate|].
  exists err. split; reflexivity.
Qed.

Lemma surviving_not_skipped (u : expo.Update.t) :
  surviving platform createdAt u = true -> skipped platform createdAt u = false.
Proof.
  unfold surviving, skipped.
  destruct (expo.Platform_Equal _ _); simpl; [|discriminate].
  destruct (time_Parse_RFC3339 _) as [t|]; [|discriminate].
  intros Hle. apply Z.leb_le in Hle. apply Z.ltb_ge. exact Hle.
Qed.

End ScanSoundness.

Lemma previousUpdateFor_sound `{Runtime} (platform : expo.Platform)
    (createdAt : Time) (updates : list (list expo.Update.t)) :
  (forall u,
      update.previousUpdateFor platform createdAt updates = OkR (Some u) ->
      exists pre post,
        List.concat updates = (pre ++ u :: post)%list
        /\ forallb (skipped platform createdAt) pre = true
        /\ surviving platform createdAt u = true)
  /\ (update.previousUpdateFor platform createdAt updates = OkR None ->
      forallb (skipped platform createdAt) (List.concat updates) = true)
  /\ (forall msg,
      update.previousUpdateFor platform createdAt updates = ErrR msg ->
      exists pre u post err,
        List.concat updates = (pre ++ u :: post)%list
        /\ forallb (skipped platform createdAt) pre = true
        /\ expo.Platform_Equal (expo.Update.Platform u) platform = true
        /\ time_Parse_RFC3339 (expo.Update.CreatedAt u) = ErrR err
        /\ msg = "failed to parse createdAt for update "
                   ++ expo.Update.Id u ++ ": " ++ err).
Proof.
  rewrite previousUpdateFor_concat.
  destruct (scan_cases platform createdAt (List.concat updates))
    as [Hall|(pre & v & post & Hcat & Hpre & [Hv|Hv])].
  - rewrite <- (app_nil_r (List.concat updates)).
    rewrite members_skipped by exact Hall. simpl.
    rewrite app_nil_r.
    split; [intros u [=]|]. split; [auto|intros msg [=]].
  - rewrite Hcat, members_skipped, members_surviving by assumption.
    split; [|split].
    + intros u [= <-]. exists pre, post. auto.
    + intros [=].
    + intros msg [=].
  - rewrite Hcat, members_skipped by assumption.
    destruct (members_unparseable_message platform createdAt v post Hv)
      as (err & Hparse & ->).
    split; [intros u [=]|]. split; [intros [=]|].
    intros msg [= <-]. exists pre, v, post, err.
    unfold unparseable in Hv. apply andb_true_iff in Hv as [Hplat _].
    auto.
Qed.

(** X1. Whatever previousUpdateFor returns is explained by its input: a
    returned update is a member of the groups, has the platform and a
    timestamp not after the reference, and every member before it was
    passed over; nil means every member was passed over; an error names the
    id of the first member that could not be passed over, whose timestamp
    does not parse. *)
Theorem X1_previousUpdateFor_sound `{Runtime} (platform : expo.Platform)
    (createdAt : Time) (updates : list (list expo.Update.t)) :
  (forall u,
      update.previousUpdateFor platform createdAt updates = OkR (Some u) ->
      exists pre post,
        List.concat updates = (pre ++ u :: post)%list
        /\ forallb (skipped platform createdAt) pre = true
        /\ surviving platform createdAt u = true)
  /\ (update.previousUpdateFor platform createdAt updates = OkR None ->
      forallb (skipped platform createdAt) (List.concat updates) = true)
  /\ (forall msg,
      update.previousUpdateFor platform createdAt updates = ErrR msg ->
      exists pre u post err,
        List.concat updates = (pre ++ u :: post)%list
        /\ forallb (skipped platform createdAt) pre = true
        /\ expo.Platform_Equal (expo.Update.Platform u) platform = true
        /\ time_Parse_RFC3339 (expo.Update.CreatedAt u) = ErrR err
        /\ msg = "failed to parse createdAt for update "
                   ++ expo.Update.Id u ++ ": " ++ err).
Proof. exact (previousUpdateFor_sound platform createdAt updates). Qed.

Lemma X1_previousUpdateFor_sound_witness :
  (exists pre post,
      List.concat [[sample.u3; sample.a3]; [sample.u1]]
      = (pre ++ sample.u1 :: post)%list
      /\ forallb (@skipped reference.runtime "ios" sample.t_2024_01_02) pre = true
      /\ @surviving reference.runtime "ios" sample.t_2024_01_02 sample.u1 = true)
  /\ forallb (@skipped reference.runtime "ios" sample.t_2024_01_02)
       (List.concat [[sample.u3; sample.a3]]) = true.
Proof.
  split.
  - apply (proj1 (@X1_previousUpdateFor_sound reference.runtime "ios"
                    sample.t_2024_01_02 [[sample.u3; sample.a3]; [sample.u1]])).
    reflexivity.
  - apply (proj1 (proj2 (@X1_previousUpdateFor_sound reference.runtime "ios"
                    sample.t_2024_01_02 [[sample.u3; sample.a3]]))).
    reflexivity.
Defined.

(** ** Newest first *)

Lemma newestFirst_split `{Runtime} (platform : expo.Platform)
    (pre mid post : list expo.Update.t) (v w : expo.Update.t) :
  newestFirst platform (pre ++ v :: mid ++ w :: post) = true ->
  notLaterThan platform v w = true.
Proof.
  induction pre as [|x pre IH]; simpl; intros Hs.
  - apply andb_true_iff in Hs as [Hs _].
    rewrite forallb_forall in Hs. apply Hs.
    apply in_or_app. right. now left.
  - apply andb_true_iff in Hs as [_ Hs]. auto.
Qed.

(** X2. When the members of the platform come newest first, the update
    previousUpdateFor returns is the most recent one not after the
    reference: no member of the platform with a timestamp not after the
    reference is stamped later than it. *)
Theorem X2_previousUpdateFor_most_recent `{Runtime} (platform : expo.Platform)
    (createdAt : Time) (updates : list (list expo.Update.t))
    (u : expo.Update.t) (tu : Time) :
  newestFirst platform (List.concat updates) = true ->
  update.previousUpdateFor platform createdAt updates = OkR (Some u) ->
  time_Parse_RFC3339 (expo.Update.CreatedAt u) = OkR tu ->
  tu <= createdAt
  /\ forall w tw,
       In w (List.concat updates) ->
       expo.Platform_Equal (expo.Update.Platform w) platform = true ->
       time_Parse_RFC3339 (expo.Update.CreatedAt w) = OkR tw ->
       tw <= createdAt ->
       tw <= tu.
Proof.
  intros Hsorted Hres Hparse.
  destruct (proj1 (previousUpdateFor_sound platform createdAt updates) u Hres)
    as (pre & post & Hcat & Hpre & Hu).
  assert (Htu : tu <= createdAt).
  { unfold surviving in Hu. rewrite Hparse in Hu.
    apply andb_true_iff in Hu as [_ Hu]. now apply Z.leb_le. }
  assert (Hplat : expo.Platform_Equal (expo.Update.Platform u) platform = true).
  { unfold surviving in Hu. now apply andb_true_iff in Hu as [Hu _]. }
  split; [exact Htu|].
  intros w tw Hin Hw Hpw Htw.
  rewrite Hcat in Hin. apply in_app_or in Hin as [Hin|[<-|Hin]].
  - rewrite forallb_forall in Hpre. specialize (Hpre w Hin).
    unfold skipped in Hpre. rewrite Hw, Hpw in Hpre. simpl in Hpre.
    apply Z.ltb_lt in Hpre. lia.
  - rewrite Hparse in Hpw. injection Hpw as <-. lia.
  - apply in_split in Hin as (mid & post' & ->).
    rewrite Hcat in Hsorted.
    pose proof (newestFirst_split platform pre mid post' u w Hsorted) as Hle.
    unfold notLaterThan in Hle. rewrite Hplat, Hw, Hparse, Hpw in Hle.
    simpl in Hle. now apply Z.leb_le.
Qed.

Lemma X2_previousUpdateFor_most_recent_witness :
  sample.t_2024_01_01 <= sample.t_2024_01_02
  /\ forall w tw,
       In w (List.concat [[sample.u3; sample.a3]; [sample.u1]]) ->
       @expo.Platform_Equal reference.runtime (expo.Update.Platform w) "ios" = true ->
       reference.Parse_RFC3339 (expo.Update.CreatedAt w) = OkR tw ->
       tw <= sample.t_2024_01_02 ->
       tw <= sample.t_2024_01_01.
Proof.
  apply (@X2_previousUpdateFor_most_recent reference.runtime "ios"
           sample.t_2024_01_02 [[sample.u3; sample.a3]; [sample.u1]] sample.u1
           sample.t_2024_01_01); reflexivity.
Defined.

(** ** What the search for the previous build returns *)

Lemma fetchPreviousBuild_scan_sound (id : string) (builds : list expo.Build.t)
    (prev : expo.Build.t) :
  build.fetchPreviousBuild_scan id builds = Some prev ->
  exists pre cur post,
    builds = (pre ++ cur :: prev :: post)%list
    /\ expo.Build.Id cur = id
    /\ forall x, In x pre -> expo.Build.Id x <> id.
Proof.
  induction builds as [|b rest IH]; [discriminate|].
  unfold build.fetchPreviousBuild_scan; fold build.fetchPreviousBuild_scan.
  destruct rest as [|next tl]; [discriminate|].
  destruct (String.eqb_spec (expo.Build.Id b) id) as [Heq|Hne].
  - intros [= <-]. exists [], b, tl. repeat split; auto.
  - intros Hscan. destruct (IH Hscan) as (pre & cur & post & Hsplit & Hcur & Hpre).
    exists (b :: pre), cur, post. rewrite Hsplit. repeat split; auto.
    intros x [<-|Hin]; auto.
Qed.

(** X3. fetchPreviousBuild asks the upstream once, for the ten most recent
    builds of the payload's app, channel and platform, and a build it
    returns stands in the page right after the first entry carrying the new
    build's id; when the ids of the page are pairwise distinct, the build
    returned is not the new build. *)
Theorem X3_fetchPreviousBuild_sound `{Runtime} `{expo.Upstream}
    (cfg : config.Config) (w : build.WebhookPayload.t)
    (builds : list expo.Build.t) (prev : expo.Build.t) :
  expo.ViewBuildsOnApp (expo.Client.Token (config.ExpoClient cfg))
    (build.WebhookPayload.AppId w)
    (build.Metadata.Channel (build.WebhookPayload.Metadata w))
    (strings_ToUpper (build.WebhookPayload.Platform w)) 10 0 = OkR builds ->
  snd (build.fetchPreviousBuild cfg w) = Normal (OkR (Some prev)) ->
  trace (build.fetchPreviousBuild cfg w)
  = [EvFetchBuilds (build.WebhookPayload.AppId w)
       (build.Metadata.Channel (build.WebhookPayload.Metadata w))
       (strings_ToUpper (build.WebhookPayload.Platform w)) 10 0]
  /\ (exists pre cur post,
         builds = (pre ++ cur :: prev :: post)%list
         /\ expo.Build.Id cur = build.WebhookPayload.Id w
         /\ forall x, In x pre -> expo.Build.Id x <> build.WebhookPayload.Id w)
  /\ (NoDup (map expo.Build.Id builds) ->
      expo.Build.Id prev <> build.WebhookPayload.Id w).
Proof.
  intros Hfetch Hres.
  unfold build.fetchPreviousBuild, expo.Client_FetchBuilds in *.
  cbn [bind emit ret] in *. rewrite Hfetch in *. cbn [snd trace fst app] in *.
  injection Hres as Hscan.
  split; [reflexivity|].
  destruct (fetchPreviousBuild_scan_sound _ _ _ Hscan)
    as (pre & cur & post & Hsplit & Hcur & Hpre).
  split; [exists pre, cur, post; auto|].
  intros Hnodup Heq. rewrite Hsplit, map_app in Hnodup. simpl in Hnodup.
  apply NoDup_remove_2 in Hnodup. apply Hnodup.
  apply in_or_app. right. left. congruence.
Qed.

Lemma X3_fetchPreviousBuild_sound_witness :
  (exists pre cur post,
      [sample.B3; sample.B2; sample.B1] = (pre ++ cur :: sample.B1 :: post)%list
      /\ expo.Build.Id cur = "b2"
      /\ forall x, In x pre -> expo.Build.Id x <> "b2")
  /\ expo.Build.Id sample.B1 <> "b2".
Proof.
  destruct (@X3_fetchPreviousBuild_sound reference.runtime sample.upstream
              sample.cfg sample.w2 [sample.B3; sample.B2; sample.B1] sample.B1
              eq_refl eq_refl) as (_ & Hsplit & Hdistinct).
  split; [exact Hsplit|]. apply Hdistinct.
  repeat constructor; simpl; intuition discriminate.
Defined.

(** ** One status per request *)

Section OneStatus.
Context `{Runtime} `{expo.Upstream}.
Variable cfg : config.Config.

Lemma oneStatus_respondsOnly (code : Z) :
  In code [400; 401; 405; 500] -> oneStatus (emit (EvWriteHeader code)).
Proof.
  intros Hin. exists code, []. unfold statusCodes.
  split; [reflexivity|]. split; [simpl in *; intuition|].
  split; [reflexivity|]. right. split; reflexivity.
Qed.

Lemma oneStatus_acknowledged (work : M unit) :
  forallb (fun e => negb (isWriteHeader e)) (trace work) = true ->
  oneStatus (emit (EvWriteHeader http.StatusOK) ;;; work).
Proof.
  intros Hquiet. rewrite acknowledged_run.
  exists 200, (trace work).
  split; [reflexivity|]. split; [now left|]. split; [exact Hquiet|now left].
Qed.

End OneStatus.

(** X4. Whatever the request, each of the three handlers writes exactly one
    status, one of 200, 400, 401, 405 and 500, as the first thing it does;
    unless that status is 200 it does nothing else: no upstream call and no
    message without the acknowledgment. *)
Theorem X4_one_status_first `{Runtime} `{expo.Upstream}
    (decodeUpdate : string -> Result (list update.Update.t))
    (decodeBuild : string -> Result build.WebhookPayload.t)
    (decodeSubmit : string -> Result submit.WebhookPayload.t)
    (cfg : config.Config) (r : http.Request) :
  oneStatus (update.Handle decodeUpdate cfg r)
  /\ oneStatus (build.Handle decodeBuild cfg r)
  /\ oneStatus (submit.Handle decodeSubmit cfg r).
Proof.
  unfold update.Handle, build.Handle, submit.Handle.
  destruct (negb (http.Method r =? "POST")%string);
    [repeat split; apply oneStatus_respondsOnly; simpl; auto|].
  destruct (http.Body r) as [body|err];
    [|repeat split; apply oneStatus_respondsOnly; simpl; auto].
  split; [|split].
  - destruct (negb _); [apply oneStatus_respondsOnly; simpl; auto|].
    destruct (decodeUpdate body); [|apply oneStatus_respondsOnly; simpl; auto].
    apply oneStatus_acknowledged, update_handlePayload_no_status.
  - destruct (negb _); [apply oneStatus_respondsOnly; simpl; auto|].
    destruct (decodeBuild body); [|apply oneStatus_respondsOnly; simpl; auto].
    apply oneStatus_acknowledged, build_handlePayload_no_status.
  - destruct (negb _); [apply oneStatus_respondsOnly; simpl; auto|].
    destruct (decodeSubmit body); [|apply oneStatus_respondsOnly; simpl; auto].
    apply oneStatus_acknowledged, submit_handlePayload_no_status.
Qed.

(** ** Requests without a usable signature *)

Lemma prefix_append (s t : string) : String.prefix s (s ++ t) = true.
Proof.
  induction s as [|a s IH]; [destruct t; reflexivity|].
  simpl. destruct (ascii_dec a a); [exact IH|contradiction].
Qed.

Lemma expectedSignature_prefix `{Runtime} (secret body : string) :
  String.prefix "sha1=" (expectedSignature secret body) = true.
Proof. apply prefix_append. Qed.

(** X5. A POST whose signature header is missing, empty, or does not start
    with [sha1=] is answered 401 by every handler, whatever the secret and
    the body, and nothing else is done. *)
Theorem X5_unsigned_rejected `{Runtime} `{expo.Upstream}
    (decodeUpdate : string -> Result (list update.Update.t))
    (decodeBuild : string -> Result build.WebhookPayload.t)
    (decodeSubmit : string -> Result submit.WebhookPayload.t)
    (cfg : config.Config) (r : http.Request) (body : string) :
  http.Method r = "POST" ->
  http.Body r = OkR body ->
  (String.prefix "sha1=" (http.Header_Get r "signature") = false ->
      update.Handle decodeUpdate cfg r = respondsOnly 401)
  /\ (String.prefix "sha1=" (http.Header_Get r "expo-signature") = false ->
      build.Handle decodeBuild cfg r = respondsOnly 401
      /\ submit.Handle decodeSubmit cfg r = respondsOnly 401).
Proof.
  intros Hmethod Hbody.
  unfold update.Handle, build.Handle, submit.Handle.
  rewrite Hmethod, Hbody. cbn [String.eqb Ascii.eqb Bool.eqb negb].
  split; intros Hprefix.
  - destruct (String.eqb_spec (expectedSignature (config.ExpoHMACSecret cfg) body)
                (http.Header_Get r "signature")) as [Heq|_]; [|reflexivity].
    rewrite <- Heq, expectedSignature_prefix in Hprefix. discriminate.
  - destruct (String.eqb_spec (expectedSignature (config.ExpoHMACSecret cfg) body)
                (http.Header_Get r "expo-signature")) as [Heq|_];
      [|split; reflexivity].
    rewrite <- Heq, expectedSignature_prefix in Hprefix. discriminate.
Qed.

Lemma X5_unsigned_rejected_witness :
  @update.Handle reference.runtime sample.upstream sample.unmarshalUpdates
    sample.cfg (sample.request "POST" "[]" "") = respondsOnly 401
  /\ @build.Handle reference.runtime sample.upstream sample.unmarshalBuild
       sample.cfg
       (sample.request "POST" "{}" "850413ce2dee4c4142838bab9e9086cb305da54d")
     = respondsOnly 401.
Proof.
  split.
  - apply (proj1 (@X5_unsigned_rejected reference.runtime sample.upstream
                    sample.unmarshalUpdates sample.unmarshalBuild
                    sample.unmarshalSubmit sample.cfg
                    (sample.request "POST" "[]" "") "[]" eq_refl eq_refl)).
    reflexivity.
  - apply (proj2 (@X5_unsigned_rejected reference.runtime sample.upstream
                    sample.unmarshalUpdates sample.unmarshalBuild
                    sample.unmarshalSubmit sample.cfg
                    (sample.request "POST" "{}"
                       "850413ce2dee4c4142838bab9e9086cb305da54d")
                    "{}" eq_refl eq_refl)).
    reflexivity.
Defined.

(** ** The payload loop of package update *)

Section UpdatePayload.
Context `{Runtime} `{expo.Upstream}.
Variable cfg : config.Config.

Lemma update_fetch_cases (u : update.Update.t) :
  exists tr r,
    update.fetchPreviousUpdate cfg u = (tr, Normal r)
    /\ (tr = [] \/ tr = [EvFetchUpdates (update.Update.AppId u)
                           (update.Update.Branch u) 10 0])
    /\ forall p, orNil r = Some p ->
         exists t, time_Parse_RFC3339 (expo.Update.CreatedAt p) = OkR t.
Proof.
  unfold update.fetchPreviousUpdate, expo.Client_FetchUpdates.
  destruct (time_Parse_RFC3339 (update.Update.CreatedAt u)) as [createdAt|err].
  - cbn [bind emit ret app].
    destruct (expo.ViewUpdateGroupsOnBranch _ _ _ _ _) as [updates|err].
    + eexists _, _. split; [reflexivity|]. split; [now right|].
      intros p Hp.
      destruct (update.previousUpdateFor (update.Update.Platform u) createdAt updates)
        as [[q|]|msg] eqn:Hscan; try discriminate.
      injection Hp as <-.
      destruct (proj1 (previousUpdateFor_sound _ _ _) q Hscan)
        as (pre & post & _ & _ & Hq).
      unfold surviving in Hq. apply andb_true_iff in Hq as [_ Hq].
      destruct (time_Parse_RFC3339 (expo.Update.CreatedAt q)) as [t|];
        [now exists t|discriminate].
    + eexists _, _. split; [reflexivity|]. split; [now right|]. discriminate.
  - eexists _, _. split; [reflexivity|]. split; [now left|]. discriminate.
Qed.

Lemma update_blocksFor_cases (u : update.Update.t) (previous : option expo.Update.t) :
  (forall p, previous = Some p ->
     exists t, time_Parse_RFC3339 (expo.Update.CreatedAt p) = OkR t) ->
  match previous with
  | None => exists blocks,
      update.blocksFor cfg u None = Normal (OkR blocks) /\ List.length blocks = 2%nat
  | Some p =>
      if (7 <=? String.length (expo.Update.GitCommitHash p))%nat
      then exists blocks,
        update.blocksFor cfg u (Some p) = Normal (OkR blocks)
        /\ List.length blocks = 3%nat
      else update.blocksFor cfg u (Some p) = Panicked
  end.
Proof.
  intros Hparse. destruct previous as [p|].
  - destruct (Hparse p eq_refl) as [t Ht].
    unfold update.blocksFor, slice_0_7. rewrite Ht.
    destruct (7 <=? String.length (expo.Update.GitCommitHash p))%nat;
      [|reflexivity].
    eexists. split; reflexivity.
  - eexists. split; reflexivity.
Qed.

(** One turn of the loop on an update that is not a preview. *)
Lemma update_handlePayload_step (u : update.Update.t) (rest : list update.Update.t) :
  isPreview u = false ->
  exists tr r,
    update.fetchPreviousUpdate cfg u = (tr, Normal r)
    /\ (tr = [] \/ tr = [EvFetchUpdates (update.Update.AppId u)
                           (update.Update.Branch u) 10 0])
    /\ ((update.blocksFor cfg u (orNil r) = Panicked
         /\ (exists p, orNil r = Some p
               /\ (String.length (expo.Update.GitCommitHash p) < 7)%nat)
         /\ update.handlePayload cfg (u :: rest) = (tr, Panicked))
        \/ (exists blocks,
              update.blocksFor cfg u (orNil r) = Normal (OkR blocks)
              /\ (List.length blocks = 2%nat /\ orNil r = None
                  \/ List.length blocks = 3%nat /\ orNil r <> None)
              /\ update.handlePayload cfg (u :: rest)
                 = ((tr ++ EvPostMessage (config.SlackChannel cfg) blocks
                        :: trace (update.handlePayload cfg rest))%list,
                    snd (update.handlePayload cfg rest)))).
Proof.
  intros Hpreview. unfold isPreview in Hpreview.
  destruct (update_fetch_cases u) as (tr & r & Hfetch & Htr & Hparse).
  exists tr, r. split; [exact Hfetch|]. split; [exact Htr|].
  cbn [update.handlePayload]. rewrite Hpreview, Hfetch. cbn [bind].
  pose proof (update_blocksFor_cases u (orNil r) Hparse) as Hblocks.
  destruct (orNil r) as [p|] eqn:Hprev.
  - destruct (Nat.leb_spec 7 (String.length (expo.Update.GitCommitHash p))).
    + destruct Hblocks as (blocks & Hb & Hlen). right. exists blocks.
      split; [exact Hb|]. split; [right; split; [exact Hlen|discriminate]|].
      rewrite Hb. cbn [bind lift emit ret app].
      destruct (update.handlePayload cfg rest) as [tr' r'].
      cbn [trace fst snd]. rewrite ?app_nil_r. reflexivity.
    + left. split; [exact Hblocks|]. split; [exists p; auto|].
      rewrite Hblocks. cbn [bind lift]. rewrite ?app_nil_r. reflexivity.
  - destruct Hblocks as (blocks & Hb & Hlen). right. exists blocks.
    split; [exact Hb|]. split; [left; auto|].
    rewrite Hb. cbn [bind lift emit ret app].
    destruct (update.handlePayload cfg rest) as [tr' r'].
    cbn [trace fst snd]. rewrite ?app_nil_r. reflexivity.
Qed.

Lemma update_handlePayload_preview (u : update.Update.t) (rest : list update.Update.t) :
  isPreview u = true ->
  update.handlePayload cfg (u :: rest) = update.handlePayload cfg rest.
Proof.
  unfold isPreview. intros Hpreview. cbn [update.handlePayload].
  now rewrite Hpreview.
Qed.

Lemma count_app (p : Event -> bool) (l1 l2 : list Event) :
  count p (l1 ++ l2) = (count p l1 + count p l2)%nat.
Proof. unfold count. now rewrite filter_app, length_app. Qed.

End UpdatePayload.

Lemma count_le_cons (p : Event -> bool) (e : Event) (l : list Event) :
  (count p l <= count p (e :: l) <= S (count p l))%nat.
Proof. unfold count. simpl. destruct (p e); simpl; lia. Qed.

(** ** The whole run of the update loop *)

Section UpdateLoop.
Context `{Runtime} `{expo.Upstream}.
Variable cfg : config.Config.

Lemma update_fetch_trace (v : update.Update.t) :
  trace (update.fetchPreviousUpdate cfg v)
  = match time_Parse_RFC3339 (update.Update.CreatedAt v) with
    | OkR _ => [EvFetchUpdates (update.Update.AppId v) (update.Update.Branch v) 10 0]
    | ErrR _ => []
    end.
Proof.
  unfold update.fetchPreviousUpdate, expo.Client_FetchUpdates.
  destruct (time_Parse_RFC3339 _); [|reflexivity].
  cbn [bind emit ret app].
  destruct (expo.ViewUpdateGroupsOnBranch _ _ _ _ _); reflexivity.
Qed.

(** One turn of the loop that does not panic: the lookup, then the post,
    then the rest of the payload. *)
Lemma update_handlePayload_turn (v : update.Update.t) (rest : list update.Update.t) :
  isPreview v = false ->
  (forall p, found (update.fetchPreviousUpdate cfg v) = Some p ->
     (7 <= String.length (expo.Update.GitCommitHash p))%nat) ->
  exists blocks,
    List.length blocks = (2 + some (found (update.fetchPreviousUpdate cfg v)))%nat
    /\ update.handlePayload cfg (v :: rest)
       = ((trace (update.fetchPreviousUpdate cfg v)
             ++ EvPostMessage (config.SlackChannel cfg) blocks
                  :: trace (update.handlePayload cfg rest))%list,
          snd (update.handlePayload cfg rest)).
Proof.
  intros Hpreview Hlong.
  destruct (update_handlePayload_step cfg v rest Hpreview)
    as (tr & r & Hfetch & _ & Hcases).
  unfold found in *. rewrite Hfetch in *. cbn [snd trace fst] in *.
  destruct Hcases as [(_ & (p & Hp & Hshort) & _)|(blocks & _ & Hlen & Hrun)].
  - specialize (Hlong p Hp). lia.
  - exists blocks. split; [|exact Hrun].
    destruct Hlen as [[Hlen ->]|[Hlen Hsome]]; [exact Hlen|].
    destruct (orNil r); [exact Hlen|now contradiction Hsome].
Qed.

Lemma update_handlePayload_whole (l : list update.Update.t) :
  let run := update.handlePayload cfg l in
  let others := filter (fun v => negb (isPreview v)) l in
  let parses (v : update.Update.t) :=
    match time_Parse_RFC3339 (update.Update.CreatedAt v) with
    | OkR _ => true
    | ErrR _ => false
    end in
  Forall (fun e => isPostMessage e = true
                   \/ exists v, In v others
                        /\ e = EvFetchUpdates (update.Update.AppId v)
                                 (update.Update.Branch v) 10 0) (trace run)
  /\ (snd run = Normal tt ->
      count isPostMessage (trace run) = List.length others
      /\ count isFetchUpdates (trace run) = List.length (filter parses others))
  /\ (snd run = Panicked ->
      exists v p,
        In v others
        /\ found (update.fetchPreviousUpdate cfg v) = Some p
        /\ (String.length (expo.Update.GitCommitHash p) < 7)%nat).
Proof.
  cbv zeta. induction l as [|v rest IH].
  - split; [constructor|]. split; [intros _; split; reflexivity|discriminate].
  - destruct (isPreview v) eqn:Hpreview.
    + rewrite (update_handlePayload_preview cfg v rest Hpreview).
      cbn [filter]. rewrite Hpreview. exact IH.
    + cbn [filter]. rewrite Hpreview. cbn [negb].
      destruct IH as (Hshape & Hnormal & Hpanic).
      pose proof (update_fetch_trace v) as Htrace.
      destruct (update_handlePayload_step cfg v rest Hpreview)
        as (tr & r & Hfetch & _ & [(_ & (p & Hp & Hshort) & ->)|(blocks & _ & _ & ->)]);
        rewrite Hfetch in Htrace; cbn [trace fst snd] in *.
      * split; [|split; [discriminate|]].
        -- rewrite Htrace.
           destruct (time_Parse_RFC3339 _); [constructor; [|constructor]|constructor].
           right. exists v. split; [now left|reflexivity].
        -- intros _. exists v, p. split; [now left|]. split; [|exact Hshort].
           unfold found. rewrite Hfetch. exact Hp.
      * split; [|split].
        -- apply Forall_app. split.
           ++ rewrite Htrace.
              destruct (time_Parse_RFC3339 _);
                [constructor; [|constructor]|constructor].
              right. exists v. split; [now left|reflexivity].
           ++ constructor; [now left|].
              eapply Forall_impl; [|exact Hshape].
              intros e [He|(x & Hx & He)]; [now left|].
              right. exists x. split; [now right|exact He].
        -- intros Hend. destruct (Hnormal Hend) as (Hposts & Hfetches).
           rewrite !count_app.
           change (EvPostMessage (config.SlackChannel cfg) blocks
                     :: trace (update.handlePayload cfg rest))
             with ([EvPostMessage (config.SlackChannel cfg) blocks]
                     ++ trace (update.handlePayload cfg rest))%list.
           rewrite !count_app, Hposts, Hfetches, Htrace. cbn [filter].
           destruct (time_Parse_RFC3339 (update.Update.CreatedAt v));
             unfold count; simpl; split; reflexivity.
        -- intros Hend. destruct (Hpanic Hend) as (x & p & Hx & Hfound & Hshort).
           exists x, p. split; [now right|]. split; assumption.
Qed.

End UpdateLoop.

(** C10. With ALLOW_PREVIEW unset, an update whose branch starts with [xxx]
    is skipped whole and the loop goes on.  On its own the update causes no
    event at all; a payload that contains it runs exactly as the payload
    without it; and no lookup in the run is for a branch that starts with
    [xxx].  The update after the skipped one is processed: its previous
    update is looked up (one request when its createdAt parses) and, unless
    a previous update found has a commit hash under seven bytes, its message
    of two or three blocks is posted to the channel before the loop moves
    on.  Over the whole payload, a run that ends without a panic has posted
    one message for each of the other updates that is not itself on an
    [xxx] branch and made one lookup request for each of them whose
    createdAt parses; and the only way the run stops early is a panic on
    such an update whose previous update has a short commit hash. *)
Theorem C10_preview_update_skipped `{Runtime} `{expo.Upstream}
    (cfg : config.Config) (pre post : list update.Update.t)
    (u : update.Update.t) :
  os_LookupEnv "ALLOW_PREVIEW" = None ->
  strings_HasPrefix (update.Update.Branch u) "xxx" = true ->
  let run := update.handlePayload cfg (pre ++ u :: post) in
  let lookup := update.fetchPreviousUpdate cfg in
  let parses (v : update.Update.t) :=
    match time_Parse_RFC3339 (update.Update.CreatedAt v) with
    | OkR _ => true
    | ErrR _ => false
    end in
  let others :=
    filter (fun v => negb (strings_HasPrefix (update.Update.Branch v) "xxx"))
      (pre ++ post) in
  update.handlePayload cfg [u] = ([], Normal tt)
  /\ run = update.handlePayload cfg (pre ++ post)
  /\ Forall (fun e => forall app branch limit offset,
                e = EvFetchUpdates app branch limit offset ->
                strings_HasPrefix branch "xxx" = false) (trace run)
  /\ (forall v rest,
        strings_HasPrefix (update.Update.Branch v) "xxx" = false ->
        (forall p, found (lookup v) = Some p ->
           (7 <= String.length (expo.Update.GitCommitHash p))%nat) ->
        exists blocks,
          List.length blocks = (2 + some (found (lookup v)))%nat
          /\ trace (lookup v)
             = (if parses v
                then [EvFetchUpdates (update.Update.AppId v)
                        (update.Update.Branch v) 10 0]
                else [])
          /\ update.handlePayload cfg (u :: v :: rest)
             = ((trace (lookup v)
                   ++ EvPostMessage (config.SlackChannel cfg) blocks
                        :: trace (update.handlePayload cfg rest))%list,
                snd (update.handlePayload cfg rest)))
  /\ (snd run = Normal tt ->
      count isPostMessage (trace run) = List.length others
      /\ count isFetchUpdates (trace run) = List.length (filter parses others))
  /\ (snd run = Panicked ->
      exists v p,
        In v others
        /\ found (lookup v) = Some p
        /\ (String.length (expo.Update.GitCommitHash p) < 7)%nat).
Proof.
  intros Henv Hprefix. cbv zeta.
  assert (Hpreview : forall v,
             isPreview v = strings_HasPrefix (update.Update.Branch v) "xxx").
  { intros v. unfold isPreview, update.allowPreviews. now rewrite Henv. }
  assert (Hskip : forall rest,
             update.handlePayload cfg (u :: rest) = update.handlePayload cfg rest).
  { intros rest. apply update_handlePayload_preview. now rewrite Hpreview. }
  assert (Hsame : update.handlePayload cfg (pre ++ u :: post)
                  = update.handlePayload cfg (pre ++ post)).
  { induction pre as [|x pre IH]; [apply Hskip|].
    cbn [app update.handlePayload]. rewrite IH. reflexivity. }
  assert (Hothers : filter (fun v => negb (isPreview v)) (pre ++ post)
                    = filter (fun v => negb (strings_HasPrefix
                                               (update.Update.Branch v) "xxx"))
                        (pre ++ post)).
  { apply filter_ext. intros v. now rewrite Hpreview. }
  destruct (update_handlePayload_whole cfg (pre ++ post))
    as (Hshape & Hnormal & Hpanic).
  rewrite Hothers in Hshape, Hnormal, Hpanic. rewrite Hsame.
  split; [now rewrite Hskip|]. split; [reflexivity|].
  split; [|split; [|split; [exact Hnormal|exact Hpanic]]].
  - eapply Forall_impl; [|exact Hshape].
    intros e [He|(v & Hv & ->)] app branch limit offset Heq.
    + subst e. discriminate.
    + injection Heq as _ <- _ _.
      apply filter_In in Hv as [_ Hv]. now apply negb_true_iff in Hv.
  - intros v rest Hv Hlong. rewrite Hskip.
    rewrite <- Hpreview in Hv.
    destruct (update_handlePayload_turn cfg v rest Hv Hlong)
      as (blocks & Hlen & Hrun).
    exists blocks. split; [exact Hlen|]. split; [|exact Hrun].
    rewrite update_fetch_trace.
    destruct (time_Parse_RFC3339 (update.Update.CreatedAt v)); reflexivity.
Qed.

Lemma C10_preview_update_skipped_witness :
  let handlePayload :=
    @update.handlePayload reference.runtime sample.upstream sample.cfg in
  handlePayload [sample.update_xxx] = ([], Normal tt)
  /\ handlePayload [sample.update_prod; sample.update_xxx; sample.update_prod]
     = handlePayload [sample.update_prod; sample.update_prod]
  /\ (exists blocks,
        List.length blocks = 3%nat
        /\ handlePayload [sample.update_xxx; sample.update_prod]
           = ([EvFetchUpdates "app" "production" 10 0;
               EvPostMessage "#releases" blocks], Normal tt))
  /\ count isPostMessage
       (trace (handlePayload
                 [sample.update_prod; sample.update_xxx; sample.update_prod]))
     = 2%nat
  /\ count isFetchUpdates
       (trace (handlePayload
                 [sample.update_prod; sample.update_xxx; sample.update_prod]))
     = 2%nat.
Proof.
  cbv zeta.
  destruct (@C10_preview_update_skipped reference.runtime sample.upstream sample.cfg
              [sample.update_prod] [sample.update_prod] sample.update_xxx
              eq_refl eq_refl)
    as (Halone & Hsame & _ & Hnext & Hcount & _).
  split; [exact Halone|]. split; [exact Hsame|]. split.
  - destruct (Hnext sample.update_prod [] eq_refl) as (blocks & Hlen & _ & Hrun).
    + intros p [= <-]. simpl. lia.
    + exists blocks. split; [exact Hlen|exact Hrun].
  - exact (Hcount eq_refl).
Defined.



(** X7. A lookup that yields no previous update, because the update's own
    timestamp does not parse, the upstream call fails, a timestamp in the
    answer does not parse, or nothing qualifies, does not stop the
    notification: the update is announced by the plain message of two
    blocks and the loop goes on to the next update. *)
Theorem X7_update_lookup_failure_still_posts `{Runtime} `{expo.Upstream}
    (cfg : config.Config) (u : update.Update.t) (rest : list update.Update.t) :
  isPreview u = false ->
  found (update.fetchPreviousUpdate cfg u) = None ->
  exists blocks,
    update.blocksFor cfg u None = Normal (OkR blocks)
    /\ List.length blocks = 2%nat
    /\ update.handlePayload cfg (u :: rest)
       = ((trace (update.fetchPreviousUpdate cfg u)
             ++ EvPostMessage (config.SlackChannel cfg) blocks
                  :: trace (update.handlePayload cfg rest))%list,
          snd (update.handlePayload cfg rest)).
Proof.
  intros Hpreview Hnone.
  destruct (update_handlePayload_step cfg u rest Hpreview)
    as (tr & r & Hfetch & _ & Hcases).
  unfold found in Hnone. rewrite Hfetch in *. cbn [snd trace fst] in *.
  rewrite Hnone in Hcases.
  destruct Hcases as [(_ & (p & Hp & _) & _)|(blocks & Hb & Hlen & Hrun)];
    [discriminate|].
  exists blocks. split; [exact Hb|]. split; [|exact Hrun].
  destruct Hlen as [[Hlen _]|[_ Hne]]; [exact Hlen|now destruct Hne].
Qed.

Lemma X7_update_lookup_failure_still_posts_witness :
  let staging := update.Update.mk "n3" "app" "g" "2024-01-02T00:00:00Z" "staging"
                   "ios" "2222222aaaa" in
  exists blocks,
    List.length blocks = 2%nat
    /\ @update.handlePayload reference.runtime sample.upstream sample.cfg
         [staging; sample.update_xxx]
       = ([EvFetchUpdates "app" "staging" 10 0; EvPostMessage "#releases" blocks],
          Normal tt).
Proof.
  cbv zeta.
  destruct (@X7_update_lookup_failure_still_posts reference.runtime sample.upstream
              sample.cfg
              (update.Update.mk "n3" "app" "g" "2024-01-02T00:00:00Z" "staging"
                 "ios" "2222222aaaa")
              [sample.update_xxx] eq_refl eq_refl) as (blocks & _ & Hlen & Hrun).
  exists blocks. split; [exact Hlen|exact Hrun].
Defined.

(** X8. When the previous update found carries a commit hash shorter than
    seven bytes, the run panics on that update after the lookup: nothing is
    posted for it, and the updates after it in the payload are not
    processed at all. *)
Theorem X8_update_short_hash_stops_payload `{Runtime} `{expo.Upstream}
    (cfg : config.Config) (u : update.Update.t) (rest : list update.Update.t)
    (p : expo.Update.t) :
  isPreview u = false ->
  found (update.fetchPreviousUpdate cfg u) = Some p ->
  (String.length (expo.Update.GitCommitHash p) < 7)%nat ->
  update.handlePayload cfg (u :: rest)
  = ([EvFetchUpdates (update.Update.AppId u) (update.Update.Branch u) 10 0],
     Panicked).
Proof.
  intros Hpreview Hfound Hshort.
  destruct (update_handlePayload_step cfg u rest Hpreview)
    as (tr & r & Hfetch & Htr & Hcases).
  unfold found in Hfound. rewrite Hfetch in Hfound. cbn [snd] in Hfound.
  rewrite Hfound in Hcases.
  assert (Hev : tr = [EvFetchUpdates (update.Update.AppId u)
                        (update.Update.Branch u) 10 0]).
  { destruct Htr as [->|Htr]; [|exact Htr].
    unfold update.fetchPreviousUpdate, expo.Client_FetchUpdates in Hfetch.
    destruct (time_Parse_RFC3339 _);
      [|injection Hfetch as <-; discriminate].
    cbn [bind emit ret app] in Hfetch.
    destruct (expo.ViewUpdateGroupsOnBranch _ _ _ _ _); discriminate. }
  subst tr.
  destruct Hcases as [(_ & _ & Hrun)|(blocks & Hb & _)]; [exact Hrun|].
  unfold update.blocksFor in Hb.
  destruct (time_Parse_RFC3339 _); [|discriminate].
  apply slice_0_7_panics in Hshort. rewrite Hshort in Hb. discriminate.
Qed.

Lemma X8_update_short_hash_stops_payload_witness :
  @update.handlePayload reference.runtime sample.upstream sample.cfg
    [update.Update.mk "n4" "app" "g" "2024-01-02T00:00:00Z" "short" "ios"
       "2222222aaaa";
     sample.update_prod]
  = ([EvFetchUpdates "app" "short" 10 0], Panicked).
Proof.
  apply (@X8_update_short_hash_stops_payload reference.runtime sample.upstream
           sample.cfg
           (update.Update.mk "n4" "app" "g" "2024-01-02T00:00:00Z" "short" "ios"
              "2222222aaaa")
           [sample.update_prod] sample.ushort); [reflexivity|reflexivity|].
  simpl. lia.
Defined.

(** ** The enrichment of a build *)

Section BuildPayload.
Context `{Runtime} `{expo.Upstream}.
Variable cfg : config.Config.
Variable w : build.WebhookPayload.t.

Let fetchBuilds : Event :=
  EvFetchBuilds (build.WebhookPayload.AppId w)
    (build.Metadata.Channel (build.WebhookPayload.Metadata w))
    (strings_ToUpper (build.WebhookPayload.Platform w)) 10 0.

Lemma build_fetchPreviousBuild_cases :
  exists r, build.fetchPreviousBuild cfg w = ([fetchBuilds], Normal r).
Proof.
  unfold build.fetchPreviousBuild, expo.Client_FetchBuilds.
  cbn [bind emit ret app].
  destruct (expo.ViewBuildsOnApp _ _ _ _ _ _); eexists; reflexivity.
Qed.

Lemma build_fetchPreviousUpdate_cases :
  exists tr r,
    build.fetchPreviousUpdate cfg w = (tr, Normal r)
    /\ forallb (fun e => isFetchUpdateChannel e || isFetchUpdates e) tr = true
    /\ forall p, orNil r = Some p ->
         exists t, time_Parse_RFC3339 (expo.Update.CreatedAt p) = OkR t.
Proof.
  unfold build.fetchPreviousUpdate, expo.Client_FetchUpdateChannel,
    expo.Client_FetchUpdates.
  destruct (time_Parse_RFC3339 (build.WebhookPayload.CreatedAt w)) as [createdAt|err];
    [|eexists _, _; repeat split; discriminate].
  cbn [bind emit ret app].
  destruct (expo.ViewUpdateChannelOnApp _ _ _) as [channel|err];
    [|eexists _, _; repeat split; discriminate].
  destruct (build.updateBranchFor _ _ =? "")%string;
    [eexists _, _; repeat split; discriminate|].
  cbn [bind emit ret app].
  destruct (expo.ViewUpdateGroupsOnBranch _ _ _ _ _) as [updates|err];
    [|eexists _, _; repeat split; discriminate].
  eexists _, _. split; [reflexivity|]. split; [reflexivity|].
  intros p Hp. rewrite build_previousUpdateFor_eq in Hp.
  destruct (update.previousUpdateFor (build.WebhookPayload.Platform w) createdAt updates)
    as [[q|]|msg] eqn:Hscan; try discriminate.
  injection Hp as <-.
  destruct (proj1 (previousUpdateFor_sound _ _ _) q Hscan)
    as (pre & post & _ & _ & Hq).
  unfold surviving in Hq. apply andb_true_iff in Hq as [_ Hq].
  destruct (time_Parse_RFC3339 (expo.Update.CreatedAt q)) as [t|];
    [now exists t|discriminate].
Qed.

(** The run, in terms of what the two lookups found. *)
Lemma build_handlePayload_run :
  exists rb tru ru,
    build.fetchPreviousBuild cfg w = ([fetchBuilds], Normal rb)
    /\ build.fetchPreviousUpdate cfg w = (tru, Normal ru)
    /\ (forall p, orNil ru = Some p ->
          exists t, time_Parse_RFC3339 (expo.Update.CreatedAt p) = OkR t)
    /\ build.handlePayload cfg w
       = match build.blocksFor cfg w (orNil rb) (orNil ru) with
         | Panicked => ((fetchBuilds :: tru)%list, Panicked)
         | Normal (ErrR _) => ((fetchBuilds :: tru)%list, Normal tt)
         | Normal (OkR blocks) =>
             ((fetchBuilds :: tru
                 ++ [EvPostMessage (config.SlackChannel cfg) blocks])%list,
              Normal tt)
         end.
Proof.
  destruct build_fetchPreviousBuild_cases as (rb & Hb).
  destruct build_fetchPreviousUpdate_cases as (tru & ru & Hu & _ & Hparse).
  exists rb, tru, ru. split; [exact Hb|]. split; [exact Hu|]. split; [exact Hparse|].
  unfold build.handlePayload. rewrite Hb, Hu. cbn [bind lift app].
  destruct (build.blocksFor cfg w (orNil rb) (orNil ru)) as [[blocks|err]|];
    cbn [bind emit ret app]; rewrite ?app_nil_r; reflexivity.
Qed.

End BuildPayload.

Lemma build_found `{Runtime} `{expo.Upstream} (cfg : config.Config)
    (w : build.WebhookPayload.t) rb tru ru :
  build.fetchPreviousBuild cfg w
  = ([EvFetchBuilds (build.WebhookPayload.AppId w)
        (build.Metadata.Channel (build.WebhookPayload.Metadata w))
        (strings_ToUpper (build.WebhookPayload.Platform w)) 10 0], Normal rb) ->
  build.fetchPreviousUpdate cfg w = (tru, Normal ru) ->
  found (build.fetchPreviousBuild cfg w) = orNil rb
  /\ found (build.fetchPreviousUpdate cfg w) = orNil ru
  /\ trace (build.fetchPreviousUpdate cfg w) = tru.
Proof. intros Hb Hu. unfold found. rewrite Hb, Hu. auto. Qed.

(** X9. A build payload whose own commit hash is shorter than seven bytes
    is never announced: the build page and the update lookups are still
    requested upstream, then the rendering panics and nothing is posted. *)
Theorem X9_build_short_payload_hash `{Runtime} `{expo.Upstream}
    (cfg : config.Config) (w : build.WebhookPayload.t) :
  (String.length (build.Metadata.GitCommitHash (build.WebhookPayload.Metadata w)) < 7)%nat ->
  build.handlePayload cfg w
  = ((EvFetchBuilds (build.WebhookPayload.AppId w)
        (build.Metadata.Channel (build.WebhookPayload.Metadata w))
        (strings_ToUpper (build.WebhookPayload.Platform w)) 10 0
        :: trace (build.fetchPreviousUpdate cfg w))%list,
     Panicked).
Proof.
  intros Hshort.
  destruct (build_handlePayload_run cfg w) as (rb & tru & ru & Hb & Hu & _ & ->).
  destruct (build_found cfg w rb tru ru Hb Hu) as (_ & _ & ->).
  apply FormatBuildVersion_panics in Hshort.
  unfold build.blocksFor. unfold build.Metadata.GitCommitHash in Hshort.
  rewrite Hshort. reflexivity.
Qed.

Lemma X9_build_short_payload_hash_witness :
  @build.handlePayload reference.runtime sample.upstream sample.cfg
    (sample.payload "b2" "production" "abc" "2024-01-02T00:00:00Z")
  = ([EvFetchBuilds "app" "production" "IOS" 10 0;
      EvFetchUpdateChannel "app" "production";
      EvFetchUpdates "app" "production" 10 0], Panicked).
Proof.
  apply (@X9_build_short_payload_hash reference.runtime sample.upstream sample.cfg
           (sample.payload "b2" "production" "abc" "2024-01-02T00:00:00Z")).
  simpl. lia.
Defined.

(** X10. When every commit hash the message shortens has seven bytes or
    more and the timestamp of the previous build, if one was found, parses,
    a build is announced by exactly one message, posted to the configured
    channel after all lookups: two blocks, plus one for a previous build
    found, plus one for a previous update found, whose timestamp always
    parses since the scan that returned it parsed it.  With nothing found,
    for instance when the new build is not on the fetched page or the
    lookups fail, the message has the two plain blocks. *)
Theorem X10_build_message_blocks `{Runtime} `{expo.Upstream}
    (cfg : config.Config) (w : build.WebhookPayload.t) :
  let previousBuild := found (build.fetchPreviousBuild cfg w) in
  let previousUpdate := found (build.fetchPreviousUpdate cfg w) in
  (7 <= String.length (build.Metadata.GitCommitHash (build.WebhookPayload.Metadata w)))%nat ->
  (forall b, previousBuild = Some b ->
     (7 <= String.length (expo.Build.GitCommitHash b))%nat
     /\ exists t, time_Parse_RFC3339 (expo.Build.CreatedAt b) = OkR t) ->
  (forall p, previousUpdate = Some p ->
     (7 <= String.length (expo.Update.GitCommitHash p))%nat) ->
  exists blocks,
    build.handlePayload cfg w
    = ((EvFetchBuilds (build.WebhookPayload.AppId w)
          (build.Metadata.Channel (build.WebhookPayload.Metadata w))
          (strings_ToUpper (build.WebhookPayload.Platform w)) 10 0
          :: trace (build.fetchPreviousUpdate cfg w)
          ++ [EvPostMessage (config.SlackChannel cfg) blocks])%list,
       Normal tt)
    /\ List.length blocks = (2 + some previousBuild + some previousUpdate)%nat.
Proof.
  cbv zeta. intros Hw Hb Hu.
  destruct (build_handlePayload_run cfg w) as (rb & tru & ru & Eb & Eu & Hparse & ->).
  destruct (build_found cfg w rb tru ru Eb Eu) as (Fb & Fu & Ft).
  rewrite Fb in *. rewrite Fu in *. rewrite Ft.
  unfold build.blocksFor, expo.FormatBuildVersion, slice_0_7, Exec_bind.
  unfold build.Metadata.GitCommitHash in Hw.
  apply Nat.leb_le in Hw. rewrite Hw.
  destruct (orNil rb) as [b|].
  - destruct (Hb b eq_refl) as (Hlen & t & Ht).
    unfold expo.Build.GitCommitHash in Hlen. apply Nat.leb_le in Hlen.
    rewrite Ht, Hlen.
    destruct (orNil ru) as [p|].
    + destruct (Hparse p eq_refl) as (tp & Htp).
      pose proof (Hu p eq_refl) as Hp. apply Nat.leb_le in Hp.
      rewrite Htp, Hp. eexists. split; reflexivity.
    + eexists. split; reflexivity.
  - destruct (orNil ru) as [p|].
    + destruct (Hparse p eq_refl) as (tp & Htp).
      pose proof (Hu p eq_refl) as Hp. apply Nat.leb_le in Hp.
      rewrite Htp, Hp. eexists. split; reflexivity.
    + eexists. split; reflexivity.
Qed.

Lemma X10_build_message_blocks_witness :
  (exists blocks,
      @build.handlePayload reference.runtime sample.upstream sample.cfg sample.w2
      = ([EvFetchBuilds "app" "production" "IOS" 10 0;
          EvFetchUpdateChannel "app" "production";
          EvFetchUpdates "app" "production" 10 0;
          EvPostMessage "#releases" blocks], Normal tt)
      /\ List.length blocks = 4%nat)
  /\ (exists blocks,
      @build.handlePayload reference.runtime sample.upstream sample.cfg
        (sample.payload "b9" "retired" "bbbbbbbb2" "2024-01-02T00:00:00Z")
      = ([EvFetchBuilds "app" "retired" "IOS" 10 0;
          EvFetchUpdateChannel "app" "retired";
          EvPostMessage "#releases" blocks], Normal tt)
      /\ List.length blocks = 2%nat).
Proof.
  split.
  - apply (@X10_build_message_blocks reference.runtime sample.upstream sample.cfg
             sample.w2).
    + simpl. lia.
    + intros b [= <-]. split; [simpl; lia|]. eexists. reflexivity.
    + intros p [= <-]. simpl. lia.
  - apply (@X10_build_message_blocks reference.runtime sample.upstream sample.cfg
             (sample.payload "b9" "retired" "bbbbbbbb2" "2024-01-02T00:00:00Z")).
    + simpl. lia.
    + intros b [=].
    + intros p [=].
Defined.

(** X11. A previous build whose createdAt does not parse suppresses the
    whole notification: the lookups are made, nothing is posted, and the
    run ends normally. *)
Theorem X11_build_malformed_previous_build `{Runtime} `{expo.Upstream}
    (cfg : config.Config) (w : build.WebhookPayload.t) (b : expo.Build.t)
    (err : string) :
  (7 <= String.length (build.Metadata.GitCommitHash (build.WebhookPayload.Metadata w)))%nat ->
  found (build.fetchPreviousBuild cfg w) = Some b ->
  time_Parse_RFC3339 (expo.Build.CreatedAt b) = ErrR err ->
  build.handlePayload cfg w
  = ((EvFetchBuilds (build.WebhookPayload.AppId w)
        (build.Metadata.Channel (build.WebhookPayload.Metadata w))
        (strings_ToUpper (build.WebhookPayload.Platform w)) 10 0
        :: trace (build.fetchPreviousUpdate cfg w))%list,
     Normal tt).
Proof.
  intros Hw Hb Herr.
  destruct (build_handlePayload_run cfg w) as (rb & tru & ru & Eb & Eu & _ & ->).
  destruct (build_found cfg w rb tru ru Eb Eu) as (Hfb & _ & ->).
  rewrite Hfb in Hb. rewrite Hb.
  unfold build.blocksFor, expo.FormatBuildVersion, slice_0_7, Exec_bind.
  unfold build.Metadata.GitCommitHash in Hw.
  apply Nat.leb_le in Hw. rewrite Hw, Herr. reflexivity.
Qed.

Lemma X11_build_malformed_previous_build_witness :
  @build.handlePayload (fixtures.runtime fixtures.complete) fixtures.upstream
    sample.cfg sample.w2
  = ([EvFetchBuilds "app" "production" "IOS" 10 0;
      EvFetchUpdateChannel "app" "production";
      EvFetchUpdates "app" "production" 10 0], Normal tt).
Proof.
  apply (@X11_build_malformed_previous_build (fixtures.runtime fixtures.complete)
           fixtures.upstream sample.cfg sample.w2 fixtures.Bstale
           "cannot parse last week as RFC3339").
  - simpl. lia.
  - reflexivity.
  - reflexivity.
Defined.

(** ** The enrichment of a submission *)

(** X12. submit.handlePayload asks for the submission once.  When the
    query fails the submission is still announced, under the generic title;
    when it succeeds and the submitted build's commit hash is shorter than
    seven bytes the run panics inside the fetch and nothing is posted;
    otherwise one message of two blocks is posted. *)
Theorem X12_submit_handlePayload `{expo.Upstream}
    (cfg : config.Config) (w : submit.WebhookPayload.t) :
  let query := expo.SubmissionByIdQuery (expo.Client.Token (config.ExpoClient cfg))
                 (submit.WebhookPayload.Id w) in
  let fetch := EvFetchSubmission (submit.WebhookPayload.Id w) in
  let hash s := expo.Build.GitCommitHash (expo.Submission.SubmittedBuild s) in
  (forall err, query = ErrR err ->
      submit.handlePayload cfg w
      = ([fetch;
          EvPostMessage (config.SlackChannel cfg)
            [header (expo.FormatTitle ":arrow_up:" "submission"
                       (submit.WebhookPayload.Platform w)
                       (submit.WebhookPayload.Status w));
             section (submit.detailsText w)]], Normal tt))
  /\ (forall s, query = OkR s -> (String.length (hash s) < 7)%nat ->
      submit.handlePayload cfg w = ([fetch], Panicked))
  /\ (forall s, query = OkR s -> (7 <= String.length (hash s))%nat ->
      exists title,
        submit.handlePayload cfg w
        = ([fetch;
            EvPostMessage (config.SlackChannel cfg)
              [header title; section (submit.detailsText w)]], Normal tt)).
Proof.
  cbv zeta. unfold submit.handlePayload, expo.Client_FetchSubmission.
  split; [|split].
  - intros err ->. reflexivity.
  - intros s -> Hshort. apply FormatBuildVersion_panics in Hshort.
    cbn [bind emit ret lift app]. rewrite Hshort. reflexivity.
  - intros s -> Hlong.
    unfold submit.blocksFor, expo.FormatBuildVersion, slice_0_7, Exec_bind.
    unfold expo.Build.GitCommitHash in Hlong. apply Nat.leb_le in Hlong.
    cbn [bind emit ret lift app]. rewrite Hlong.
    cbn [bind emit ret lift app]. rewrite Hlong.
    eexists. reflexivity.
Qed.

Lemma X12_submit_handlePayload_witness :
  (exists title,
      @submit.handlePayload sample.upstream sample.cfg
        (submit.WebhookPayload.mk "s1" "https://expo.dev/s" "ios" "finished"
           (submit.Info.mk (expo.Error.mk "" "")))
      = ([EvFetchSubmission "s1";
          EvPostMessage "#releases"
            [header title; section "See details <https://expo.dev/s|here>."]],
         Normal tt))
  /\ @submit.handlePayload sample.upstream sample.cfg
       (submit.WebhookPayload.mk "s404" "https://expo.dev/s" "ios" "errored"
          (submit.Info.mk (expo.Error.mk "rejected" "E1")))
     = ([EvFetchSubmission "s404";
         EvPostMessage "#releases"
           [header ":arrow_up: :apple_logo: :red_circle: | iOS submission errored.";
            section ("Error E1: rejected" ++ String "010" ""
                       ++ "See details <https://expo.dev/s|here>.")]],
        Normal tt).
Proof.
  split.
  - apply (proj2 (proj2 (@X12_submit_handlePayload
                           sample.upstream sample.cfg
                           (submit.WebhookPayload.mk "s1" "https://expo.dev/s" "ios"
                              "finished" (submit.Info.mk (expo.Error.mk "" ""))))))
      with (s := expo.Submission.mk "s1" (expo.App.mk "app" "Avy") sample.B2);
      [reflexivity|simpl; lia].
  - apply (proj1 (@X12_submit_handlePayload sample.upstream
                    sample.cfg
                    (submit.WebhookPayload.mk "s404" "https://expo.dev/s" "ios"
                       "errored" (submit.Info.mk (expo.Error.mk "rejected" "E1")))))
      with (err := "404").
    reflexivity.
Defined.

(** ** Loading the configuration from the environment *)

Section LoadFromEnvFacts.
Context `{Runtime}.

Lemma EnvTarget_dec (a b : EnvTarget) : {a = b} + {a <> b}.
Proof. decide equality. Qed.

Lemma slot_store_same (into : EnvTarget) (value : string) (st : EnvSlots) :
  slot into (store into value st) = value.
Proof. destruct into; reflexivity. Qed.

Lemma slot_store_other (t into : EnvTarget) (value : string) (st : EnvSlots) :
  t <> into -> slot t (store into value st) = slot t st.
Proof. destruct t, into; try reflexivity; intros Hne; now contradiction Hne. Qed.

Lemma LoadFromEnv_range_unset (order : list EnvTarget) (st : EnvSlots)
    (target : EnvTarget) :
  find (fun t => negb (envSet t)) order = Some target ->
  LoadFromEnv_range order st = ErrR (envName target ++ " not set").
Proof.
  revert st. induction order as [|into rest IH]; intros st; [discriminate|].
  cbn [find LoadFromEnv_range]. unfold envSet at 1.
  destruct (os_LookupEnv (envName into)) as [value|].
  - destruct (value =? "")%string; cbn [negb].
    + now intros [= <-].
    + apply IH.
  - now intros [= <-].
Qed.

Lemma LoadFromEnv_range_set (order : list EnvTarget) (st : EnvSlots) :
  find (fun t => negb (envSet t)) order = None ->
  exists st',
    LoadFromEnv_range order st = OkR st'
    /\ forall t, (In t order -> slot t st' = envValue t)
                 /\ (~ In t order -> slot t st' = slot t st).
Proof.
  revert st. induction order as [|into rest IH]; intros st.
  - intros _. exists st. split; [reflexivity|]. intros t. split; [intros []|reflexivity].
  - cbn [find LoadFromEnv_range]. unfold envSet at 1.
    destruct (os_LookupEnv (envName into)) as [value|] eqn:Hlookup;
      [|discriminate].
    destruct (value =? "")%string; cbn [negb]; [discriminate|].
    intros Hrest.
    destruct (IH (store into value st) Hrest) as (st' & Hrun & Hslots).
    exists st'. split; [exact Hrun|].
    intros t. destruct (Hslots t) as (Hin & Hout).
    destruct (in_dec EnvTarget_dec t rest) as [Hrest_in|Hrest_out].
    + split; [intros _; now apply Hin|]. intros Hno. contradiction Hno. now right.
    + split.
      * intros [<-|Hin']; [|contradiction].
        rewrite (Hout Hrest_out), slot_store_same.
        unfold envValue. now rewrite Hlookup.
      * intros Hno. rewrite (Hout Hrest_out). apply slot_store_other.
        intros ->. apply Hno. now left.
Qed.

Lemma config_LoadFromEnv_run (order : list EnvTarget) :
  incl envTargets order ->
  config_LoadFromEnv order
  = match find (fun t => negb (envSet t)) order with
    | Some target => ErrR (envName target ++ " not set")
    | None => OkR envConfig
    end.
Proof.
  intros Hall. unfold config_LoadFromEnv.
  destruct (find (fun t => negb (envSet t)) order) as [target|] eqn:Hfind.
  - now rewrite (LoadFromEnv_range_unset order _ target Hfind).
  - destruct (LoadFromEnv_range_set order (mkSlots "" "" "" "") Hfind)
      as (st' & -> & Hslots).
    assert (Hin : forall t, slot t st' = envValue t).
    { intros t. apply Hslots, Hall. destruct t; simpl; auto. }
    pose proof (Hin IntoSlackToken) as H1.
    pose proof (Hin IntoSlackChannel) as H2.
    pose proof (Hin IntoExpoHMACSecret) as H3.
    pose proof (Hin IntoExpoToken) as H4.
    cbn [slot] in H1, H2, H3, H4.
    unfold envConfig. now rewrite H1, H2, H3, H4.
Qed.

Lemma find_unset_all_set (order : list EnvTarget) :
  incl envTargets order ->
  (find (fun t => negb (envSet t)) order = None
   <-> forallb envSet envTargets = true).
Proof.
  intros Hall. split.
  - intros Hfind. apply forallb_forall. intros t Ht.
    pose proof (find_none _ _ Hfind t (Hall t Ht)) as Hset.
    now apply negb_false_iff in Hset.
  - intros Hset.
    destruct (find (fun t => negb (envSet t)) order) as [t|] eqn:Hfind;
      [|reflexivity].
    apply find_some in Hfind. destruct Hfind as (_ & Hneg).
    rewrite forallb_forall in Hset.
    rewrite (Hset t) in Hneg; [discriminate|]. destruct t; simpl; auto.
Qed.

End LoadFromEnvFacts.

(** X13. LoadFromEnv ranges over a map, whose iteration order Go leaves
    open.  Whatever order the four entries are visited in, the load
    succeeds exactly when all four variables are set and not empty, and the
    configuration returned is then the same: the secret, the two tokens and
    the channel of the environment.  Only the error depends on the order:
    it names the first entry visited whose variable is unset or empty. *)
Theorem X13_LoadFromEnv_any_order `{Runtime} (order : list EnvTarget) :
  incl envTargets order ->
  (forallb envSet envTargets = true -> config_LoadFromEnv order = OkR envConfig)
  /\ (forallb envSet envTargets = false ->
      exists target,
        find (fun t => negb (envSet t)) order = Some target
        /\ envSet target = false
        /\ config_LoadFromEnv order = ErrR (envName target ++ " not set")).
Proof.
  intros Hall. rewrite (config_LoadFromEnv_run order Hall).
  pose proof (find_unset_all_set order Hall) as Hiff.
  split.
  - intros Hset. apply Hiff in Hset. now rewrite Hset.
  - intros Hunset.
    destruct (find (fun t => negb (envSet t)) order) as [target|] eqn:Hfind.
    + exists target. split; [reflexivity|]. split; [|reflexivity].
      apply find_some in Hfind. now apply negb_true_iff.
    + rewrite (proj1 Hiff eq_refl) in Hunset. discriminate.
Qed.

Lemma X13_LoadFromEnv_any_order_witness :
  @config_LoadFromEnv (fixtures.runtime fixtures.complete) (rev envTargets)
  = OkR sample.cfg
  /\ (exists target,
        find (fun t => negb (@envSet (fixtures.runtime fixtures.partial) t))
          (rev envTargets) = Some target
        /\ @envSet (fixtures.runtime fixtures.partial) target = false
        /\ @config_LoadFromEnv (fixtures.runtime fixtures.partial) (rev envTargets)
           = ErrR (envName target ++ " not set")).
Proof.
  split.
  - apply (proj1 (@X13_LoadFromEnv_any_order (fixtures.runtime fixtures.complete)
                    (rev envTargets) ltac:(unfold incl; simpl; tauto))).
    reflexivity.
  - apply (proj2 (@X13_LoadFromEnv_any_order (fixtures.runtime fixtures.partial)
                    (rev envTargets) ltac:(unfold incl; simpl; tauto))).
    reflexivity.
Defined.

(** ** The serverless entrypoints *)

(** X14. The three Vercel entrypoints load the configuration on every
    request.  With a variable unset or empty each answers 500 to any
    request, whatever its method, body or signature, and does nothing
    else; with the four variables set each behaves as its package's Handle
    under the configuration of the environment, whatever the order the
    variables were read in. *)
Theorem X14_Handler `{Runtime} `{expo.Upstream}
    (decodeUpdate : string -> Result (list update.Update.t))
    (decodeBuild : string -> Result build.WebhookPayload.t)
    (decodeSubmit : string -> Result submit.WebhookPayload.t)
    (order : list EnvTarget) (r : http.Request) :
  incl envTargets order ->
  (forallb envSet envTargets = false ->
      update_Handler decodeUpdate order r = respondsOnly 500
      /\ build_Handler decodeBuild order r = respondsOnly 500
      /\ submit_Handler decodeSubmit order r = respondsOnly 500)
  /\ (forallb envSet envTargets = true ->
      update_Handler decodeUpdate order r = update.Handle decodeUpdate envConfig r
      /\ build_Handler decodeBuild order r = build.Handle decodeBuild envConfig r
      /\ submit_Handler decodeSubmit order r
         = submit.Handle decodeSubmit envConfig r).
Proof.
  intros Hall. unfold update_Handler, build_Handler, submit_Handler, Handler.
  rewrite (config_LoadFromEnv_run order Hall).
  pose proof (find_unset_all_set order Hall) as Hiff.
  destruct (find (fun t => negb (envSet t)) order) as [target|].
  - split; [repeat split|].
    intros Hset. apply Hiff in Hset. discriminate.
  - split; [|repeat split].
    intros Hunset. rewrite (proj1 Hiff eq_refl) in Hunset. discriminate.
Qed.

Lemma X14_Handler_witness :
  @update_Handler (fixtures.runtime fixtures.partial) sample.upstream
    sample.unmarshalUpdates envTargets
    (sample.request "POST" "[]" "sha1=b3e52e4ba3d4e1b4ef1fcd2e9ac0b2f0a3f0b9d1")
  = respondsOnly 500
  /\ @build_Handler (fixtures.runtime fixtures.complete) sample.upstream
       sample.unmarshalBuild (rev envTargets) (sample.request "GET" "{}" "")
     = respondsOnly 405.
Proof.
  split.
  - apply (proj1 (@X14_Handler (fixtures.runtime fixtures.partial) sample.upstream
                    sample.unmarshalUpdates sample.unmarshalBuild
                    sample.unmarshalSubmit envTargets
                    (sample.request "POST" "[]"
                       "sha1=b3e52e4ba3d4e1b4ef1fcd2e9ac0b2f0a3f0b9d1")
                    ltac:(unfold incl; simpl; tauto))).
    reflexivity.
  - rewrite (proj1 (proj2 (proj2 (@X14_Handler (fixtures.runtime fixtures.complete)
                    sample.upstream
                    sample.unmarshalUpdates sample.unmarshalBuild
                    sample.unmarshalSubmit (rev envTargets)
                    (sample.request "GET" "{}" "")
                    ltac:(unfold incl; simpl; tauto)) eq_refl))).
    reflexivity.
Defined.

(** ** The test client against the handlers *)

Lemma hex_digit_char (n : nat) :
  (n < 16)%nat -> exists a, hex.digit n = String a "".
Proof.
  intros Hn.
  do 16 (destruct n as [|n]; [eexists; reflexivity|]). lia.
Qed.

Lemma hex_digit_inj (n m : nat) :
  (n < 16)%nat -> (m < 16)%nat -> hex.digit n = hex.digit m -> n = m.
Proof.
  intros Hn Hm.
  do 16 (destruct n as [|n];
         [do 16 (destruct m as [|m]; [reflexivity || discriminate|]); lia|]).
  lia.
Qed.

Lemma hex_EncodeToString_inj (s t : string) :
  hex.EncodeToString s = hex.EncodeToString t -> s = t.
Proof.
  revert t. induction s as [|c s IH]; intros [|c' t]; cbn [hex.EncodeToString].
  - reflexivity.
  - destruct (hex_digit_char (nat_of_ascii c' / 16)) as (a & ->);
      [apply Nat.Div0.div_lt_upper_bound; apply (nat_ascii_bounded c')|].
    discriminate.
  - destruct (hex_digit_char (nat_of_ascii c / 16)) as (a & ->);
      [apply Nat.Div0.div_lt_upper_bound; apply (nat_ascii_bounded c)|].
    discriminate.
  - assert (Hhi : (nat_of_ascii c / 16 < 16)%nat)
      by (apply Nat.Div0.div_lt_upper_bound; apply (nat_ascii_bounded c)).
    assert (Hhi' : (nat_of_ascii c' / 16 < 16)%nat)
      by (apply Nat.Div0.div_lt_upper_bound; apply (nat_ascii_bounded c')).
    assert (Hlo : (nat_of_ascii c mod 16 < 16)%nat) by (apply Nat.mod_upper_bound; lia).
    assert (Hlo' : (nat_of_ascii c' mod 16 < 16)%nat) by (apply Nat.mod_upper_bound; lia).
    destruct (hex_digit_char _ Hhi) as (a & Ea).
    destruct (hex_digit_char _ Hhi') as (a' & Ea').
    destruct (hex_digit_char _ Hlo) as (b & Eb).
    destruct (hex_digit_char _ Hlo') as (b' & Eb').
    intros Heq. pose proof Heq as Heq'.
    rewrite Ea, Ea', Eb, Eb' in Heq'. cbn [append] in Heq'.
    injection Heq' as Haa Hbb Hrest.
    assert (E1 : (nat_of_ascii c / 16 = nat_of_ascii c' / 16)%nat).
    { apply hex_digit_inj; [assumption..|]. rewrite Ea, Ea'. now subst. }
    assert (E2 : (nat_of_ascii c mod 16 = nat_of_ascii c' mod 16)%nat).
    { apply hex_digit_inj; [assumption..|]. rewrite Eb, Eb'. now subst. }
    assert (E : nat_of_ascii c = nat_of_ascii c').
    { rewrite (Nat.div_mod_eq (nat_of_ascii c) 16),
        (Nat.div_mod_eq (nat_of_ascii c') 16). now rewrite E1, E2. }
    f_equal.
    + rewrite <- (ascii_nat_embedding c), <- (ascii_nat_embedding c'). now rewrite E.
    + now apply IH.
Qed.

Lemma append_inj_l (p s t : string) : p ++ s = p ++ t -> s = t.
Proof. induction p as [|a p IH]; cbn [append]; [auto|]. intros [= E]. auto. Qed.

Section RoundTrip.
Context `{Runtime}.
Variable CanonicalMIMEHeaderKey : string -> string.

Lemma header_Get_Set (h : header.t) (key value : string) :
  header.Get CanonicalMIMEHeaderKey
    (header.Set_ CanonicalMIMEHeaderKey h key value) key = value.
Proof. unfold header.Get, header.Set_. now rewrite String.eqb_refl. Qed.

Lemma request_signatures (opts : testclient.Options.t) (payload : string) :
  let r := testclient.request CanonicalMIMEHeaderKey opts payload in
  http.Header_Get r "signature"
  = expectedSignature (testclient.Options.ExpoHMACSecret opts) payload
  /\ http.Header_Get r "expo-signature"
     = expectedSignature (testclient.Options.ExpoHMACSecret opts) payload.
Proof.
  cbv zeta. unfold testclient.request. cbn [http.Header_Get].
  split; [apply header_Get_Set|].
  unfold header.Get, header.Set_ at 1.
  destruct (CanonicalMIMEHeaderKey "expo-signature"
            =? CanonicalMIMEHeaderKey "signature")%string; [reflexivity|].
  unfold header.Set_ at 1. now rewrite String.eqb_refl.
Qed.

Lemma expectedSignature_eqb (secret secret' body : string) :
  (expectedSignature secret body =? expectedSignature secret' body)%string
  = (hmac_sha1 secret body =? hmac_sha1 secret' body)%string.
Proof.
  unfold expectedSignature.
  destruct (String.eqb_spec (hmac_sha1 secret body) (hmac_sha1 secret' body))
    as [->|Hne]; [apply String.eqb_refl|].
  apply String.eqb_neq. intros Heq. apply Hne.
  now apply hex_EncodeToString_inj, (append_inj_l "sha1=").
Qed.

End RoundTrip.

(** X15. The request the test client builds is one every handler accepts
    when the server was started with the same secret: signed under [sha1=]
    in both headers the handlers read, it is never answered 401, 405 or
    500, whatever canonical form the header keys take.  It is answered 400
    when the payload file does not decode and acknowledged otherwise.  When
    the two secrets give different HMACs of the payload, every handler
    answers 401. *)
Theorem X15_test_client_round_trip `{Runtime} `{expo.Upstream}
    (CanonicalMIMEHeaderKey : string -> string)
    (os_ReadFile : string -> Result string)
    (http_NewRequest_error : string -> option string)
    (decodeUpdate : string -> Result (list update.Update.t))
    (decodeBuild : string -> Result build.WebhookPayload.t)
    (decodeSubmit : string -> Result submit.WebhookPayload.t)
    (client : testclient.Options.t) (server : server.Options.t)
    (r : http.Request) (cfg : config.Config) :
  testclient.main CanonicalMIMEHeaderKey os_ReadFile http_NewRequest_error client
  = OkR r ->
  server.Complete server = OkR cfg ->
  exists payload,
    os_ReadFile (testclient.Options.PayloadPath client) = OkR payload
    /\ (hmac_sha1 (server.Options.ExpoHMACSecret server) payload
        = hmac_sha1 (testclient.Options.ExpoHMACSecret client) payload ->
        update.Handle decodeUpdate cfg r
        = match decodeUpdate payload with
          | ErrR _ => respondsOnly 400
          | OkR updates => acknowledgesThen (update.handlePayload cfg updates)
          end
        /\ build.Handle decodeBuild cfg r
           = match decodeBuild payload with
             | ErrR _ => respondsOnly 400
             | OkR w => acknowledgesThen (build.handlePayload cfg w)
             end
        /\ submit.Handle decodeSubmit cfg r
           = match decodeSubmit payload with
             | ErrR _ => respondsOnly 400
             | OkR w => acknowledgesThen (submit.handlePayload cfg w)
             end)
    /\ (hmac_sha1 (server.Options.ExpoHMACSecret server) payload
        <> hmac_sha1 (testclient.Options.ExpoHMACSecret client) payload ->
        update.Handle decodeUpdate cfg r = respondsOnly 401
        /\ build.Handle decodeBuild cfg r = respondsOnly 401
        /\ submit.Handle decodeSubmit cfg r = respondsOnly 401).
Proof.
  unfold testclient.main, server.Complete. intros Hmain [= <-].
  destruct (testclient.Validate client); [discriminate|].
  destruct (os_ReadFile (testclient.Options.PayloadPath client)) as [payload|];
    [|discriminate].
  destruct (http_NewRequest_error (testclient.Options.Endpoint client));
    [discriminate|].
  injection Hmain as <-.
  exists payload. split; [reflexivity|].
  destruct (request_signatures CanonicalMIMEHeaderKey client payload) as (Hsig & Hexpo).
  unfold update.Handle, build.Handle, submit.Handle.
  rewrite Hsig, Hexpo. cbn [testclient.request http.Method http.Body config.ExpoHMACSecret].
  cbn [String.eqb Ascii.eqb Bool.eqb negb].
  rewrite expectedSignature_eqb.
  split.
  - intros ->. rewrite String.eqb_refl. cbn [negb].
    repeat split.
    + destruct (decodeUpdate payload); [apply acknowledged_run|reflexivity].
    + destruct (decodeBuild payload); [apply acknowledged_run|reflexivity].
    + destruct (decodeSubmit payload); [apply acknowledged_run|reflexivity].
  - intros Hne. apply String.eqb_neq in Hne. rewrite Hne. repeat split.
Qed.

Lemma X15_test_client_round_trip_witness :
  let client :=
    testclient.Options.mk "s" "payload.json" "http://localhost:8080/build" in
  let r := @testclient.request reference.runtime fixtures.canonical client "{}" in
  @build.Handle reference.runtime sample.upstream sample.unmarshalBuild sample.cfg r
  = acknowledgesThen
      (@build.handlePayload reference.runtime sample.upstream sample.cfg sample.w2)
  /\ @update.Handle reference.runtime sample.upstream sample.unmarshalUpdates
       (config.mk "other" (expo.Client.mk "token") "xoxb" "#releases") r
     = respondsOnly 401.
Proof.
  cbv zeta. split.
  - destruct (@X15_test_client_round_trip reference.runtime sample.upstream
                fixtures.canonical (fun _ => OkR "{}") (fun _ => None)
                sample.unmarshalUpdates sample.unmarshalBuild sample.unmarshalSubmit
                (testclient.Options.mk "s" "payload.json" "http://localhost:8080/build")
                (server.Options.mk "s" "token" "xoxb" "#releases" 8080)
                _ _ eq_refl eq_refl)
      as (payload & Hread & Hsame & _).
    injection Hread as <-.
    exact (proj1 (proj2 (Hsame eq_refl))).
  - destruct (@X15_test_client_round_trip reference.runtime sample.upstream
                fixtures.canonical (fun _ => OkR "{}") (fun _ => None)
                sample.unmarshalUpdates sample.unmarshalBuild sample.unmarshalSubmit
                (testclient.Options.mk "s" "payload.json" "http://localhost:8080/build")
                (server.Options.mk "other" "token" "xoxb" "#releases" 8080)
                _ _ eq_refl eq_refl)
      as (payload & Hread & _ & Hdiff).
    injection Hread as <-.
    apply Hdiff. vm_compute. discriminate.
Defined.

(** ** The two ways to configure the service *)

(** X16. The server's flags and the serverless environment are held to the
    same standard.  With the four variables set to the values of the four
    flags, LoadFromEnv succeeds exactly when Validate accepts the options,
    and then returns the configuration Complete builds from them; the port
    plays no part. *)
Theorem X16_flags_and_environment_agree `{Runtime} (o : server.Options.t)
    (order : list EnvTarget) :
  incl envTargets order ->
  os_LookupEnv "SLACK_TOKEN" = Some (server.Options.SlackToken o) ->
  os_LookupEnv "SLACK_CHANNEL" = Some (server.Options.SlackChannel o) ->
  os_LookupEnv "EXPO_HMAC_SECRET" = Some (server.Options.ExpoHMACSecret o) ->
  os_LookupEnv "EXPO_TOKEN" = Some (server.Options.ExpoToken o) ->
  match server.Validate o with
  | None => config_LoadFromEnv order = server.Complete o
  | Some _ => exists err, config_LoadFromEnv order = ErrR err
  end.
Proof.
  intros Hall H1 H2 H3 H4.
  rewrite (config_LoadFromEnv_run order Hall).
  pose proof (find_unset_all_set order Hall) as Hiff.
  assert (Hset : forallb envSet envTargets
                 = negb (server.Options.SlackToken o =? "")%string
                   && (negb (server.Options.SlackChannel o =? "")%string
                   && (negb (server.Options.ExpoHMACSecret o =? "")%string
                   && (negb (server.Options.ExpoToken o =? "")%string && true)))).
  { unfold envTargets, forallb, envSet, envName. now rewrite H1, H2, H3, H4. }
  unfold server.Validate, server.Complete.
  destruct (server.Options.SlackToken o =? "")%string;
    [|destruct (server.Options.SlackChannel o =? "")%string;
      [|destruct (server.Options.ExpoHMACSecret o =? "")%string;
        [|destruct (server.Options.ExpoToken o =? "")%string]]];
    cbn [negb andb] in Hset.
  1-4: destruct (find (fun t => negb (envSet t)) order) as [target|];
    [eexists; reflexivity|];
    rewrite (proj1 Hiff eq_refl) in Hset; discriminate.
  rewrite (proj2 Hiff Hset).
  unfold envConfig, envValue, envName. now rewrite H1, H2, H3, H4.
Qed.

Lemma X16_flags_and_environment_agree_witness :
  @config_LoadFromEnv (fixtures.runtime fixtures.complete) (rev envTargets)
  = server.Complete (server.Options.mk "s" "token" "xoxb" "#releases" 8080)
  /\ exists err,
       @config_LoadFromEnv
         (fixtures.runtime
            (fun name => if (name =? "SLACK_CHANNEL")%string then Some ""
                         else fixtures.complete name))
         envTargets
       = ErrR err.
Proof.
  split.
  - apply (@X16_flags_and_environment_agree (fixtures.runtime fixtures.complete)
             (server.Options.mk "s" "token" "xoxb" "#releases" 8080)
             (rev envTargets) ltac:(unfold incl; simpl; tauto)
             eq_refl eq_refl eq_refl eq_refl).
  - apply (@X16_flags_and_environment_agree
             (fixtures.runtime
                (fun name => if (name =? "SLACK_CHANNEL")%string then Some ""
                             else fixtures.complete name))
             (server.Options.mk "s" "token" "xoxb" "" 0)
             envTargets ltac:(unfold incl; simpl; tauto)
             eq_refl eq_refl eq_refl eq_refl).
Defined.
